(** * Listener merging and filter-chain translation

    A shallow embedding of
    [internal/kgateway/translator/listener/gateway_listener_translator.go]:
    the merge of Gateway-API listeners by port ([AppendListener] and its four
    per-protocol helpers), the HTTP, HTTPS and TCP/TLS filter-chain builders
    and the per-port assembly ([TranslateListener]).

    Conventions of the embedding.
    - A Go pointer that may be nil is an [option]; a slice is a [list]
      (a nil slice and an empty slice are both [[]]).
    - [map[string]V] is a [gmap string V].  Go leaves the order in which
      [range] visits a map unspecified: the order is supplied by a
      [MapRange], a permutation of the entries.
    - Status reporting (the [reports.Reporter] family) is a log of events:
      every [SetCondition] call appends one event naming the reporter it was
      called on.  Functions that report return their result paired with the
      events they emitted, in program order.
    - Collaborators whose source lives in other packages (the route-rule
      translator, the secret lookup, the name sanitiser, ...) are the fields
      of the class [Collaborators]. *)

From Stdlib Require Import ZArith Ascii.
From stdpp Require Import base option list sorting gmap strings pretty fin_maps.

Open Scope string_scope.
Open Scope list_scope.
Open Scope Z_scope.

(** ** Kubernetes and Gateway-API data *)

Definition Hostname := string.
Definition PortNumber := Z.
Definition ProtocolType := string.

Definition HTTPProtocolType : ProtocolType := "HTTP".
Definition HTTPSProtocolType : ProtocolType := "HTTPS".
Definition TCPProtocolType : ProtocolType := "TCP".
Definition TLSProtocolType : ProtocolType := "TLS".

Definition TLSModeType := string.
Definition TLSModeTerminate : TLSModeType := "Terminate".

Record ParentReference := {
  pr_Namespace : option string;
  pr_Name : string;
  pr_SectionName : option string;
}.

Record SecretObjectReference := {
  sor_Namespace : option string;
  sor_Name : string;
}.

Record ListenerTLSConfig := {
  tls_Mode : option TLSModeType;
  tls_CertificateRefs : list SecretObjectReference;
}.

(** [&gwv1.ListenerTLSConfig{}] *)
Definition emptyTLSConfig : ListenerTLSConfig :=
  {| tls_Mode := None; tls_CertificateRefs := [] |}.

(** [ir.AttachedPolicies]: stored and copied by the translator, never
    inspected; the zero value [ir.AttachedPolicies{}] is the empty list. *)
Definition AttachedPolicies := list string.
Definition noPolicies : AttachedPolicies := [].

(** [ir.Listener]: a [gwv1.Listener] with its owning object. *)
Record Listener := {
  l_Name : string;
  l_Hostname : option Hostname;
  l_Port : PortNumber;
  l_Protocol : ProtocolType;
  l_TLS : option ListenerTLSConfig;
  l_Parent : string;
  l_AttachedPolicies : AttachedPolicies;
  l_PolicyAncestorRef : option ParentReference;
}.

(** The zero value of [ir.Listener] ([var listenerRef ir.Listener]). *)
Definition zeroListener : Listener :=
  {| l_Name := ""; l_Hostname := None; l_Port := 0; l_Protocol := "";
     l_TLS := None; l_Parent := ""; l_AttachedPolicies := noPolicies;
     l_PolicyAncestorRef := None |}.

Record ObjectSource := {
  os_Namespace : string;
  os_Name : string;
}.

(** Go [error] values as the translator observes them: the text of
    [err.Error()], the two sentinels tested with [errors.Is] and the typed
    error extracted with [errors.As]. *)
Record error := {
  err_Error : string;
  err_isMissingReferenceGrant : bool;
  err_isInvalidTlsSecret : bool;
  err_asNotFound : option ObjectSource;
}.

(** [errors.New(s)] and [fmt.Errorf(s)] without wrapping. *)
Definition errors_New (s : string) : error :=
  {| err_Error := s; err_isMissingReferenceGrant := false;
     err_isInvalidTlsSecret := false; err_asNotFound := None |}.

Record Secret := {
  sec_Name : string;
  sec_Namespace : string;
  sec_Data : gmap string string;
}.

Definition TLSCertKey := "tls.crt".
Definition TLSPrivateKeyKey := "tls.key".
Definition ServiceAccountRootCAKey := "ca.crt".

(** ** Routes *)

Record SourceObject := {
  so_Kind : string;
  so_Namespace : string;
  so_Name : string;
  so_CreationTimestamp : Z;
}.

Record BackendRefIR := {
  be_ClusterName : string;
  be_Weight : Z;
  be_BackendObject : option string;
  be_Err : option error;
}.

Record RouteRule := { rule_Name : option string }.

(** The fields of [ir.TcpRouteIR] and [ir.TlsRouteIR] the translator reads;
    [l4_Rules] is [SourceObject.Spec.Rules]. *)
Record L4RouteIR := {
  l4_SourceObject : SourceObject;
  l4_Rules : list RouteRule;
  l4_ParentRefs : list ParentReference;
  l4_Backends : list BackendRefIR;
}.

Definition l4_Namespace (r : L4RouteIR) : string := so_Namespace (l4_SourceObject r).
Definition l4_Name (r : L4RouteIR) : string := so_Name (l4_SourceObject r).

(** [ir.Route] implementations, as far as the type switch of
    [translateTcpFilterChain] tells them apart. *)
Inductive RouteObject :=
| TcpRouteIR (r : L4RouteIR)
| TlsRouteIR (r : L4RouteIR)
| HttpRouteIR (src : SourceObject).

Definition GetSourceObject (o : RouteObject) : SourceObject :=
  match o with
  | TcpRouteIR r | TlsRouteIR r => l4_SourceObject r
  | HttpRouteIR src => src
  end.

(** [query.RouteInfo]; [ri_Hostnames] is the result of [Hostnames()]. *)
Record RouteInfo := {
  ri_Object : RouteObject;
  ri_ParentRef : ParentReference;
  ri_Hostnames : list string;
}.

(** ** Status reporting *)

Inductive ConditionStatus := ConditionTrue | ConditionFalse | ConditionUnknown.

Inductive ListenerConditionType :=
| ListenerConditionResolvedRefs
| ListenerConditionProgrammed.

Inductive ListenerConditionReason :=
| ListenerReasonInvalidCertificateRef
| ListenerReasonRefNotPermitted
| ListenerReasonInvalid.

Record ListenerCondition := {
  lc_Type : ListenerConditionType;
  lc_Status : ConditionStatus;
  lc_Reason : ListenerConditionReason;
  lc_Message : string;
}.

Inductive RouteConditionType := RouteConditionAccepted.

Inductive RouteConditionReason :=
| RouteReasonAccepted
| RouteReasonUnsupportedValue.

Record RouteCondition := {
  rc_Type : RouteConditionType;
  rc_Status : ConditionStatus;
  rc_Reason : RouteConditionReason;
}.

(** [listener.GetParentReporter(reporter).ListenerName(name)]: the status
    slot of one Gateway-API listener, named by its parent and its name. *)
Record ListenerReporter := {
  lr_Parent : string;
  lr_ListenerName : string;
}.

(** [reporter.Route(obj).ParentRef(&ref)] *)
Record ParentRefReporter := {
  prr_Route : SourceObject;
  prr_ParentRef : ParentReference;
}.

Inductive Event :=
| ListenerSetCondition (r : ListenerReporter) (c : ListenerCondition)
| RouteSetCondition (r : ParentRefReporter) (c : RouteCondition)
(** a call [query.ProcessBackendError(err, r)] *)
| BackendError (r : ParentRefReporter) (err : error)
(** whatever the HTTP route-rule translator reports on a route *)
| RouteRuleReport (r : ParentRefReporter) (msg : string).

(** A computation that reports: its value and the events it emitted. *)
Definition Rep (A : Type) : Type := A * list Event.

Definition ret {A} (a : A) : Rep A := (a, []).
Definition bind {A B} (m : Rep A) (k : A → Rep B) : Rep B :=
  let '(a, l1) := m in let '(b, l2) := k a in (b, l1 ++ l2).
Definition tell (evs : list Event) : Rep unit := (tt, evs).

Notation "x ←ᵣ m ;; k" := (bind m (λ x, k))
  (at level 100, m at next level, right associativity).
Notation "m ;;ᵣ k" := (bind m (λ _, k))
  (at level 100, right associativity).

(** A [for _, x := range xs] loop over a slice, threading the loop state. *)
Fixpoint forRange {A S} (xs : list A) (s : S) (body : S → A → Rep S) : Rep S :=
  match xs with
  | [] => ret s
  | x :: xs' => s' ←ᵣ body s x ;; forRange xs' s' body
  end.

(** [listenerReporter.SetCondition(c)] *)
Definition ListenerReporter_SetCondition (r : ListenerReporter) (c : ListenerCondition) : Rep unit :=
  tell [ListenerSetCondition r c].

(** [parentRefReporter.SetCondition(c)] *)
Definition ParentRefReporter_SetCondition (r : ParentRefReporter) (c : RouteCondition) : Rep unit :=
  tell [RouteSetCondition r c].

(** [query.ProcessBackendError(err, parentRefReporter)]: the function maps
    the error to a condition in another package; the call is logged with
    its two arguments. *)
Definition ProcessBackendError (err : error) (r : ParentRefReporter) : Rep unit :=
  tell [BackendError r err].

(** ** Output IR *)

(** [ir.HttpRouteRuleMatchIR]: one translated route rule (opaque here). *)
Record HttpRouteRuleMatchIR := { rm_Name : string }.

(** [routeutils.SortableRoute]: a rule with the route object it came from. *)
Record SortableRoute := {
  sr_RouteObject : SourceObject;
  sr_Route : HttpRouteRuleMatchIR;
}.
Definition SortableRoutes := list SortableRoute.

Definition ToSortable (obj : SourceObject) (routes : list HttpRouteRuleMatchIR) : SortableRoutes :=
  (λ r, {| sr_RouteObject := obj; sr_Route := r |}) <$> routes.
Definition ToRoutes (rs : SortableRoutes) : list HttpRouteRuleMatchIR := sr_Route <$> rs.

Record VirtualHost := {
  vh_Name : string;
  vh_Hostname : string;
  vh_Rules : list HttpRouteRuleMatchIR;
  vh_AttachedPolicies : AttachedPolicies;
  vh_ParentRef : Listener;
}.

Record FilterChainMatch := { SniDomains : list string }.
Definition noMatch : FilterChainMatch := {| SniDomains := [] |}.

Record TlsBundle := {
  PrivateKey : string;
  CertChain : string;
  CA : string;
}.

Record FilterChainCommon := {
  FilterChainName : string;
  Matcher : FilterChainMatch;
  TLS : option TlsBundle;
}.

Record HttpFilterChainIR := {
  hfc_Common : FilterChainCommon;
  hfc_AttachedPolicies : AttachedPolicies;
  hfc_Vhosts : list VirtualHost;
}.

Record TcpIR := {
  tcp_Common : FilterChainCommon;
  tcp_BackendRefs : list BackendRefIR;
}.

Record ListenerIR := {
  lir_Name : string;
  lir_BindAddress : string;
  lir_BindPort : Z;
  lir_AttachedPolicies : AttachedPolicies;
  lir_HttpFilterChain : list HttpFilterChainIR;
  lir_TcpFilterChain : list TcpIR;
  lir_PolicyAncestorRef : option ParentReference;
}.

(** ** Inputs of a translation pass *)

Record Gateway := {
  gw_Name : string;
  gw_Namespace : string;
  gw_Listeners : list Listener;
}.
Definition zeroGateway : Gateway :=
  {| gw_Name := ""; gw_Namespace := ""; gw_Listeners := [] |}.

(** [query.ListenerResult] *)
Record ListenerResult := {
  res_Routes : list RouteInfo;
  res_Error : option error;
}.

(** [query.RoutesForGwResult], observed through
    [GetListenerResult(parent, listenerName)]. *)
Definition RoutesForGwResult := string → string → option ListenerResult.

Record ListenerTranslatorConfig := { ListenerBindIpv6 : bool }.

(** ** Collaborators from other packages *)

Class Collaborators := {
  (** [query.GenerateRouteKey(parent, listenerName)] *)
  GenerateRouteKey : string → string → string;
  (** [utils.SanitizeForEnvoy(ctx, resourceName, resourceTypeName)] *)
  SanitizeForEnvoy : string → string → string;
  (** [route.TranslateGatewayHTTPRouteRules(ctx, routeInfo, parentRefReporter, reporter)] *)
  TranslateGatewayHTTPRouteRules : RouteInfo → ParentRefReporter → Rep (list HttpRouteRuleMatchIR);
  (** [routeutils.SortableRoutes.Less], on the elements compared *)
  SortableRoutes_Less : SortableRoute → SortableRoute → bool;
  (** [queries.GetSecretForRef(kctx, ctx, GatewayGVK.GroupKind(), namespace, ref)] *)
  GetSecretForRef : string → SecretObjectReference → Secret + error;
  (** [sslutils.ValidateTlsSecretData(name, namespace, data)], its error result *)
  ValidateTlsSecretData : string → string → gmap string string → option error;
  (** [validateGateway(gateway, reporter)] *)
  validateGateway : Gateway → Rep (list Listener);
}.

(** The order in which one [range] loop visits the entries of a
    [map[string]routeutils.SortableRoutes]. *)
Class MapRange := {
  rangeOrder : list (string * SortableRoutes) → list (string * SortableRoutes);
  rangeOrder_perm : ∀ entries, rangeOrder entries ≡ₚ entries;
}.

(** Two iteration orders: the map's enumeration as it is, and reversed. *)
Definition rangeForward : MapRange :=
  {| rangeOrder := λ entries, entries;
     rangeOrder_perm := λ entries, reflexivity entries |}.
Definition rangeBackward : MapRange :=
  {| rangeOrder := reverse;
     rangeOrder_perm := reverse_Permutation |}.

(** ** Sorting *)

(** [sort.Stable] and [sort.Slice] with a [less] on elements: insertion
    into the sorted tail, an element staying in front of the ones it is not
    greater than.  The result is the stable sort of the input; [sort.Slice]
    promises no stability, and is applied here only to virtual hosts whose
    names are pairwise distinct. *)
Fixpoint sortInsert {A} (less : A → A → bool) (x : A) (l : list A) : list A :=
  match l with
  | [] => [x]
  | y :: l' => if less y x then y :: sortInsert less x l' else x :: y :: l'
  end.

Fixpoint sortBy {A} (less : A → A → bool) (l : list A) : list A :=
  match l with
  | [] => []
  | x :: l' => sortInsert less x (sortBy less l')
  end.

Definition sort_Stable `{Collaborators} (rs : SortableRoutes) : SortableRoutes :=
  sortBy SortableRoutes_Less rs.

(** [sort.Slice(virtualHosts, func(i, j) { return vh[i].Name < vh[j].Name })] *)
Definition vhostLess (a b : VirtualHost) : bool := String.ltb (vh_Name a) (vh_Name b).
Definition sortVhosts (vhosts : list VirtualHost) : list VirtualHost :=
  sortBy vhostLess vhosts.

(** The order [sortVhosts] establishes: names ascending. *)
Definition vhostLe (a b : VirtualHost) : Prop := String.le (vh_Name a) (vh_Name b).

(** ** Merged listeners *)

Record httpFilterChainParent := {
  hp_gatewayListenerName : string;
  hp_gatewayListener : Listener;
  hp_routesWithHosts : list RouteInfo;
  hp_attachedPolicies : AttachedPolicies;
}.

Record httpFilterChain := { hc_parents : list httpFilterChainParent }.

Record httpsFilterChain := {
  hs_gatewayListenerName : string;
  hs_sniDomain : option Hostname;
  hs_tls : option ListenerTLSConfig;
  hs_routesWithHosts : list RouteInfo;
  hs_attachedPolicies : AttachedPolicies;
}.

Record tcpFilterChainParent := {
  tp_gatewayListenerName : string;
  tp_routesWithHosts : list RouteInfo;
}.

Record tcpFilterChain := {
  tc_parents : tcpFilterChainParent;
  tc_tls : option ListenerTLSConfig;
  tc_sniDomain : option Hostname;
  tc_listenerReporter : ListenerReporter;
}.

Record MergedListener := {
  ml_name : string;
  ml_gatewayNamespace : string;
  ml_port : PortNumber;
  ml_httpFilterChain : option httpFilterChain;
  ml_httpsFilterChains : list httpsFilterChain;
  ml_TcpFilterChains : list tcpFilterChain;
  ml_listenerReporter : ListenerReporter;
  ml_listener : Listener;
  ml_gateway : Gateway;
  ml_settings : ListenerTranslatorConfig;
}.

Record MergedListeners := {
  GatewayNamespace : string;
  parentGw : Gateway;
  Listeners : list MergedListener;
  settings : ListenerTranslatorConfig;
}.

Definition withListeners (ml : MergedListeners) (ls : list MergedListener) : MergedListeners :=
  {| GatewayNamespace := GatewayNamespace ml; parentGw := parentGw ml;
     Listeners := ls; settings := settings ml |}.

Definition getListenerPortNumber (listener : Listener) : PortNumber := l_Port listener.

(** [fmt.Sprintf("listener~%d", port)] *)
Definition GenerateListenerNameFromPort (port : PortNumber) : string :=
  "listener~" +:+ pretty port.
Definition GenerateListenerName (listener : Listener) : string :=
  GenerateListenerNameFromPort (l_Port listener).

(** The loop shared by the four append functions:
    [for _, lis := range ml.Listeners] stops at the first merged listener on
    [finalPort], updates it in place and returns; [None] when the loop ends
    without finding one. *)
Fixpoint updateFirstOnPort (finalPort : PortNumber) (f : MergedListener → MergedListener)
    (ls : list MergedListener) : option (list MergedListener) :=
  match ls with
  | [] => None
  | lis :: rest =>
      if decide (ml_port lis = finalPort) then Some (f lis :: rest)
      else (lis ::.) <$> updateFirstOnPort finalPort f rest
  end.

Definition set_httpFilterChain (fc : option httpFilterChain) (lis : MergedListener) : MergedListener :=
  {| ml_name := ml_name lis; ml_gatewayNamespace := ml_gatewayNamespace lis;
     ml_port := ml_port lis; ml_httpFilterChain := fc;
     ml_httpsFilterChains := ml_httpsFilterChains lis;
     ml_TcpFilterChains := ml_TcpFilterChains lis;
     ml_listenerReporter := ml_listenerReporter lis; ml_listener := ml_listener lis;
     ml_gateway := ml_gateway lis; ml_settings := ml_settings lis |}.

Definition set_httpsFilterChains (cs : list httpsFilterChain) (lis : MergedListener) : MergedListener :=
  {| ml_name := ml_name lis; ml_gatewayNamespace := ml_gatewayNamespace lis;
     ml_port := ml_port lis; ml_httpFilterChain := ml_httpFilterChain lis;
     ml_httpsFilterChains := cs;
     ml_TcpFilterChains := ml_TcpFilterChains lis;
     ml_listenerReporter := ml_listenerReporter lis; ml_listener := ml_listener lis;
     ml_gateway := ml_gateway lis; ml_settings := ml_settings lis |}.

Definition set_TcpFilterChains (cs : list tcpFilterChain) (lis : MergedListener) : MergedListener :=
  {| ml_name := ml_name lis; ml_gatewayNamespace := ml_gatewayNamespace lis;
     ml_port := ml_port lis; ml_httpFilterChain := ml_httpFilterChain lis;
     ml_httpsFilterChains := ml_httpsFilterChains lis;
     ml_TcpFilterChains := cs;
     ml_listenerReporter := ml_listenerReporter lis; ml_listener := ml_listener lis;
     ml_gateway := ml_gateway lis; ml_settings := ml_settings lis |}.

Section merge.
Context `{Collaborators}.

Definition httpParentOf (listener : Listener) (routesWithHosts : list RouteInfo) : httpFilterChainParent :=
  {| hp_gatewayListenerName := GenerateRouteKey (l_Parent listener) (l_Name listener);
     hp_gatewayListener := listener;
     hp_routesWithHosts := routesWithHosts;
     hp_attachedPolicies := l_AttachedPolicies listener |}.

Definition appendHttpListener (ml : MergedListeners) (listener : Listener)
    (routesWithHosts : list RouteInfo) (reporter : ListenerReporter) : MergedListeners :=
  let parent := httpParentOf listener routesWithHosts in
  let fc := {| hc_parents := [parent] |} in
  let finalPort := getListenerPortNumber listener in
  match updateFirstOnPort finalPort
          (λ lis, match ml_httpFilterChain lis with
                  | Some c => set_httpFilterChain (Some {| hc_parents := hc_parents c ++ [parent] |}) lis
                  | None => set_httpFilterChain (Some fc) lis
                  end)
          (Listeners ml) with
  | Some ls => withListeners ml ls
  | None =>
      withListeners ml (Listeners ml ++ [
        {| ml_name := GenerateListenerName listener;
           ml_gatewayNamespace := GatewayNamespace ml;
           ml_port := finalPort;
           ml_httpFilterChain := Some fc;
           ml_httpsFilterChains := [];
           ml_TcpFilterChains := [];
           ml_listenerReporter := reporter;
           ml_listener := listener;
           ml_gateway := parentGw ml;
           ml_settings := settings ml |}])
  end.

Definition httpsChainOf (listener : Listener) (routesWithHosts : list RouteInfo) : httpsFilterChain :=
  let tls := match l_TLS listener with Some t => t | None => emptyTLSConfig end in
  {| hs_gatewayListenerName := GenerateRouteKey (l_Parent listener) (l_Name listener);
     hs_sniDomain := l_Hostname listener;
     hs_tls := Some tls;
     hs_routesWithHosts := routesWithHosts;
     hs_attachedPolicies := l_AttachedPolicies listener |}.

Definition appendHttpsListener (ml : MergedListeners) (listener : Listener)
    (routesWithHosts : list RouteInfo) (reporter : ListenerReporter) : MergedListeners :=
  let mfc := httpsChainOf listener routesWithHosts in
  let finalPort := getListenerPortNumber listener in
  match updateFirstOnPort finalPort
          (λ lis, set_httpsFilterChains (ml_httpsFilterChains lis ++ [mfc]) lis)
          (Listeners ml) with
  | Some ls => withListeners ml ls
  | None =>
      withListeners ml (Listeners ml ++ [
        {| ml_name := GenerateListenerName listener;
           ml_gatewayNamespace := GatewayNamespace ml;
           ml_port := finalPort;
           ml_httpFilterChain := None;
           ml_httpsFilterChains := [mfc];
           ml_TcpFilterChains := [];
           ml_listenerReporter := reporter;
           ml_listener := listener;
           ml_gateway := parentGw ml;
           ml_settings := settings ml |}])
  end.

Definition tcpChainOf (listener : Listener) (routeInfos : list RouteInfo)
    (reporter : ListenerReporter) : tcpFilterChain :=
  {| tc_parents := {| tp_gatewayListenerName := GenerateRouteKey (l_Parent listener) (l_Name listener);
                      tp_routesWithHosts := routeInfos |};
     tc_tls := None;
     tc_sniDomain := None;
     tc_listenerReporter := reporter |}.

Definition AppendTcpListener (ml : MergedListeners) (listener : Listener)
    (routeInfos : list RouteInfo) (reporter : ListenerReporter) : MergedListeners :=
  let fc := tcpChainOf listener routeInfos reporter in
  let finalPort := getListenerPortNumber listener in
  match updateFirstOnPort finalPort
          (λ lis, set_TcpFilterChains (ml_TcpFilterChains lis ++ [fc]) lis)
          (Listeners ml) with
  | Some ls => withListeners ml ls
  | None =>
      withListeners ml (Listeners ml ++ [
        {| ml_name := GenerateListenerName listener;
           ml_gatewayNamespace := GatewayNamespace ml;
           ml_port := finalPort;
           ml_httpFilterChain := None;
           ml_httpsFilterChains := [];
           ml_TcpFilterChains := [fc];
           ml_listenerReporter := reporter;
           ml_listener := listener;
           ml_gateway := parentGw ml;
           ml_settings := settings ml |}])
  end.

Definition tlsChainOf (listener : Listener) (routeInfos : list RouteInfo)
    (reporter : ListenerReporter) : tcpFilterChain :=
  let tls := match l_TLS listener with Some t => t | None => emptyTLSConfig end in
  {| tc_parents := {| tp_gatewayListenerName := GenerateRouteKey (l_Parent listener) (l_Name listener);
                      tp_routesWithHosts := routeInfos |};
     tc_tls := Some tls;
     tc_sniDomain := l_Hostname listener;
     tc_listenerReporter := reporter |}.

Definition AppendTlsListener (ml : MergedListeners) (listener : Listener)
    (routeInfos : list RouteInfo) (reporter : ListenerReporter) : MergedListeners :=
  let fc := tlsChainOf listener routeInfos reporter in
  let finalPort := getListenerPortNumber listener in
  match updateFirstOnPort finalPort
          (λ lis, set_TcpFilterChains (ml_TcpFilterChains lis ++ [fc]) lis)
          (Listeners ml) with
  | Some ls => withListeners ml ls
  | None =>
      withListeners ml (Listeners ml ++ [
        {| ml_name := GenerateListenerName listener;
           ml_gatewayNamespace := GatewayNamespace ml;
           ml_port := finalPort;
           ml_httpFilterChain := None;
           ml_httpsFilterChains := [];
           ml_TcpFilterChains := [fc];
           ml_listenerReporter := reporter;
           ml_listener := listener;
           ml_gateway := zeroGateway;
           ml_settings := settings ml |}])
  end.

(** [AppendListener]: the merged listeners after the call, and the error it
    returns for a protocol outside the four it knows. *)
Definition AppendListener (ml : MergedListeners) (listener : Listener)
    (routes : list RouteInfo) (reporter : ListenerReporter) : MergedListeners * option error :=
  if decide (l_Protocol listener = HTTPProtocolType) then
    (appendHttpListener ml listener routes reporter, None)
  else if decide (l_Protocol listener = HTTPSProtocolType) then
    (appendHttpsListener ml listener routes reporter, None)
  else if decide (l_Protocol listener = TCPProtocolType) then
    (AppendTcpListener ml listener routes reporter, None)
  else if decide (l_Protocol listener = TLSProtocolType) then
    (AppendTlsListener ml listener routes reporter, None)
  else (ml, Some (errors_New ("unsupported protocol: " +:+ l_Protocol listener))).

Definition listenerReporterOf (listener : Listener) : ListenerReporter :=
  {| lr_Parent := l_Parent listener; lr_ListenerName := l_Name listener |}.

Definition mergeGWListeners (gatewayNamespace : string) (listeners : list Listener)
    (parentGw0 : Gateway) (routesForGw : RoutesForGwResult)
    (settings0 : ListenerTranslatorConfig) : MergedListeners :=
  foldl (λ ml listener,
           let result := routesForGw (l_Parent listener) (l_Name listener) in
           let listenerReporter := listenerReporterOf listener in
           let routes := match result with Some r => res_Routes r | None => [] end in
           (AppendListener ml listener routes listenerReporter).1)
        {| GatewayNamespace := gatewayNamespace; parentGw := parentGw0;
           Listeners := []; settings := settings0 |}
        listeners.

End merge.

(** ** Filter-chain builders *)

(** [strings.HasPrefix] and [strings.HasSuffix], as the Go library defines
    them: a length test and a comparison of the slice. *)
Definition HasPrefix (s prefix : string) : bool :=
  (String.length prefix <=? String.length s)%nat
  && String.eqb (String.substring 0 (String.length prefix) s) prefix.

Definition HasSuffix (s suffix : string) : bool :=
  (String.length suffix <=? String.length s)%nat
  && String.eqb (String.substring (String.length s - String.length suffix) (String.length suffix) s) suffix.

(** [s[1:]] for a string known to be non-empty. *)
Definition dropFirst (s : string) : string :=
  match s with
  | EmptyString => EmptyString
  | String _ rest => rest
  end.

Definition isHostContained (host : string) (maybeLhost : option Hostname) : bool :=
  match maybeLhost with
  | None => true
  | Some listenerHostname =>
      if HasPrefix listenerHostname "*." && HasSuffix host (dropFirst listenerHostname)
      then true
      else String.eqb host listenerHostname
  end.

(** [slices.MinFunc] on a non-empty slice [x0 :: xs]: the first minimal
    element. *)
Definition MinFunc {E} (cmp : E → E → comparison) (x0 : E) (xs : list E) : E :=
  foldl (λ m x, match cmp x m with Lt => x | _ => m end) x0 xs.

Definition compareCreationTimestamp (a b : RouteInfo) : comparison :=
  Z.compare (so_CreationTimestamp (GetSourceObject (ri_Object a)))
            (so_CreationTimestamp (GetSourceObject (ri_Object b))).

Definition TcpTlsListenerNoBackendsMessage : string :=
  "TCP/TLS listener has no valid backends or routes".

(** [fmt.Sprintf(SecretNotFoundMessageTemplate, namespace, name)] *)
Definition SecretNotFoundMessage (namespace name : string) : string :=
  "Secret " +:+ namespace +:+ "/" +:+ name +:+ " not found.".

(** The state of the inner loop of [translateHttpFilterChain]:
    [attachedPolicies], [listenerRef] and [maxHostnameLen]. *)
Record parentChoice := {
  pc_attachedPolicies : AttachedPolicies;
  pc_listenerRef : Listener;
  pc_maxHostnameLen : Z;
}.

Definition hostnameLenOf (p : httpFilterChainParent) : Z :=
  match l_Hostname (hp_gatewayListener p) with
  | Some h => Z.of_nat (String.length h)
  | None => 0
  end.

Definition selectParentStep (host : string) (st : parentChoice) (p : httpFilterChainParent) : parentChoice :=
  if negb (isHostContained host (l_Hostname (hp_gatewayListener p))) then st
  else
    let hostnameLen := hostnameLenOf p in
    if pc_maxHostnameLen st <? hostnameLen then
      {| pc_attachedPolicies := hp_attachedPolicies p;
         pc_listenerRef := hp_gatewayListener p;
         pc_maxHostnameLen := hostnameLen |}
    else st.

Definition selectParent (host : string) (parents : list httpFilterChainParent) : parentChoice :=
  foldl (selectParentStep host)
        {| pc_attachedPolicies := noPolicies; pc_listenerRef := zeroListener;
           pc_maxHostnameLen := -1 |}
        parents.

Section translate.
Context `{Collaborators} `{MapRange}.

Definition makeVhostName (parentName domain : string) : string :=
  SanitizeForEnvoy (parentName +:+ "~" +:+ domain) "vHost".

Definition routeParentRefReporter (routeWithHosts : RouteInfo) : ParentRefReporter :=
  {| prr_Route := GetSourceObject (ri_Object routeWithHosts);
     prr_ParentRef := ri_ParentRef routeWithHosts |}.

Definition buildRoutesPerHost (routesByHost : gmap string SortableRoutes)
    (routes : list RouteInfo) : Rep (gmap string SortableRoutes) :=
  forRange routes routesByHost (λ routesByHost routeWithHosts,
    let parentRefReporter := routeParentRefReporter routeWithHosts in
    rs ←ᵣ TranslateGatewayHTTPRouteRules routeWithHosts parentRefReporter ;;
    if decide (length rs = 0%nat) then ret routesByHost
    else
      let hostnames := ri_Hostnames routeWithHosts in
      let hostnames := if decide (length hostnames = 0%nat) then ["*"] else hostnames in
      ret (foldl (λ m host,
                    <[host := default [] (m !! host)
                              ++ ToSortable (GetSourceObject (ri_Object routeWithHosts)) rs]> m)
                 routesByHost hostnames)).

(** The body of [for host, vhostRoutes := range routesByHost] in
    [translateHttpFilterChain]; the loop state is [virtualHostNames] and
    [virtualHosts]. *)
Definition httpVhostStep (parentName : string) (parents : list httpFilterChainParent)
    (st : gmap string bool * list VirtualHost) (entry : string * SortableRoutes)
    : gmap string bool * list VirtualHost :=
  let '(virtualHostNames, virtualHosts) := st in
  let '(host, vhostRoutes) := entry in
  let choice := selectParent host parents in
  let vhostRoutes := sort_Stable vhostRoutes in
  let vhostName := makeVhostName parentName host in
  if default false (virtualHostNames !! vhostName) then st
  else
    (<[vhostName := true]> virtualHostNames,
     virtualHosts ++ [
       {| vh_Name := vhostName;
          vh_Hostname := host;
          vh_Rules := ToRoutes vhostRoutes;
          vh_AttachedPolicies := pc_attachedPolicies choice;
          vh_ParentRef := pc_listenerRef choice |}]).

Definition translateHttpFilterChain (fc : httpFilterChain) (parentName : string)
    : Rep HttpFilterChainIR :=
  routesByHost ←ᵣ forRange (hc_parents fc) (∅ : gmap string SortableRoutes)
                    (λ routesByHost parent,
                       buildRoutesPerHost routesByHost (hp_routesWithHosts parent)) ;;
  let '(_, virtualHosts) :=
    foldl (httpVhostStep parentName (hc_parents fc)) (∅, [])
          (rangeOrder (map_to_list routesByHost)) in
  ret {| hfc_Common := {| FilterChainName := parentName; Matcher := noMatch; TLS := None |};
         hfc_AttachedPolicies := noPolicies;
         hfc_Vhosts := sortVhosts virtualHosts |}.

Definition translateSslConfig (parentNamespace : string) (tls : option ListenerTLSConfig)
    : option TlsBundle + error :=
  match tls with
  | None => inl None
  | Some tls =>
      if negb (bool_decide (tls_Mode tls = Some TLSModeTerminate)) then inl None
      else
        match tls_CertificateRefs tls with
        | [certRef] =>
            match GetSecretForRef parentNamespace certRef with
            | inr err => inr err
            | inl secret =>
                match ValidateTlsSecretData (sec_Name secret) (sec_Namespace secret) (sec_Data secret) with
                | Some err => inr err
                | None =>
                    inl (Some {| PrivateKey := default "" (sec_Data secret !! TLSPrivateKeyKey);
                                 CertChain := default "" (sec_Data secret !! TLSCertKey);
                                 CA := default "" (sec_Data secret !! ServiceAccountRootCAKey) |})
                end
            end
        | _ => inr (errors_New "only one certificate ref is supported for now")
        end
  end.

(** The body of [for host, vhostRoutes := range routesByHost] in
    [translateHttpsFilterChain]. *)
Definition httpsVhostStep (parentName : string)
    (st : gmap string bool * list VirtualHost) (entry : string * SortableRoutes)
    : gmap string bool * list VirtualHost :=
  let '(virtualHostNames, virtualHosts) := st in
  let '(host, vhostRoutes) := entry in
  let vhostRoutes := sort_Stable vhostRoutes in
  let vhostName := makeVhostName parentName host in
  if negb (default false (virtualHostNames !! vhostName)) then
    (<[vhostName := true]> virtualHostNames,
     virtualHosts ++ [
       {| vh_Name := vhostName;
          vh_Hostname := host;
          vh_Rules := ToRoutes vhostRoutes;
          vh_AttachedPolicies := noPolicies;
          vh_ParentRef := zeroListener |}])
  else st.

Definition sniMatcher (sniDomain : option Hostname) : FilterChainMatch :=
  match sniDomain with
  | Some d => {| SniDomains := [d] |}
  | None => noMatch
  end.

(** The [reason] and [message] computed in the error branch of
    [translateHttpsFilterChain]. *)
Definition tlsErrorReason (err : error) : ListenerConditionReason :=
  if err_isMissingReferenceGrant err then ListenerReasonRefNotPermitted
  else ListenerReasonInvalidCertificateRef.

Definition tlsErrorMessage (err : error) : string :=
  let message := "Invalid certificate ref." in
  let message := if err_isMissingReferenceGrant err
                 then "Reference not permitted by ReferenceGrant." else message in
  let message := if err_isInvalidTlsSecret err then err_Error err else message in
  match err_asNotFound err with
  | Some notFoundObj => SecretNotFoundMessage (os_Namespace notFoundObj) (os_Name notFoundObj)
  | None => message
  end.

Definition translateHttpsFilterChain (mfc : httpsFilterChain) (parentName gatewayNamespace : string)
    (listenerReporter : ListenerReporter) : Rep (HttpFilterChainIR + error) :=
  routesByHost ←ᵣ buildRoutesPerHost ∅ (hs_routesWithHosts mfc) ;;
  let '(_, virtualHosts) :=
    foldl (httpsVhostStep parentName) (∅, []) (rangeOrder (map_to_list routesByHost)) in
  let matcher := sniMatcher (hs_sniDomain mfc) in
  match translateSslConfig gatewayNamespace (hs_tls mfc) with
  | inr err =>
      let reason := tlsErrorReason err in
      let message := tlsErrorMessage err in
      ListenerReporter_SetCondition listenerReporter
        {| lc_Type := ListenerConditionResolvedRefs; lc_Status := ConditionFalse;
           lc_Reason := reason; lc_Message := message |} ;;ᵣ
      ListenerReporter_SetCondition listenerReporter
        {| lc_Type := ListenerConditionProgrammed; lc_Status := ConditionFalse;
           lc_Reason := ListenerReasonInvalid; lc_Message := message |} ;;ᵣ
      ret (inr err)
  | inl sslConfig =>
      ret (inl {| hfc_Common := {| FilterChainName := parentName; Matcher := matcher;
                                   TLS := sslConfig |};
                  hfc_AttachedPolicies := hs_attachedPolicies mfc;
                  hfc_Vhosts := sortVhosts virtualHosts |})
  end.

(** [backend.Err != nil || backend.BackendObject == nil] *)
Definition backendUnusable (backend : BackendRefIR) : bool :=
  bool_decide (is_Some (be_Err backend)) || bool_decide (be_BackendObject backend = None).

(** [err := backend.Err; if err == nil { err = errors.New("not found") }] *)
Definition backendErrorOf (backend : BackendRefIR) : error :=
  match be_Err backend with
  | Some e => e
  | None => errors_New "not found"
  end.

(** [status == metav1.ConditionTrue] *)
Definition isConditionTrue (status : ConditionStatus) : bool :=
  match status with
  | ConditionTrue => true
  | _ => false
  end.

Definition acceptedCondition (tRoute : L4RouteIR) : RouteCondition :=
  if decide (length (l4_Rules tRoute) = 1%nat) then
    {| rc_Type := RouteConditionAccepted; rc_Status := ConditionTrue;
       rc_Reason := RouteReasonAccepted |}
  else
    {| rc_Type := RouteConditionAccepted; rc_Status := ConditionFalse;
       rc_Reason := RouteReasonUnsupportedValue |}.

(** [fmt.Sprintf("%s-%s.%s-rule-%d", parentName, namespace, name, 0)] *)
Definition tcpHostNameOf (parentName : string) (tRoute : L4RouteIR) : string :=
  parentName +:+ "-" +:+ l4_Namespace tRoute +:+ "." +:+ l4_Name tRoute +:+ "-rule-" +:+ pretty 0.

(** The two cases of the type switch of [translateTcpFilterChain] run the
    same statements on their route and differ in the matcher of the result:
    none for a [TcpRouteIR], the chain's SNI matcher for a [TlsRouteIR]. *)
Definition translateL4Route (parentName : string) (tRoute : L4RouteIR)
    (matcher : FilterChainMatch) : Rep (option TcpIR) :=
  let condition := acceptedCondition tRoute in
  if negb (isConditionTrue (rc_Status condition)) then ret None
  else
    parentRefReporters ←ᵣ forRange (l4_ParentRefs tRoute) []
      (λ parentRefReporters parentRef,
         let parentRefReporter :=
           {| prr_Route := l4_SourceObject tRoute; prr_ParentRef := parentRef |} in
         ParentRefReporter_SetCondition parentRefReporter condition ;;ᵣ
         ret (parentRefReporters ++ [parentRefReporter])) ;;
    let tcpHostName := tcpHostNameOf parentName tRoute in
    backends ←ᵣ forRange (l4_Backends tRoute) []
      (λ backends backend,
         (if backendUnusable backend then
            let err := backendErrorOf backend in
            forRange parentRefReporters tt (λ _ parentRefReporter,
              ProcessBackendError err parentRefReporter)
          else ret tt) ;;ᵣ
         ret (backends ++ [backend])) ;;
    if decide (length backends = 0%nat) then ret None
    else
      ret (Some {| tcp_Common := {| FilterChainName := tcpHostName; Matcher := matcher;
                                    TLS := None |};
                   tcp_BackendRefs := backends |}).

Definition translateTcpFilterChain (tc : tcpFilterChain) (parentName : string)
    : Rep (option TcpIR) :=
  let parent := tc_parents tc in
  match tp_routesWithHosts parent with
  | [] => ret None
  | r0 :: rest =>
      let r := MinFunc compareCreationTimestamp r0 rest in
      match ri_Object r with
      | TcpRouteIR tRoute => translateL4Route parentName tRoute noMatch
      | TlsRouteIR tRoute => translateL4Route parentName tRoute (sniMatcher (tc_sniDomain tc))
      | HttpRouteIR _ => ret None
      end
  end.

(** ** Per-port assembly *)

Definition noBackendsCondition : ListenerCondition :=
  {| lc_Type := ListenerConditionProgrammed; lc_Status := ConditionFalse;
     lc_Reason := ListenerReasonInvalid; lc_Message := TcpTlsListenerNoBackendsMessage |}.

(** "Translate HTTP filter chains" and "Translate HTTPS filter chains" of
    [TranslateListener]: the value of [httpFilterChains] after both. *)
Definition translateHttpChains (ml : MergedListener) : Rep (list HttpFilterChainIR) :=
  httpFilterChains ←ᵣ
    match ml_httpFilterChain ml with
    | Some fc =>
        httpFilterChain ←ᵣ translateHttpFilterChain fc (ml_name ml) ;;
        ret [httpFilterChain]
    | None => ret []
    end ;;
  forRange (ml_httpsFilterChains ml) httpFilterChains (λ httpFilterChains mfc,
    r ←ᵣ translateHttpsFilterChain mfc (hs_gatewayListenerName mfc)
           (ml_gatewayNamespace ml) (ml_listenerReporter ml) ;;
    match r with
    | inr err => ret httpFilterChains
    | inl httpsFilterChain => ret (httpFilterChains ++ [httpsFilterChain])
    end).

(** "Translate TCP listeners": the value of [matchedTcpListeners]. *)
Definition translateTcpChains (ml : MergedListener) : Rep (list TcpIR) :=
  forRange (ml_TcpFilterChains ml) [] (λ matchedTcpListeners tfc,
    r ←ᵣ translateTcpFilterChain tfc (ml_name ml) ;;
    match r with
    | Some tcpListener => ret (matchedTcpListeners ++ [tcpListener])
    | None => ret matchedTcpListeners
    end).

(** "Only report errors if ALL TCP filter chains failed". *)
Definition reportAllTcpFailed (ml : MergedListener) (matchedTcpListeners : list TcpIR) : Rep unit :=
  if (0 <? length (ml_TcpFilterChains ml))%nat && (length matchedTcpListeners =? 0)%nat then
    forRange (ml_TcpFilterChains ml) tt (λ _ tfc,
      ListenerReporter_SetCondition (tc_listenerReporter tfc) noBackendsCondition)
  else ret tt.

(** [uint32(port)] for an [int32] port. *)
Definition uint32 (z : Z) : Z := z mod 2 ^ 32.

Definition TranslateListener (ml : MergedListener) : Rep ListenerIR :=
  httpFilterChains ←ᵣ translateHttpChains ml ;;
  matchedTcpListeners ←ᵣ translateTcpChains ml ;;
  reportAllTcpFailed ml matchedTcpListeners ;;ᵣ
  let bindAddress := if ListenerBindIpv6 (ml_settings ml) then "::" else "0.0.0.0" in
  ret {| lir_Name := ml_name ml;
         lir_BindAddress := bindAddress;
         lir_BindPort := uint32 (ml_port ml);
         lir_AttachedPolicies := noPolicies;
         lir_HttpFilterChain := httpFilterChains;
         lir_TcpFilterChain := matchedTcpListeners;
         lir_PolicyAncestorRef := l_PolicyAncestorRef (ml_listener ml) |}.

Definition translateListeners (ml : MergedListeners) : Rep (list ListenerIR) :=
  forRange (Listeners ml) [] (λ listeners mergedListener,
    listener ←ᵣ TranslateListener mergedListener ;;
    ret (listeners ++ [listener])).

Definition TranslateListeners (gateway : Gateway) (routesForGw : RoutesForGwResult)
    (settings0 : ListenerTranslatorConfig) : Rep (list ListenerIR) :=
  validatedListeners ←ᵣ validateGateway gateway ;;
  let mergedListeners :=
    mergeGWListeners (gw_Namespace gateway) validatedListeners gateway routesForGw settings0 in
  translateListeners mergedListeners.

End translate.

(** ** The merge in closed form

    What [mergeGWListeners] leaves on one port, read off the input list:
    the listeners of a protocol [AppendListener] knows, in input order. *)

Definition knownProtocol (l : Listener) : Prop :=
  l_Protocol l ∈ [HTTPProtocolType; HTTPSProtocolType; TCPProtocolType; TLSProtocolType].

Definition listenersOnPort (p : PortNumber) (listeners : list Listener) : list Listener :=
  filter (λ l, l_Port l = p ∧ knownProtocol l) listeners.

Definition withProtocol (proto : ProtocolType) (listeners : list Listener) : list Listener :=
  filter (λ l, l_Protocol l = proto) listeners.

Definition onPort (p : PortNumber) (ls : list MergedListener) : list MergedListener :=
  filter (λ m, ml_port m = p) ls.

(** [routes] of [mergeGWListeners]: [result.Routes], or nil without a result. *)
Definition routesOf (routesForGw : RoutesForGwResult) (listener : Listener) : list RouteInfo :=
  match routesForGw (l_Parent listener) (l_Name listener) with
  | Some r => res_Routes r
  | None => []
  end.

Section merge_closed_form.
Context `{Collaborators}.
Context (gatewayNamespace : string) (gw : Gateway) (routesForGw : RoutesForGwResult)
        (st : ListenerTranslatorConfig).

Definition httpParentFor (l : Listener) : httpFilterChainParent :=
  httpParentOf l (routesOf routesForGw l).
Definition httpsChainFor (l : Listener) : httpsFilterChain :=
  httpsChainOf l (routesOf routesForGw l).
Definition l4ChainFor (l : Listener) : tcpFilterChain :=
  if decide (l_Protocol l = TLSProtocolType)
  then tlsChainOf l (routesOf routesForGw l) (listenerReporterOf l)
  else tcpChainOf l (routesOf routesForGw l) (listenerReporterOf l).

(** The merged listener of port [p] when [ls] are the listeners of that port
    and [first] is the first of them. *)
Definition mergedOf (p : PortNumber) (first : Listener) (ls : list Listener) : MergedListener :=
  {| ml_name := GenerateListenerName first;
     ml_gatewayNamespace := gatewayNamespace;
     ml_port := p;
     ml_httpFilterChain :=
       match withProtocol HTTPProtocolType ls with
       | [] => None
       | hs => Some {| hc_parents := httpParentFor <$> hs |}
       end;
     ml_httpsFilterChains := httpsChainFor <$> withProtocol HTTPSProtocolType ls;
     ml_TcpFilterChains :=
       l4ChainFor <$> filter (λ l, l_Protocol l = TCPProtocolType
                                   ∨ l_Protocol l = TLSProtocolType) ls;
     ml_listenerReporter := listenerReporterOf first;
     ml_listener := first;
     ml_gateway := if decide (l_Protocol first = TLSProtocolType)
                   then zeroGateway else gw;
     ml_settings := st |}.

Definition mergedOnPort (p : PortNumber) (listeners : list Listener) : option MergedListener :=
  match listenersOnPort p listeners with
  | [] => None
  | first :: rest => Some (mergedOf p first (first :: rest))
  end.

End merge_closed_form.

(** The distinct elements of a list of ports, in the order of their first
    occurrence. *)
Fixpoint firstSeen (ports : list PortNumber) : list PortNumber :=
  match ports with
  | [] => []
  | p :: rest => p :: filter (λ q, q ≠ p) (firstSeen rest)
  end.

(** ** Names for intermediate values of the builders *)

(** The hostnames a route is bucketed under: its own, or ["*"]. *)
Definition effectiveHostnames (routeWithHosts : RouteInfo) : list string :=
  if decide (length (ri_Hostnames routeWithHosts) = 0%nat) then ["*"]
  else ri_Hostnames routeWithHosts.

(** [p] is the parent the inner loop of [translateHttpFilterChain] settles
    on for [host]: its hostname contains [host], every matching parent
    before it has a strictly shorter hostname and no matching parent after
    it has a longer one. *)
Definition bestMatch (host : string) (parents : list httpFilterChainParent)
    (p : httpFilterChainParent) : Prop :=
  ∃ pre post,
    parents = pre ++ p :: post
    ∧ isHostContained host (l_Hostname (hp_gatewayListener p)) = true
    ∧ (∀ q, q ∈ pre → isHostContained host (l_Hostname (hp_gatewayListener q)) = true →
            hostnameLenOf q < hostnameLenOf p)
    ∧ (∀ q, q ∈ post → isHostContained host (l_Hostname (hp_gatewayListener q)) = true →
            hostnameLenOf q ≤ hostnameLenOf p).

Section intermediate.
Context `{Collaborators}.

(** [routesByHost] after the first loop of [translateHttpFilterChain]. *)
Definition httpRoutesByHost (fc : httpFilterChain) : gmap string SortableRoutes :=
  (forRange (hc_parents fc) (∅ : gmap string SortableRoutes)
     (λ routesByHost parent,
        buildRoutesPerHost routesByHost (hp_routesWithHosts parent))).1.

(** [routesByHost] of [translateHttpsFilterChain]. *)
Definition httpsRoutesByHost (mfc : httpsFilterChain) : gmap string SortableRoutes :=
  (buildRoutesPerHost ∅ (hs_routesWithHosts mfc)).1.

(** The [&ir.VirtualHost{...}] literal of [translateHttpFilterChain]. *)
Definition httpVhostOf (parentName : string) (parents : list httpFilterChainParent)
    (host : string) (vhostRoutes : SortableRoutes) : VirtualHost :=
  {| vh_Name := makeVhostName parentName host;
     vh_Hostname := host;
     vh_Rules := ToRoutes (sort_Stable vhostRoutes);
     vh_AttachedPolicies := pc_attachedPolicies (selectParent host parents);
     vh_ParentRef := pc_listenerRef (selectParent host parents) |}.

(** The [&ir.VirtualHost{...}] literal of [translateHttpsFilterChain]. *)
Definition httpsVhostOf (parentName : string) (host : string) (vhostRoutes : SortableRoutes)
    : VirtualHost :=
  {| vh_Name := makeVhostName parentName host;
     vh_Hostname := host;
     vh_Rules := ToRoutes (sort_Stable vhostRoutes);
     vh_AttachedPolicies := noPolicies;
     vh_ParentRef := zeroListener |}.

(** [GetSourceObject().GetCreationTimestamp()] of a bound route. *)
Definition creationTime (r : RouteInfo) : Z :=
  so_CreationTimestamp (GetSourceObject (ri_Object r)).

(** A TCP/TLS chain with other routes bound to it. *)
Definition tcpChainWithRoutes (tc : tcpFilterChain) (routes : list RouteInfo) : tcpFilterChain :=
  {| tc_parents := {| tp_gatewayListenerName := tp_gatewayListenerName (tc_parents tc);
                      tp_routesWithHosts := routes |};
     tc_tls := tc_tls tc;
     tc_sniDomain := tc_sniDomain tc;
     tc_listenerReporter := tc_listenerReporter tc |}.

(** The [Accepted=True] condition of [translateTcpFilterChain]. *)
Definition acceptedTrue : RouteCondition :=
  {| rc_Type := RouteConditionAccepted; rc_Status := ConditionTrue;
     rc_Reason := RouteReasonAccepted |}.

(** The [Accepted=False] condition [translateTcpFilterChain] builds for a
    route whose rule count is not one. *)
Definition acceptedFalse : RouteCondition :=
  {| rc_Type := RouteConditionAccepted; rc_Status := ConditionFalse;
     rc_Reason := RouteReasonUnsupportedValue |}.

(** [reporter.Route(tRoute.SourceObject).ParentRef(&parentRef)] *)
Definition l4Reporter (tRoute : L4RouteIR) (parentRef : ParentReference) : ParentRefReporter :=
  {| prr_Route := l4_SourceObject tRoute; prr_ParentRef := parentRef |}.

(** What an accepted TCP/TLS route reports: the condition on every parent
    ref, then every unusable backend's error on every parent ref. *)
Definition l4Events (tRoute : L4RouteIR) : list Event :=
  ((λ parentRef, RouteSetCondition (l4Reporter tRoute parentRef) acceptedTrue)
     <$> l4_ParentRefs tRoute)
  ++ (l4_Backends tRoute ≫= λ backend,
        if backendUnusable backend
        then (λ parentRef, BackendError (l4Reporter tRoute parentRef) (backendErrorOf backend))
               <$> l4_ParentRefs tRoute
        else []).

(** The route [slices.MinFunc] selects in [translateTcpFilterChain]. *)
Definition selectedRoute (tc : tcpFilterChain) : option RouteInfo :=
  match tp_routesWithHosts (tc_parents tc) with
  | [] => None
  | r0 :: rest => Some (MinFunc compareCreationTimestamp r0 rest)
  end.

End intermediate.

Section outputs.
Context `{Collaborators} `{MapRange}.

(** What one HTTPS chain of a merged listener contributes to
    [httpFilterChains] in [TranslateListener]: its IR, or nothing when
    [translateHttpsFilterChain] returns an error. *)
Definition httpsOutput (ml : MergedListener) (mfc : httpsFilterChain) : option HttpFilterChainIR :=
  match (translateHttpsFilterChain mfc (hs_gatewayListenerName mfc)
           (ml_gatewayNamespace ml) (ml_listenerReporter ml)).1 with
  | inl httpsFilterChain => Some httpsFilterChain
  | inr _ => None
  end.

(** What one TCP/TLS chain contributes to [matchedTcpListeners]. *)
Definition tcpOutput (ml : MergedListener) (tfc : tcpFilterChain) : option TcpIR :=
  (translateTcpFilterChain tfc (ml_name ml)).1.

End outputs.

(** ** More names for intermediate values *)

(** The rules the routes [routes] contribute to the bucket of [host], in
    route order; a route contributes its rules once per occurrence of
    [host] among its hostnames. *)
Definition bucketOf `{Collaborators} (host : string) (routes : list RouteInfo) : SortableRoutes :=
  routes ≫= λ routeWithHosts,
    filter (λ h, h = host) (effectiveHostnames routeWithHosts) ≫= λ _,
      ToSortable (GetSourceObject (ri_Object routeWithHosts))
        (TranslateGatewayHTTPRouteRules routeWithHosts
           (routeParentRefReporter routeWithHosts)).1.

(** What the route-rule translator reports on the routes [routes]. *)
Definition routeEvents `{Collaborators} (routes : list RouteInfo) : list Event :=
  routes ≫= λ routeWithHosts,
    (TranslateGatewayHTTPRouteRules routeWithHosts (routeParentRefReporter routeWithHosts)).2.

(** The two conditions [translateHttpsFilterChain] sets for a TLS error. *)
Definition tlsFailureEvents (listenerReporter : ListenerReporter) (err : error) : list Event :=
  [ListenerSetCondition listenerReporter
     {| lc_Type := ListenerConditionResolvedRefs; lc_Status := ConditionFalse;
        lc_Reason := tlsErrorReason err; lc_Message := tlsErrorMessage err |};
   ListenerSetCondition listenerReporter
     {| lc_Type := ListenerConditionProgrammed; lc_Status := ConditionFalse;
        lc_Reason := ListenerReasonInvalid; lc_Message := tlsErrorMessage err |}].


(** [virtualHosts] of [translateHttpsFilterChain] after the final sort. *)
Definition httpsVhosts `{Collaborators} `{MapRange} (mfc : httpsFilterChain)
    (parentName : string) : list VirtualHost :=
  sortVhosts (foldl (httpsVhostStep parentName) (∅, [])
                    (rangeOrder (map_to_list (httpsRoutesByHost mfc)))).2.

(** All routes bound to the parents of a plaintext chain, parent by parent. *)
Definition routesOfChain (fc : httpFilterChain) : list RouteInfo :=
  hc_parents fc ≫= hp_routesWithHosts.

(** ** Example inputs

    Concrete collaborators and resources on which the translator is
    evaluated in the examples below. *)

(** A sanitiser that replaces every ['.'] of a name by ['_']. *)
Fixpoint replaceDots (s : string) : string :=
  match s with
  | EmptyString => EmptyString
  | String c rest =>
      String (if Ascii.eqb c "."%char then "_"%char else c) (replaceDots rest)
  end.

Definition exampleSecret : Secret :=
  {| sec_Name := "cert"; sec_Namespace := "default";
     sec_Data := {[ TLSCertKey := "CERT"; TLSPrivateKeyKey := "KEY" ]} |}.

(** The secret ["cert"] exists; any other lookup fails with a
    [NotFoundError] for the namespace and name asked for. *)
Definition exampleCollaborators : Collaborators :=
  {| GenerateRouteKey := λ parent listenerName, parent +:+ "/" +:+ listenerName;
     SanitizeForEnvoy := λ resourceName _, replaceDots resourceName;
     TranslateGatewayHTTPRouteRules := λ routeInfo _,
       ([{| rm_Name := so_Name (GetSourceObject (ri_Object routeInfo)) |}], []);
     SortableRoutes_Less := λ a b,
       so_CreationTimestamp (sr_RouteObject a) <? so_CreationTimestamp (sr_RouteObject b);
     GetSecretForRef := λ namespace ref,
       if String.eqb (sor_Name ref) "cert" then inl exampleSecret
       else inr {| err_Error := "secret not found";
                   err_isMissingReferenceGrant := false;
                   err_isInvalidTlsSecret := false;
                   err_asNotFound := Some {| os_Namespace := namespace;
                                             os_Name := sor_Name ref |} |};
     ValidateTlsSecretData := λ _ _ _, None;
     validateGateway := λ gateway, (gw_Listeners gateway, []) |}.

Definition exampleParentRef : ParentReference :=
  {| pr_Namespace := None; pr_Name := "gw"; pr_SectionName := None |}.

Definition exampleListener (name : string) (protocol : ProtocolType) (port : PortNumber)
    (hostname : option Hostname) (certificate : option string) (policies : AttachedPolicies)
    : Listener :=
  {| l_Name := name; l_Hostname := hostname; l_Port := port; l_Protocol := protocol;
     l_TLS := (λ cert, {| tls_Mode := Some TLSModeTerminate;
                          tls_CertificateRefs := [{| sor_Namespace := None;
                                                     sor_Name := cert |}] |})
              <$> certificate;
     l_Parent := "gw"; l_AttachedPolicies := policies; l_PolicyAncestorRef := None |}.

Definition exampleHttpRoute (name : string) (created : Z) (hostnames : list string) : RouteInfo :=
  {| ri_Object := HttpRouteIR {| so_Kind := "HTTPRoute"; so_Namespace := "default";
                                 so_Name := name; so_CreationTimestamp := created |};
     ri_ParentRef := exampleParentRef;
     ri_Hostnames := hostnames |}.

Definition exampleL4Route (name : string) (created : Z) (rules : nat)
    (backends : list BackendRefIR) : L4RouteIR :=
  {| l4_SourceObject := {| so_Kind := "TCPRoute"; so_Namespace := "default";
                           so_Name := name; so_CreationTimestamp := created |};
     l4_Rules := replicate rules {| rule_Name := None |};
     l4_ParentRefs := [exampleParentRef];
     l4_Backends := backends |}.

Definition exampleTcpRoute (name : string) (created : Z) (rules : nat)
    (backends : list BackendRefIR) : RouteInfo :=
  {| ri_Object := TcpRouteIR (exampleL4Route name created rules backends);
     ri_ParentRef := exampleParentRef;
     ri_Hostnames := [] |}.

Definition exampleBackend (cluster : string) (found : bool) : BackendRefIR :=
  {| be_ClusterName := cluster; be_Weight := 1;
     be_BackendObject := if found then Some cluster else None;
     be_Err := None |}.

Definition exampleRoutes (bound : list (string * list RouteInfo)) : RoutesForGwResult :=
  λ _ listenerName,
    (λ routes, {| res_Routes := routes; res_Error := None |})
      <$> (list_to_map bound : gmap string (list RouteInfo)) !! listenerName.

Definition exampleSettings : ListenerTranslatorConfig := {| ListenerBindIpv6 := false |}.

(** Two plaintext listeners on port 80, a wildcard and an exact hostname. *)
Definition wildListener : Listener :=
  exampleListener "wild" HTTPProtocolType 80 (Some "*.example.com") None ["wild-policy"].
Definition apiListener : Listener :=
  exampleListener "api" HTTPProtocolType 80 (Some "api.example.com") None ["api-policy"].

Definition webListeners : list Listener := [wildListener; apiListener].
Definition webGateway : Gateway :=
  {| gw_Name := "gw"; gw_Namespace := "default"; gw_Listeners := webListeners |}.
Definition webRoutes : RoutesForGwResult :=
  exampleRoutes
    [ ("wild", [exampleHttpRoute "catalog" 1 ["shop.example.com"; "api.example.com"]]);
      ("api", [exampleHttpRoute "orders" 2 ["api.example.com"]]) ].

(** The plaintext chain the two listeners of [webGateway] merge into. *)
Definition wildParent : httpFilterChainParent :=
  {| hp_gatewayListenerName := "gw/wild"; hp_gatewayListener := wildListener;
     hp_routesWithHosts :=
       [exampleHttpRoute "catalog" 1 ["shop.example.com"; "api.example.com"]];
     hp_attachedPolicies := ["wild-policy"] |}.
Definition apiParent : httpFilterChainParent :=
  {| hp_gatewayListenerName := "gw/api"; hp_gatewayListener := apiListener;
     hp_routesWithHosts := [exampleHttpRoute "orders" 2 ["api.example.com"]];
     hp_attachedPolicies := ["api-policy"] |}.
Definition webChain : httpFilterChain := {| hc_parents := [wildParent; apiParent] |}.

(** The virtual host of "api.example.com" in the translation of [webChain]. *)
Definition apiVhost : VirtualHost :=
  {| vh_Name := "listener~80~api_example_com";
     vh_Hostname := "api.example.com";
     vh_Rules := [{| rm_Name := "catalog" |}; {| rm_Name := "orders" |}];
     vh_AttachedPolicies := ["api-policy"];
     vh_ParentRef := apiListener |}.

(** One plaintext listener with two routes whose hostnames differ and
    sanitise to the same virtual-host name. *)
Definition collidingGateway : Gateway :=
  {| gw_Name := "gw"; gw_Namespace := "default";
     gw_Listeners := [exampleListener "web" HTTPProtocolType 80 None None []] |}.
Definition collidingRoutes : RoutesForGwResult :=
  exampleRoutes
    [ ("web", [exampleHttpRoute "dotted" 1 ["api.example.com"];
               exampleHttpRoute "underscored" 2 ["api_example.com"]]) ].

(** Two HTTPS listeners on port 443 whose certificate resolves. *)
Definition secureListeners : list Listener :=
  [ exampleListener "shop" HTTPSProtocolType 443 (Some "shop.example.com") (Some "cert") [];
    exampleListener "default" HTTPSProtocolType 443 None (Some "cert") [] ].
Definition secureGateway : Gateway :=
  {| gw_Name := "gw"; gw_Namespace := "default"; gw_Listeners := secureListeners |}.

(** Two HTTPS listeners on port 443; the certificate of the second,
    ["broken"], does not exist. *)
Definition halfBrokenGateway : Gateway :=
  {| gw_Name := "gw"; gw_Namespace := "default";
     gw_Listeners :=
       [ exampleListener "shop" HTTPSProtocolType 443 (Some "shop.example.com") (Some "cert") [];
         exampleListener "broken" HTTPSProtocolType 443 (Some "blog.example.com")
           (Some "missing") [] ] |}.

(** One HTTPS listener on port 443 whose secret does not exist. *)
Definition brokenGateway : Gateway :=
  {| gw_Name := "gw"; gw_Namespace := "default";
     gw_Listeners :=
       [ exampleListener "broken" HTTPSProtocolType 443 (Some "blog.example.com")
           (Some "missing") [] ] |}.

Definition noRoutes : RoutesForGwResult := exampleRoutes [].

(** A TCP chain with three routes, the oldest bound last. *)
Definition exampleTcpChain (routes : list RouteInfo) : tcpFilterChain :=
  {| tc_parents := {| tp_gatewayListenerName := "gw/tcp"; tp_routesWithHosts := routes |};
     tc_tls := None; tc_sniDomain := None;
     tc_listenerReporter := {| lr_Parent := "gw"; lr_ListenerName := "tcp" |} |}.

Definition oldestL4Route : L4RouteIR :=
  exampleL4Route "oldest" 10 1 [exampleBackend "a" true; exampleBackend "gone" false].
Definition oldestTcpRoute : RouteInfo :=
  exampleTcpRoute "oldest" 10 1 [exampleBackend "a" true; exampleBackend "gone" false].

Definition threeTcpRoutes : list RouteInfo :=
  [ exampleTcpRoute "newest" 30 1 [exampleBackend "c" true];
    exampleTcpRoute "middle" 20 1 [exampleBackend "b" true];
    oldestTcpRoute ].

(** The route of [twoRuleTcpChain]. *)
Definition twoRuleL4Route : L4RouteIR :=
  exampleL4Route "two-rules" 1 2 [exampleBackend "a" true].

(** A TCP chain whose only route declares two rules. *)
Definition twoRuleTcpChain : tcpFilterChain :=
  exampleTcpChain [exampleTcpRoute "two-rules" 1 2 [exampleBackend "a" true]].

(** A merged listener with two TCP chains, neither with a bound route. *)
Definition idleTcpPort : MergedListener :=
  {| ml_name := "listener~9000"; ml_gatewayNamespace := "default"; ml_port := 9000;
     ml_httpFilterChain := None; ml_httpsFilterChains := [];
     ml_TcpFilterChains :=
       [ {| tc_parents := {| tp_gatewayListenerName := "gw/a"; tp_routesWithHosts := [] |};
            tc_tls := None; tc_sniDomain := None;
            tc_listenerReporter := {| lr_Parent := "gw"; lr_ListenerName := "a" |} |};
         {| tc_parents := {| tp_gatewayListenerName := "gw/b"; tp_routesWithHosts := [] |};
            tc_tls := None; tc_sniDomain := None;
            tc_listenerReporter := {| lr_Parent := "gw"; lr_ListenerName := "b" |} |} ];
     ml_listenerReporter := {| lr_Parent := "gw"; lr_ListenerName := "a" |};
     ml_listener := exampleListener "a" TCPProtocolType 9000 None None [];
     ml_gateway := zeroGateway;
     ml_settings := exampleSettings |}.

(** Two TCP listeners and a TLS listener sharing port 9000, and a listener
    of a protocol the translator does not know. *)
Definition l4Listeners : list Listener :=
  [ exampleListener "plain" TCPProtocolType 9000 None None [];
    exampleListener "udp" "UDP" 9000 None None [];
    exampleListener "sni" TLSProtocolType 9000 (Some "db.example.com") None [] ].
Definition l4Gateway : Gateway :=
  {| gw_Name := "gw"; gw_Namespace := "default"; gw_Listeners := l4Listeners |}.

(** A TLS listener that comes first on port 9000, followed by a TCP
    listener on the same port. *)
Definition tlsFirstListeners : list Listener :=
  [ exampleListener "sni" TLSProtocolType 9000 (Some "db.example.com") None [];
    exampleListener "plain" TCPProtocolType 9000 None None [] ].
Definition tlsFirstGateway : Gateway :=
  {| gw_Name := "gw"; gw_Namespace := "default"; gw_Listeners := tlsFirstListeners |}.

(** An HTTPS listener without a TLS block, and one that terminates TLS
    and names no certificate. *)
Definition openListener : Listener :=
  exampleListener "open" HTTPSProtocolType 443 (Some "open.example.com") None ["open-policy"].
Definition noCertListener : Listener :=
  {| l_Name := "nocert"; l_Hostname := None; l_Port := 443; l_Protocol := HTTPSProtocolType;
     l_TLS := Some {| tls_Mode := Some TLSModeTerminate; tls_CertificateRefs := [] |};
     l_Parent := "gw"; l_AttachedPolicies := []; l_PolicyAncestorRef := None |}.

(** Collaborators whose sanitiser leaves names as they are. *)
Definition plainCollaborators : Collaborators :=
  {| GenerateRouteKey := @GenerateRouteKey exampleCollaborators;
     SanitizeForEnvoy := λ resourceName _, resourceName;
     TranslateGatewayHTTPRouteRules := @TranslateGatewayHTTPRouteRules exampleCollaborators;
     SortableRoutes_Less := @SortableRoutes_Less exampleCollaborators;
     GetSecretForRef := @GetSecretForRef exampleCollaborators;
     ValidateTlsSecretData := @ValidateTlsSecretData exampleCollaborators;
     validateGateway := @validateGateway exampleCollaborators |}.

(** The HTTPS chain of a listener whose certificate resolves, with one
    route bound to it. *)
Definition shopChain : httpsFilterChain :=
  @httpsChainOf exampleCollaborators
    (exampleListener "shop" HTTPSProtocolType 443 (Some "shop.example.com") (Some "cert") [])
    [exampleHttpRoute "catalog" 1 ["shop.example.com"]].

(** A plaintext chain of one listener with a hostname, bound to a route
    that declares no hostname. *)
Definition hostlessRouteChain : httpFilterChain :=
  {| hc_parents :=
       [{| hp_gatewayListenerName := "gw/api"; hp_gatewayListener := apiListener;
           hp_routesWithHosts := [exampleHttpRoute "anywhere" 1 []];
           hp_attachedPolicies := ["api-policy"] |}] |}.

(** The virtual host of the route of [hostlessRouteChain]. *)
Definition catchAllVhost : VirtualHost :=
  {| vh_Name := "listener~80~*"; vh_Hostname := "*";
     vh_Rules := [{| rm_Name := "anywhere" |}];
     vh_AttachedPolicies := []; vh_ParentRef := zeroListener |}.

(** The virtual hosts of a translation result, as (name, hostname) pairs
    in output order. *)
Definition emittedVhosts (listeners : list ListenerIR) : list (string * string) :=
  l ← listeners; c ← lir_HttpFilterChain l;
  (λ v, (vh_Name v, vh_Hostname v)) <$> hfc_Vhosts c.

(** * Properties *)

(** ** Reporting computations *)

Lemma bind_fst {A B} (m : Rep A) (k : A → Rep B) : (bind m k).1 = (k m.1).1.
Proof. destruct m as [a l1]; simpl. by destruct (k a). Qed.

Lemma bind_snd {A B} (m : Rep A) (k : A → Rep B) : (bind m k).2 = m.2 ++ (k m.1).2.
Proof. destruct m as [a l1]; simpl. by destruct (k a). Qed.

Lemma forRange_fst {A S} (xs : list A) (s : S) (body : S → A → Rep S) :
  (forRange xs s body).1 = foldl (λ s x, (body s x).1) s xs.
Proof.
  revert s; induction xs as [|x xs IH]; intros s; simpl; [done|].
  by rewrite bind_fst, IH.
Qed.

(** A loop whose events do not depend on the loop state emits them
    element by element. *)
Lemma forRange_snd {A S} (xs : list A) (s : S) (body : S → A → Rep S) (ev : A → list Event) :
  (∀ s x, (body s x).2 = ev x) →
  (forRange xs s body).2 = xs ≫= ev.
Proof.
  intros Hev; revert s; induction xs as [|x xs IH]; intros s; simpl; [done|].
  by rewrite bind_snd, Hev, IH.
Qed.

(** A loop that appends [g x] to its accumulator collects the [g x]. *)
Lemma forRange_collect {A B} (xs : list A) (acc : list B) (body : list B → A → Rep (list B))
    (g : A → list B) :
  (∀ acc x, (body acc x).1 = acc ++ g x) →
  (forRange xs acc body).1 = acc ++ (xs ≫= g).
Proof.
  intros Hg; revert acc; induction xs as [|x xs IH]; intros acc; simpl.
  - by rewrite (right_id_L [] (++)).
  - by rewrite bind_fst, IH, Hg, (assoc_L (++)).
Qed.

(** ** The merge *)

Lemma foldl_snoc {A B} (f : A → B → A) (a : A) (l : list B) (x : B) :
  foldl f a (l ++ [x]) = f (foldl f a l) x.
Proof. revert a; induction l as [|y l IH]; intros a; simpl; [done|]. apply IH. Qed.

Section merge_props.
Context `{Collaborators}.

Lemma updateFirstOnPort_onPort q f ls :
  (∀ m, ml_port (f m) = ml_port m) →
  match onPort q ls with
  | [] => updateFirstOnPort q f ls = None
  | m :: rest =>
      ∃ ls', updateFirstOnPort q f ls = Some ls' ∧ onPort q ls' = f m :: rest
             ∧ ∀ p, p ≠ q → onPort p ls' = onPort p ls
  end.
Proof.
  intros Hf. unfold onPort. induction ls as [|lis ls IH]; simpl; [done|].
  destruct (decide (ml_port lis = q)) as [Heq|Hne].
  - rewrite filter_cons_True by done.
    eexists; split; [done|]. split.
    + rewrite filter_cons_True; [done|by rewrite Hf].
    + intros p Hp. rewrite !filter_cons_False; [done|congruence|rewrite Hf; congruence].
  - rewrite filter_cons_False by done.
    destruct (filter _ ls) as [|m rest] eqn:E.
    + by rewrite IH.
    + destruct IH as (ls' & -> & H1 & H2). eexists; split; [done|]. split.
      * by rewrite filter_cons_False.
      * intros p Hp. rewrite !filter_cons, H2 by done. done.
Qed.

Context (ns : string) (gw : Gateway) (rfg : RoutesForGwResult) (st : ListenerTranslatorConfig).

Local Abbreviation spec := (mergedOnPort ns gw rfg st).

Lemma listenersOnPort_snoc p processed l :
  listenersOnPort p (processed ++ [l])
  = listenersOnPort p processed
    ++ (if decide (l_Port l = p ∧ knownProtocol l) then [l] else []).
Proof. unfold listenersOnPort. by rewrite filter_app, filter_cons, filter_nil. Qed.

Lemma mergedOnPort_snoc_other p processed l :
  ¬ (l_Port l = p ∧ knownProtocol l) →
  spec p (processed ++ [l]) = spec p processed.
Proof.
  intros Hn. unfold mergedOnPort. rewrite listenersOnPort_snoc.
  rewrite decide_False by done. by rewrite (right_id_L [] (++)).
Qed.

(** One call of an append function, whatever the protocol: [f] is what the
    loop does to the merged listener it finds, [new] the merged listener
    appended when it finds none. *)
Lemma append_step processed (ml : MergedListeners) l f new :
  (∀ p, onPort p (Listeners ml) = option_list (spec p processed)) →
  knownProtocol l →
  (∀ m, ml_port (f m) = ml_port m) →
  ml_port new = l_Port l →
  (∀ m, spec (l_Port l) processed = Some m →
        spec (l_Port l) (processed ++ [l]) = Some (f m)) →
  (spec (l_Port l) processed = None →
   spec (l_Port l) (processed ++ [l]) = Some new) →
  ∀ p, onPort p (match updateFirstOnPort (l_Port l) f (Listeners ml) with
                 | Some ls => ls
                 | None => Listeners ml ++ [new]
                 end)
       = option_list (spec p (processed ++ [l])).
Proof.
  intros Hinv Hk Hf Hnew Hsome Hnone p.
  pose proof (updateFirstOnPort_onPort (l_Port l) f (Listeners ml) Hf) as Hup.
  rewrite Hinv in Hup.
  destruct (spec (l_Port l) processed) as [m|] eqn:Hq; simpl in Hup.
  - destruct Hup as (ls' & -> & Hq' & Hother).
    destruct (decide (p = l_Port l)) as [->|Hp].
    + by rewrite Hq', (Hsome m).
    + rewrite Hother, Hinv by done. rewrite mergedOnPort_snoc_other; [done|intros [? _]; congruence].
  - rewrite Hup. unfold onPort. rewrite filter_app, filter_cons, filter_nil.
    fold (onPort p (Listeners ml)). rewrite Hinv, Hnew.
    destruct (decide (l_Port l = p)) as [<-|Hp].
    + by rewrite Hq, Hnone.
    + rewrite (right_id_L [] (++)), mergedOnPort_snoc_other; [done|intros [? _]; congruence].
Qed.

Lemma withProtocol_snoc proto ls l :
  withProtocol proto (ls ++ [l])
  = withProtocol proto ls ++ (if decide (l_Protocol l = proto) then [l] else []).
Proof. unfold withProtocol. by rewrite filter_app, filter_cons, filter_nil. Qed.

Lemma l4_filter_snoc ls l :
  filter (λ l, l_Protocol l = TCPProtocolType ∨ l_Protocol l = TLSProtocolType) (ls ++ [l])
  = filter (λ l, l_Protocol l = TCPProtocolType ∨ l_Protocol l = TLSProtocolType) ls
    ++ (if decide (l_Protocol l = TCPProtocolType ∨ l_Protocol l = TLSProtocolType)
        then [l] else []).
Proof. by rewrite filter_app, filter_cons, filter_nil. Qed.

Lemma mergedOnPort_snoc_some p processed l first rest :
  listenersOnPort p processed = first :: rest →
  l_Port l = p → knownProtocol l →
  spec p (processed ++ [l]) = Some (mergedOf ns gw rfg st p first ((first :: rest) ++ [l])).
Proof.
  intros E Hp Hk. unfold mergedOnPort.
  rewrite listenersOnPort_snoc, E, decide_True by done. done.
Qed.

Lemma mergedOnPort_snoc_none p processed l :
  listenersOnPort p processed = [] →
  l_Port l = p → knownProtocol l →
  spec p (processed ++ [l]) = Some (mergedOf ns gw rfg st p l [l]).
Proof.
  intros E Hp Hk. unfold mergedOnPort.
  rewrite listenersOnPort_snoc, E, decide_True by done. done.
Qed.

Ltac proto_contra :=
  exfalso;
  unfold HTTPProtocolType, HTTPSProtocolType, TCPProtocolType, TLSProtocolType in *;
  congruence.

Ltac decide_protocols :=
  repeat match goal with
  | |- context [decide ?P] =>
      let Hd := fresh "Hd" in
      destruct (decide P) as [Hd|Hd];
      [ try (exfalso; clear -Hd; intuition discriminate)
      | try (exfalso; apply Hd; clear; auto; fail) ]
  end.

Lemma mergedOf_http p first ls l :
  l_Protocol l = HTTPProtocolType →
  mergedOf ns gw rfg st p first (ls ++ [l])
  = let parent := httpParentOf l (routesOf rfg l) in
    let m := mergedOf ns gw rfg st p first ls in
    match ml_httpFilterChain m with
    | Some c => set_httpFilterChain (Some {| hc_parents := hc_parents c ++ [parent] |}) m
    | None => set_httpFilterChain (Some {| hc_parents := [parent] |}) m
    end.
Proof.
  intros Hl. unfold mergedOf. cbn [ml_httpFilterChain].
  rewrite !withProtocol_snoc, l4_filter_snoc, Hl. decide_protocols.
  all: rewrite !(right_id_L [] (++)).
  all: destruct (withProtocol HTTPProtocolType ls) as [|h hs]; [done|].
  all: unfold set_httpFilterChain; cbn; by rewrite fmap_app.
Qed.

Lemma mergedOf_https p first ls l :
  l_Protocol l = HTTPSProtocolType →
  mergedOf ns gw rfg st p first (ls ++ [l])
  = let m := mergedOf ns gw rfg st p first ls in
    set_httpsFilterChains (ml_httpsFilterChains m ++ [httpsChainOf l (routesOf rfg l)]) m.
Proof.
  intros Hl. unfold mergedOf, set_httpsFilterChains. cbn.
  rewrite !withProtocol_snoc, l4_filter_snoc, Hl. decide_protocols.
  all: by rewrite !(right_id_L [] (++)), fmap_app.
Qed.

Lemma mergedOf_tcp p first ls l :
  l_Protocol l = TCPProtocolType →
  mergedOf ns gw rfg st p first (ls ++ [l])
  = let m := mergedOf ns gw rfg st p first ls in
    set_TcpFilterChains
      (ml_TcpFilterChains m ++ [tcpChainOf l (routesOf rfg l) (listenerReporterOf l)]) m.
Proof.
  intros Hl. unfold mergedOf, set_TcpFilterChains. cbn.
  rewrite !withProtocol_snoc, l4_filter_snoc, Hl. decide_protocols.
  all: rewrite !(right_id_L [] (++)), fmap_app; cbn; do 3 f_equal.
  all: unfold l4ChainFor; rewrite Hl; by decide_protocols.
Qed.

Lemma mergedOf_tls p first ls l :
  l_Protocol l = TLSProtocolType →
  mergedOf ns gw rfg st p first (ls ++ [l])
  = let m := mergedOf ns gw rfg st p first ls in
    set_TcpFilterChains
      (ml_TcpFilterChains m ++ [tlsChainOf l (routesOf rfg l) (listenerReporterOf l)]) m.
Proof.
  intros Hl. unfold mergedOf, set_TcpFilterChains. cbn.
  rewrite !withProtocol_snoc, l4_filter_snoc, Hl. decide_protocols.
  all: rewrite !(right_id_L [] (++)), fmap_app; cbn; do 3 f_equal.
  all: unfold l4ChainFor; rewrite Hl; by decide_protocols.
Qed.

Lemma mergedOf_single p l :
  knownProtocol l → l_Port l = p →
  mergedOf ns gw rfg st p l [l]
  = {| ml_name := GenerateListenerName l;
       ml_gatewayNamespace := ns;
       ml_port := p;
       ml_httpFilterChain :=
         if decide (l_Protocol l = HTTPProtocolType)
         then Some {| hc_parents := [httpParentOf l (routesOf rfg l)] |} else None;
       ml_httpsFilterChains :=
         if decide (l_Protocol l = HTTPSProtocolType)
         then [httpsChainOf l (routesOf rfg l)] else [];
       ml_TcpFilterChains :=
         if decide (l_Protocol l = TCPProtocolType)
         then [tcpChainOf l (routesOf rfg l) (listenerReporterOf l)]
         else if decide (l_Protocol l = TLSProtocolType)
              then [tlsChainOf l (routesOf rfg l) (listenerReporterOf l)] else [];
       ml_listenerReporter := listenerReporterOf l;
       ml_listener := l;
       ml_gateway := if decide (l_Protocol l = TLSProtocolType) then zeroGateway else gw;
       ml_settings := st |}.
Proof.
  intros Hk Hp. unfold mergedOf, withProtocol, l4ChainFor.
  rewrite !filter_cons, !filter_nil.
  unfold knownProtocol in Hk.
  repeat (apply elem_of_cons in Hk as [Hk|Hk]); [..|by apply elem_of_nil in Hk];
    rewrite !Hk; decide_protocols; cbn; rewrite ?Hk; by decide_protocols.
Qed.

Lemma mergedOf_single_eq l new :
  knownProtocol l →
  new = {| ml_name := GenerateListenerName l;
           ml_gatewayNamespace := ns;
           ml_port := l_Port l;
           ml_httpFilterChain := ml_httpFilterChain new;
           ml_httpsFilterChains := ml_httpsFilterChains new;
           ml_TcpFilterChains := ml_TcpFilterChains new;
           ml_listenerReporter := listenerReporterOf l;
           ml_listener := l;
           ml_gateway := ml_gateway new;
           ml_settings := st |} →
  (ml_httpFilterChain new =
     if decide (l_Protocol l = HTTPProtocolType)
     then Some {| hc_parents := [httpParentOf l (routesOf rfg l)] |} else None) →
  (ml_httpsFilterChains new =
     if decide (l_Protocol l = HTTPSProtocolType)
     then [httpsChainOf l (routesOf rfg l)] else []) →
  (ml_TcpFilterChains new =
     if decide (l_Protocol l = TCPProtocolType)
     then [tcpChainOf l (routesOf rfg l) (listenerReporterOf l)]
     else if decide (l_Protocol l = TLSProtocolType)
          then [tlsChainOf l (routesOf rfg l) (listenerReporterOf l)] else []) →
  (ml_gateway new = if decide (l_Protocol l = TLSProtocolType)
                    then zeroGateway else gw) →
  mergedOf ns gw rfg st (l_Port l) l [l] = new.
Proof.
  intros Hk -> E1 E2 E3 E4. rewrite mergedOf_single by done.
  by rewrite <- E1, <- E2, <- E3, <- E4.
Qed.

Lemma AppendListener_step processed (ml : MergedListeners) l :
  GatewayNamespace ml = ns → parentGw ml = gw → settings ml = st →
  (∀ p, onPort p (Listeners ml) = option_list (spec p processed)) →
  let ml' := (AppendListener ml l (routesOf rfg l) (listenerReporterOf l)).1 in
  GatewayNamespace ml' = ns ∧ parentGw ml' = gw ∧ settings ml' = st ∧
  ∀ p, onPort p (Listeners ml') = option_list (spec p (processed ++ [l])).
Proof.
  intros Hns Hgw Hst Hinv. unfold AppendListener.
  assert (∀ f new,
    (∀ m, ml_port (f m) = ml_port m) →
    knownProtocol l →
    (∀ first ls, mergedOf ns gw rfg st (l_Port l) first (ls ++ [l])
                 = f (mergedOf ns gw rfg st (l_Port l) first ls)) →
    mergedOf ns gw rfg st (l_Port l) l [l] = new →
    let ml' := match updateFirstOnPort (l_Port l) f (Listeners ml) with
               | Some ls => withListeners ml ls
               | None => withListeners ml (Listeners ml ++ [new])
               end in
    GatewayNamespace ml' = ns ∧ parentGw ml' = gw ∧ settings ml' = st ∧
    ∀ p, onPort p (Listeners ml') = option_list (spec p (processed ++ [l]))) as Hcase.
  { intros f new Hf Hk Hsome Hnone.
    assert (ml_port new = l_Port l) as Hnew by (by rewrite <- Hnone).
    assert (∀ m, spec (l_Port l) processed = Some m →
                 spec (l_Port l) (processed ++ [l]) = Some (f m)) as Hs.
    { intros m. unfold mergedOnPort at 1.
      destruct (listenersOnPort (l_Port l) processed) as [|first rest] eqn:E; [done|].
      intros [= Hm]. rewrite (mergedOnPort_snoc_some _ _ _ _ _ E) by done.
      by rewrite Hsome, Hm. }
    assert (spec (l_Port l) processed = None →
            spec (l_Port l) (processed ++ [l]) = Some new) as Hn.
    { unfold mergedOnPort at 1.
      destruct (listenersOnPort (l_Port l) processed) as [|first rest] eqn:E; [|done].
      intros _. by rewrite mergedOnPort_snoc_none, Hnone. }
    pose proof (append_step processed ml l f new Hinv Hk Hf Hnew Hs Hn) as Hstep.
    destruct (updateFirstOnPort _ _ _); simpl; by split_and!. }
  assert (∀ proto, l_Protocol l = proto →
            bool_decide (proto ∈ [HTTPProtocolType; HTTPSProtocolType;
                                  TCPProtocolType; TLSProtocolType]) = true →
            knownProtocol l) as Hknown.
  { intros proto <- Hin. by apply bool_decide_eq_true in Hin. }
  repeat case_decide; simpl.
  - assert (knownProtocol l) as Hk by (by eapply Hknown).
    apply Hcase; [|done| |].
    + intros m. by destruct (ml_httpFilterChain m).
    + intros. by rewrite mergedOf_http.
    + apply mergedOf_single_eq; [done|by rewrite Hns, Hgw, Hst|simpl..].
      all: by repeat case_decide; try proto_contra.
  - assert (knownProtocol l) as Hk by (by eapply Hknown).
    apply Hcase; [done|done| |].
    + intros. by rewrite mergedOf_https.
    + apply mergedOf_single_eq; [done|by rewrite Hns, Hgw, Hst|simpl..];
        by repeat case_decide; try proto_contra.
  - assert (knownProtocol l) as Hk by (by eapply Hknown).
    apply Hcase; [done|done| |].
    + intros. by rewrite mergedOf_tcp.
    + apply mergedOf_single_eq; [done|by rewrite Hns, Hgw, Hst|simpl..];
        by repeat case_decide; try proto_contra.
  - assert (knownProtocol l) as Hk by (by eapply Hknown).
    apply Hcase; [done|done| |].
    + intros. by rewrite mergedOf_tls.
    + apply mergedOf_single_eq; [done|by rewrite ?Hns, ?Hgw, ?Hst|simpl..];
        by repeat case_decide; try proto_contra.
  - split_and!; [done..|]. intros p. rewrite mergedOnPort_snoc_other; [done|].
    intros [_ Hk]. unfold knownProtocol in Hk.
    repeat (apply elem_of_cons in Hk as [Hk|Hk]; [done|]). by apply elem_of_nil in Hk.
Qed.

Theorem mergeGWListeners_onPort listeners p :
  onPort p (Listeners (mergeGWListeners ns listeners gw rfg st))
  = option_list (spec p listeners).
Proof.
  cut (let ml := mergeGWListeners ns listeners gw rfg st in
       GatewayNamespace ml = ns ∧ parentGw ml = gw ∧ settings ml = st ∧
       ∀ p, onPort p (Listeners ml) = option_list (spec p listeners)).
  { intros (_ & _ & _ & Hp). apply Hp. }
  clear p. induction listeners as [|l processed IH] using rev_ind.
  - done.
  - destruct IH as (Hns & Hgw & Hst & Hinv). unfold mergeGWListeners in *.
    rewrite foldl_snoc. by apply AppendListener_step.
Qed.

End merge_props.

(** ** Sorting *)

Lemma sortInsert_perm {A} (less : A → A → bool) x l : sortInsert less x l ≡ₚ x :: l.
Proof.
  induction l as [|y l IH]; simpl; [done|].
  destruct (less y x); [|done]. rewrite IH. apply Permutation_swap.
Qed.

Lemma sortBy_perm {A} (less : A → A → bool) l : sortBy less l ≡ₚ l.
Proof.
  induction l as [|x l IH]; simpl; [done|]. by rewrite sortInsert_perm, IH.
Qed.

Lemma String_ltb_le a b : String.ltb a b = true → String.le a b.
Proof.
  unfold String.le, String.ltb, String.leb. by destruct (String.compare a b); simpl.
Qed.

Lemma String_ltb_false_le a b : String.ltb a b = false → String.le b a.
Proof.
  unfold String.le, String.ltb, String.leb. rewrite (String.compare_antisym b a).
  by destruct (String.compare a b); simpl.
Qed.

Lemma String_ltb_iff a b : String.ltb a b = true ↔ String.le a b ∧ a ≠ b.
Proof.
  split.
  - intros Hlt. split; [by apply String_ltb_le|]. intros ->.
    unfold String.ltb in Hlt.
    destruct (String.compare b b) eqn:E; try done.
    pose proof (String.compare_antisym b b) as Ha. by rewrite E in Ha.
  - intros [Hle Hne]. unfold String.le, String.ltb, String.leb in *.
    destruct (String.compare a b) eqn:E; simpl in *; try done.
    by apply String.compare_eq_iff in E.
Qed.

Global Instance vhostLe_trans : Transitive vhostLe.
Proof. intros a b c. unfold vhostLe. apply transitivity. Qed.

Lemma sortInsert_sorted x l :
  Sorted vhostLe l → Sorted vhostLe (sortInsert vhostLess x l).
Proof.
  induction 1 as [|y l Hl IH Hhd]; simpl; [by repeat constructor|].
  destruct (vhostLess y x) eqn:E.
  - constructor; [done|].
    apply String_ltb_le in E.
    destruct Hhd as [|z l' Hyz]; simpl; [by repeat constructor|].
    destruct (vhostLess z x); by constructor.
  - apply String_ltb_false_le in E. by repeat constructor.
Qed.

Lemma sortVhosts_sorted l : Sorted vhostLe (sortVhosts l).
Proof.
  induction l as [|x l IH]; simpl; [constructor|]. by apply sortInsert_sorted.
Qed.

Lemma sortVhosts_perm l : sortVhosts l ≡ₚ l.
Proof. apply sortBy_perm. Qed.

(** With pairwise distinct names the sorted list is strictly ascending. *)
Lemma sortVhosts_strict l :
  NoDup (vh_Name <$> l) →
  StronglySorted (λ a b, String.ltb (vh_Name a) (vh_Name b) = true) (sortVhosts l).
Proof.
  intros Hnd.
  assert (NoDup (vh_Name <$> sortVhosts l)) as Hnd'.
  { by rewrite sortVhosts_perm. }
  pose proof (Sorted_StronglySorted _ _ (sortVhosts_sorted l)) as Hs.
  induction Hs as [|x l' Hs IH Hall]; [constructor|].
  rewrite fmap_cons in Hnd'. apply NoDup_cons in Hnd' as [Hx Hnd'].
  constructor; [by apply IH|].
  apply Forall_forall. intros y Hy. apply String_ltb_iff. split.
  - by eapply Forall_forall in Hall.
  - intros Heq. apply Hx. rewrite Heq. by apply list_elem_of_fmap_2.
Qed.

Lemma NoDup_fmap_inj_on {A B} (f : A → B) (l : list A) x y :
  NoDup (f <$> l) → x ∈ l → y ∈ l → f x = f y → x = y.
Proof.
  induction l as [|z l IH]; [by intros _ ?%elem_of_nil|].
  rewrite fmap_cons, NoDup_cons. intros [Hz Hnd] Hx Hy Hf.
  apply elem_of_cons in Hx as [->|Hx]; apply elem_of_cons in Hy as [->|Hy].
  - done.
  - exfalso. apply Hz. rewrite Hf. by apply list_elem_of_fmap_2.
  - exfalso. apply Hz. rewrite <- Hf. by apply list_elem_of_fmap_2.
  - by apply IH.
Qed.

(** Sorting two orderings of the same virtual hosts gives one list, the
    names being pairwise distinct: the order of the input is forgotten. *)
Lemma sortVhosts_order_irrelevant l1 l2 :
  l1 ≡ₚ l2 → NoDup (vh_Name <$> l1) → sortVhosts l1 = sortVhosts l2.
Proof.
  intros Hp Hnd.
  apply (StronglySorted_unique_strong vhostLe).
  - intros x1 x2 H1 H2 H12 H21.
    apply (NoDup_fmap_inj_on vh_Name l1); [done| | |].
    + by rewrite <- (sortVhosts_perm l1).
    + by rewrite Hp, <- (sortVhosts_perm l2).
    + by apply (anti_symm String.le).
  - apply Sorted_StronglySorted; [apply _|apply sortVhosts_sorted].
  - apply Sorted_StronglySorted; [apply _|apply sortVhosts_sorted].
  - by rewrite !sortVhosts_perm.
Qed.

(** ** Deduplication of virtual hosts by name *)

Section dedupe.
Context (name : string → string) (mk : string → SortableRoutes → VirtualHost)
        (step : gmap string bool * list VirtualHost → string * SortableRoutes
                → gmap string bool * list VirtualHost).
Hypothesis step_eq : ∀ names vhosts host routes,
  step (names, vhosts) (host, routes)
  = if default false (names !! name host) then (names, vhosts)
    else (<[name host := true]> names, vhosts ++ [mk host routes]).
Hypothesis mk_name : ∀ host routes, vh_Name (mk host routes) = name host.

Lemma dedupe_fold entries st :
  (∀ n, default false (st.1 !! n) = true ↔ n ∈ vh_Name <$> st.2) →
  NoDup (vh_Name <$> st.2) →
  let st' := foldl step st entries in
  NoDup (vh_Name <$> st'.2)
  ∧ (∀ v, v ∈ st'.2 →
          v ∈ st.2 ∨ ∃ host routes, (host, routes) ∈ entries ∧ v = mk host routes)
  ∧ (∀ host routes, (host, routes) ∈ entries → name host ∈ vh_Name <$> st'.2)
  ∧ (∀ v, v ∈ st.2 → v ∈ st'.2).
Proof.
  revert st. induction entries as [|[host routes] entries IH]; intros [names vhosts] Hseen Hnd.
  { simpl. split_and!; [done|auto| |done]. by intros ?? ?%elem_of_nil. }
  cbn [foldl]. rewrite step_eq. simpl in Hseen, Hnd.
  destruct (default false (names !! name host)) eqn:E.
  - destruct (IH (names, vhosts) Hseen Hnd) as (H1 & H2 & H3 & H4).
    split_and!; [done| | |done].
    + intros v Hv. destruct (H2 v Hv) as [?|(h & r & ? & ?)]; [by left|right].
      exists h, r. split; [by apply elem_of_cons; right|done].
    + intros h r [[= -> ->]|Hin]%elem_of_cons; [|by eapply H3].
      apply list_elem_of_fmap. apply Hseen in E.
      apply list_elem_of_fmap in E as (v & -> & Hv). exists v. split; [done|by apply H4].
  - destruct (IH (<[name host := true]> names, vhosts ++ [mk host routes]))
      as (H1 & H2 & H3 & H4).
    + intros n. simpl. rewrite fmap_app, elem_of_app. simpl.
      rewrite mk_name, list_elem_of_singleton.
      destruct (decide (n = name host)) as [->|Hn].
      * rewrite lookup_insert_eq. simpl. split; auto.
      * rewrite lookup_insert_ne by done. rewrite Hseen.
        split; [by left|]. by intros [?|?].
    + simpl. rewrite fmap_app. apply NoDup_app. split_and!; [done| |].
      * intros n Hn. simpl. rewrite mk_name, list_elem_of_singleton. intros ->.
        apply Hseen in Hn. by rewrite Hn in E.
      * simpl. apply NoDup_singleton.
    + split_and!; [done| | |].
      * intros v Hv. destruct (H2 v Hv) as [Hin|(h & r & ? & ?)].
        -- simpl in Hin. apply elem_of_app in Hin as [?|Hin]; [by left|right].
           apply list_elem_of_singleton in Hin as ->.
           exists host, routes. split; [by apply elem_of_cons; left|done].
        -- right. exists h, r. split; [by apply elem_of_cons; right|done].
      * intros h r [[= -> ->]|Hin]%elem_of_cons; [|by eapply H3].
        apply list_elem_of_fmap. exists (mk host routes). split; [by rewrite mk_name|].
        apply H4. simpl. apply elem_of_app. right. by apply list_elem_of_singleton.
      * intros v Hv. apply H4. simpl. apply elem_of_app. by left.
Qed.

(** Without a name collision among the entries nothing is dropped. *)
Lemma dedupe_fold_distinct entries st :
  (∀ n, default false (st.1 !! n) = true ↔ n ∈ vh_Name <$> st.2) →
  NoDup ((λ e, name e.1) <$> entries) →
  (∀ e, e ∈ entries → name e.1 ∉ vh_Name <$> st.2) →
  (foldl step st entries).2 = st.2 ++ ((λ e, mk e.1 e.2) <$> entries).
Proof.
  revert st. induction entries as [|[host routes] entries IH];
    intros [names vhosts] Hseen Hnd Hfresh.
  { simpl. by rewrite (right_id_L [] (++)). }
  cbn [foldl]. rewrite step_eq. simpl in *.
  apply NoDup_cons in Hnd as [Hhost Hnd].
  destruct (default false (names !! name host)) eqn:E.
  { exfalso. apply (Hfresh (host, routes)); [by apply elem_of_cons; left|].
    by apply Hseen. }
  rewrite IH; simpl.
  - by rewrite <- (assoc_L (++)).
  - intros n. rewrite fmap_app, elem_of_app. simpl.
    rewrite mk_name, list_elem_of_singleton.
    destruct (decide (n = name host)) as [->|Hn].
    + rewrite lookup_insert_eq. simpl. split; auto.
    + rewrite lookup_insert_ne by done. rewrite Hseen.
      split; [by left|]. by intros [?|?].
  - done.
  - intros e He. rewrite fmap_app, not_elem_of_app. split.
    + apply Hfresh. by apply elem_of_cons; right.
    + simpl. rewrite mk_name, list_elem_of_singleton. intros Heq. apply Hhost.
      rewrite <- Heq. by apply (list_elem_of_fmap_2 (λ e, name e.1)).
Qed.

End dedupe.

(** ** The plaintext chain *)

Section http_chain.
Context `{Collaborators} `{MapRange}.

Lemma translateHttpFilterChain_vhosts fc parentName :
  hfc_Vhosts (translateHttpFilterChain fc parentName).1
  = sortVhosts (foldl (httpVhostStep parentName (hc_parents fc)) (∅, [])
                      (rangeOrder (map_to_list (httpRoutesByHost fc)))).2.
Proof.
  unfold translateHttpFilterChain, httpRoutesByHost. rewrite bind_fst.
  by destruct (foldl _ _ _).
Qed.

Lemma elem_of_rangeOrder (m : gmap string SortableRoutes) host routes :
  (host, routes) ∈ rangeOrder (map_to_list m) ↔ m !! host = Some routes.
Proof. by rewrite rangeOrder_perm, elem_of_map_to_list. Qed.

Lemma http_vhosts_spec fc parentName :
  let vhosts := hfc_Vhosts (translateHttpFilterChain fc parentName).1 in
  StronglySorted (λ a b, String.ltb (vh_Name a) (vh_Name b) = true) vhosts
  ∧ NoDup (vh_Name <$> vhosts)
  ∧ (∀ v, v ∈ vhosts →
       ∃ routes, httpRoutesByHost fc !! vh_Hostname v = Some routes
                 ∧ v = httpVhostOf parentName (hc_parents fc) (vh_Hostname v) routes)
  ∧ (∀ host, host ∈ dom (httpRoutesByHost fc) →
       makeVhostName parentName host ∈ vh_Name <$> vhosts).
Proof.
  intros vhosts. unfold vhosts. rewrite translateHttpFilterChain_vhosts.
  destruct (dedupe_fold (makeVhostName parentName)
              (httpVhostOf parentName (hc_parents fc))
              (httpVhostStep parentName (hc_parents fc))
              (λ _ _ _ _, eq_refl) (λ _ _, eq_refl)
              (rangeOrder (map_to_list (httpRoutesByHost fc))) (∅, []))
    as (Hnd & Hfrom & Hall & _).
  { intros n. simpl. rewrite lookup_empty. simpl. split; [done|]. by intros ?%elem_of_nil. }
  { simpl. constructor. }
  split_and!.
  - by apply sortVhosts_strict.
  - by rewrite sortVhosts_perm.
  - intros v Hv. rewrite sortVhosts_perm in Hv.
    destruct (Hfrom v Hv) as [Hnil|(host & routes & Hin & ->)]; [by apply elem_of_nil in Hnil|].
    exists routes. split; [|done]. by apply elem_of_rangeOrder in Hin.
  - intros host [routes Hr]%elem_of_dom. rewrite sortVhosts_perm.
    apply (Hall host routes). by apply elem_of_rangeOrder.
Qed.

Lemma insert_fold_dom (f : gmap string SortableRoutes → string → SortableRoutes)
    (hs : list string) (m : gmap string SortableRoutes) (host : string) :
  host ∈ dom (foldl (λ m h, <[h := f m h]> m) m hs) ↔ host ∈ dom m ∨ host ∈ hs.
Proof.
  revert m. induction hs as [|h hs IH]; intros m; simpl.
  - split; [by left|]. intros [?|?%elem_of_nil]; done.
  - rewrite IH, dom_insert, elem_of_union, elem_of_singleton, elem_of_cons.
    split; [intros [[?|?]|?]|intros [?|[?|?]]]; auto.
Qed.

Lemma buildRoutesPerHost_dom (m : gmap string SortableRoutes) routes host :
  host ∈ dom (buildRoutesPerHost m routes).1
  ↔ host ∈ dom m
    ∨ ∃ ri, ri ∈ routes
            ∧ (TranslateGatewayHTTPRouteRules ri (routeParentRefReporter ri)).1 ≠ []
            ∧ host ∈ effectiveHostnames ri.
Proof.
  unfold buildRoutesPerHost. rewrite forRange_fst.
  revert m. induction routes as [|ri routes IH]; intros m; simpl.
  - split; [by left|]. intros [?|(? & ?%elem_of_nil & _)]; done.
  - rewrite IH, bind_fst. clear IH.
    destruct (TranslateGatewayHTTPRouteRules ri (routeParentRefReporter ri)) as [rs evs] eqn:E.
    simpl. destruct (decide (length rs = 0%nat)) as [Hz|Hnz]; simpl.
    + apply length_zero_iff_nil in Hz as ->. split.
      * intros [?|(ri' & Hin & ?)]; [by left|right]. exists ri'.
        split; [by apply elem_of_cons; right|done].
      * intros [?|(ri' & Hin & Hne & ?)]; [by left|right].
        apply elem_of_cons in Hin as [->|Hin]; [by rewrite E in Hne|]. by exists ri'.
    + rewrite insert_fold_dom. fold (effectiveHostnames ri). split.
      * intros [[?|?]|(ri' & Hin & ?)]; [by left|right..].
        -- exists ri. split; [by apply elem_of_cons; left|]. rewrite E. split; [|done].
           simpl. by intros ->.
        -- exists ri'. split; [by apply elem_of_cons; right|done].
      * intros [?|(ri' & Hin & Hne & ?)]; [by left; left|].
        apply elem_of_cons in Hin as [->|Hin]; [by left; right|]. right. by exists ri'.
Qed.

(** The host buckets of a plaintext chain: the hostnames of the routes of
    its parents for which the route translator produced a rule. *)
Lemma httpRoutesByHost_dom fc host :
  host ∈ dom (httpRoutesByHost fc)
  ↔ ∃ parent ri, parent ∈ hc_parents fc ∧ ri ∈ hp_routesWithHosts parent
       ∧ (TranslateGatewayHTTPRouteRules ri (routeParentRefReporter ri)).1 ≠ []
       ∧ host ∈ effectiveHostnames ri.
Proof.
  unfold httpRoutesByHost. rewrite forRange_fst.
  cut (∀ (m : gmap string SortableRoutes) ps,
         host ∈ dom (foldl (λ m parent, (buildRoutesPerHost m (hp_routesWithHosts parent)).1) m ps)
         ↔ host ∈ dom m
           ∨ ∃ parent ri, parent ∈ ps ∧ ri ∈ hp_routesWithHosts parent
               ∧ (TranslateGatewayHTTPRouteRules ri (routeParentRefReporter ri)).1 ≠ []
               ∧ host ∈ effectiveHostnames ri).
  { intros ->. rewrite dom_empty, elem_of_empty. split; [by intros [?|?]|by right]. }
  intros m ps. revert m. induction ps as [|p ps IH]; intros m; simpl.
  - split; [by left|]. intros [?|(? & ? & ?%elem_of_nil & _)]; done.
  - rewrite IH, buildRoutesPerHost_dom. split.
    + intros [[?|(ri & ? & ? & ?)]|(p' & ri & ? & ?)]; [by left|right..].
      * exists p, ri. split; [by apply elem_of_cons; left|done].
      * exists p', ri. split; [by apply elem_of_cons; right|done].
    + intros [?|(p' & ri & Hin & ?)]; [by left; left|].
      apply elem_of_cons in Hin as [->|Hin]; [left; right; by exists ri|].
      right. by exists p', ri.
Qed.

End http_chain.

(** ** Policy attribution *)

Lemma hostnameLenOf_nonneg p : 0 ≤ hostnameLenOf p.
Proof. unfold hostnameLenOf. destruct (l_Hostname _); lia. Qed.

Lemma selectParent_snoc host parents p :
  selectParent host (parents ++ [p]) = selectParentStep host (selectParent host parents) p.
Proof. unfold selectParent. by rewrite foldl_snoc. Qed.

(** The inner loop either finds no parent whose hostname contains [host]
    and leaves the zero values, or settles on the best match. *)
Lemma selectParent_spec host parents :
  (Forall (λ q, isHostContained host (l_Hostname (hp_gatewayListener q)) = false) parents
   ∧ selectParent host parents
     = {| pc_attachedPolicies := noPolicies; pc_listenerRef := zeroListener;
          pc_maxHostnameLen := -1 |})
  ∨ ∃ p, bestMatch host parents p
         ∧ selectParent host parents
           = {| pc_attachedPolicies := hp_attachedPolicies p;
                pc_listenerRef := hp_gatewayListener p;
                pc_maxHostnameLen := hostnameLenOf p |}.
Proof.
  induction parents as [|x parents IH] using rev_ind.
  { left. split; [constructor|done]. }
  rewrite selectParent_snoc. unfold selectParentStep.
  destruct (isHostContained host (l_Hostname (hp_gatewayListener x))) eqn:Hx; simpl.
  - destruct IH as [[Hnone ->]|(p & (pre & post & -> & Hp & Hpre & Hpost) & ->)]; simpl.
    + pose proof (hostnameLenOf_nonneg x). rewrite (proj2 (Z.ltb_lt _ _)) by lia.
      right. exists x. split; [|done]. exists parents, []. split_and!; [done..| |].
      * intros q Hq Hm. rewrite Forall_forall in Hnone. by rewrite (Hnone q Hq) in Hm.
      * by intros q ?%elem_of_nil.
    + destruct (hostnameLenOf p <? hostnameLenOf x) eqn:Hlt.
      * apply Z.ltb_lt in Hlt. right. exists x. split; [|done].
        exists (pre ++ p :: post), []. split_and!; [done..| |by intros q ?%elem_of_nil].
        intros q Hq Hm. apply elem_of_app in Hq as [Hq|Hq].
        -- specialize (Hpre q Hq Hm). lia.
        -- apply elem_of_cons in Hq as [->|Hq]; [done|]. specialize (Hpost q Hq Hm). lia.
      * apply Z.ltb_ge in Hlt. right. exists p. split; [|done].
        exists pre, (post ++ [x]). split_and!; [by rewrite <- (assoc_L (++))|done..|].
        intros q Hq Hm. apply elem_of_app in Hq as [Hq|Hq]; [by apply Hpost|].
        by apply list_elem_of_singleton in Hq as ->.
  - destruct IH as [[Hnone ->]|(p & (pre & post & -> & Hp & Hpre & Hpost) & ->)].
    + left. split; [|done]. apply Forall_app. split; [done|]. by repeat constructor.
    + right. exists p. split; [|done].
      exists pre, (post ++ [x]). split_and!; [by rewrite <- (assoc_L (++))|done..|].
      intros q Hq Hm. apply elem_of_app in Hq as [Hq|Hq]; [by apply Hpost|].
      apply list_elem_of_singleton in Hq as ->. by rewrite Hx in Hm.
Qed.

(** ** Host containment *)

Lemma append_cons c s t : String c s +:+ t = String c (s +:+ t).
Proof. done. Qed.

Lemma substring_all s : String.substring 0 (String.length s) s = s.
Proof. induction s as [|c s IH]; simpl; [done|by rewrite IH]. Qed.

Lemma substring_skip pre s n :
  String.substring (String.length pre) n (pre +:+ s) = String.substring 0 n s.
Proof. induction pre as [|c pre IH]; [done|]. rewrite append_cons. simpl. apply IH. Qed.

Lemma String_length_app s1 s2 :
  String.length (s1 +:+ s2) = (String.length s1 + String.length s2)%nat.
Proof. induction s1 as [|c s1 IH]; [done|]. rewrite append_cons. simpl. by rewrite IH. Qed.

Lemma substring_split s n :
  (n ≤ String.length s)%nat →
  s = String.substring 0 n s +:+ String.substring n (String.length s - n) s.
Proof.
  revert n. induction s as [|c s IH]; intros [|n] Hn; simpl in *; try lia; try done.
  - by rewrite substring_all.
  - rewrite append_cons. f_equal. apply IH. lia.
Qed.

Lemma HasSuffix_spec s suffix : HasSuffix s suffix = true ↔ ∃ pre, s = pre +:+ suffix.
Proof.
  unfold HasSuffix. rewrite andb_true_iff, Nat.leb_le, String.eqb_eq. split.
  - intros [Hlen Heq].
    exists (String.substring 0 (String.length s - String.length suffix) s).
    rewrite (substring_split s (String.length s - String.length suffix)) at 1 by lia.
    f_equal. rewrite <- Heq at 3. f_equal. lia.
  - intros [pre ->]. rewrite String_length_app. split; [lia|].
    replace (String.length pre + String.length suffix - String.length suffix)%nat
      with (String.length pre) by lia.
    by rewrite substring_skip, substring_all.
Qed.

Lemma substring_prefix_app pre s :
  String.substring 0 (String.length pre) (pre +:+ s) = pre.
Proof.
  induction pre as [|c pre IH]; [by destruct s|]. rewrite append_cons. simpl. by rewrite IH.
Qed.

Lemma HasPrefix_spec s prefix : HasPrefix s prefix = true ↔ ∃ rest, s = prefix +:+ rest.
Proof.
  unfold HasPrefix. rewrite andb_true_iff, Nat.leb_le, String.eqb_eq. split.
  - intros [Hlen Heq].
    exists (String.substring (String.length prefix) (String.length s - String.length prefix) s).
    rewrite (substring_split s (String.length prefix)) at 1 by lia.
    by rewrite Heq.
  - intros [rest ->]. rewrite String_length_app. split; [lia|].
    apply substring_prefix_app.
Qed.

(** A listener hostname contains [host] when the two are equal, or when it
    is ["*." +:+ suffix] and [host] ends in ["." +:+ suffix]; no hostname
    contains every host. *)
Lemma isHostContained_spec host maybeLhost :
  isHostContained host maybeLhost = true
  ↔ match maybeLhost with
    | None => True
    | Some listenerHostname =>
        host = listenerHostname
        ∨ ∃ suffix pre, listenerHostname = "*." +:+ suffix ∧ host = pre +:+ "." +:+ suffix
    end.
Proof.
  destruct maybeLhost as [lh|]; simpl; [|done].
  destruct (HasPrefix lh "*." && HasSuffix host (dropFirst lh)) eqn:E.
  - split; [intros _|done]. apply andb_true_iff in E as [Hp Hs].
    apply HasPrefix_spec in Hp as [suffix ->]. apply HasSuffix_spec in Hs as [pre Hs].
    right. by exists suffix, pre.
  - rewrite String.eqb_eq. split; [by left|]. intros [?|(suffix & pre & -> & ->)]; [done|].
    exfalso. apply andb_false_iff in E as [E|E].
    + assert (HasPrefix ("*." +:+ suffix) "*." = true) as Hp
        by (apply HasPrefix_spec; by exists suffix).
      by rewrite Hp in E.
    + assert (HasSuffix (pre +:+ "." +:+ suffix) (dropFirst ("*." +:+ suffix)) = true) as Hs
        by (apply HasSuffix_spec; by exists pre).
      by rewrite Hs in E.
Qed.

(** ** TCP and TLS chains *)

Lemma bind_eq {A B} (m : Rep A) (k : A → Rep B) :
  bind m k = ((k m.1).1, m.2 ++ (k m.1).2).
Proof. destruct m as [a l1]; simpl. by destruct (k a). Qed.

Lemma list_bind_singleton {A B} (f : A → B) (xs : list A) : xs ≫= (λ x, [f x]) = f <$> xs.
Proof. induction xs as [|x xs IH]; csimpl; [done|by rewrite IH]. Qed.

Lemma list_bind_option_list {A B} (f : A → option B) (xs : list A) :
  xs ≫= (λ x, option_list (f x)) = omap f xs.
Proof.
  induction xs as [|x xs IH]; csimpl; [done|]. rewrite IH. by destruct (f x).
Qed.

(** A route whose rule count is not one: nothing is translated, and the
    early return comes before any condition is set. *)
Lemma translateL4Route_rejected parentName tRoute matcher :
  length (l4_Rules tRoute) ≠ 1%nat →
  translateL4Route parentName tRoute matcher = (None, []).
Proof.
  intros Hn. unfold translateL4Route, acceptedCondition.
  by rewrite decide_False by done.
Qed.

Lemma translateL4Route_accepted parentName tRoute matcher :
  length (l4_Rules tRoute) = 1%nat →
  translateL4Route parentName tRoute matcher
  = (match l4_Backends tRoute with
     | [] => None
     | backends =>
         Some {| tcp_Common := {| FilterChainName := tcpHostNameOf parentName tRoute;
                                  Matcher := matcher; TLS := None |};
                 tcp_BackendRefs := backends |}
     end,
     l4Events tRoute).
Proof.
  intros Hone. unfold translateL4Route, acceptedCondition.
  rewrite decide_True by done. cbn [rc_Status isConditionTrue negb].
  rewrite bind_eq.
  match goal with |- context [forRange (l4_ParentRefs tRoute) [] ?body] =>
    assert ((forRange (l4_ParentRefs tRoute) [] body).1 = l4Reporter tRoute <$> l4_ParentRefs tRoute) as Hv1;
    [|assert ((forRange (l4_ParentRefs tRoute) [] body).2
              = (λ parentRef, RouteSetCondition (l4Reporter tRoute parentRef) acceptedTrue)
                  <$> l4_ParentRefs tRoute) as He1]
  end.
  { rewrite (forRange_collect _ _ _ (λ parentRef, [l4Reporter tRoute parentRef])); [|done].
    by rewrite list_bind_singleton. }
  { rewrite (forRange_snd _ _ _
       (λ parentRef, [RouteSetCondition (l4Reporter tRoute parentRef) acceptedTrue])); [|done].
    by rewrite list_bind_singleton. }
  rewrite Hv1, He1. clear Hv1 He1.
  rewrite bind_eq.
  match goal with |- context [forRange (l4_Backends tRoute) [] ?body] =>
    assert ((forRange (l4_Backends tRoute) [] body).1 = l4_Backends tRoute) as Hv2;
    [|assert ((forRange (l4_Backends tRoute) [] body).2
              = l4_Backends tRoute ≫= λ backend,
                  if backendUnusable backend
                  then (λ parentRef, BackendError (l4Reporter tRoute parentRef)
                                                  (backendErrorOf backend))
                         <$> l4_ParentRefs tRoute
                  else []) as He2]
  end.
  { rewrite (forRange_collect _ _ _ (λ backend, [backend])).
    - rewrite list_bind_singleton. by rewrite list_fmap_id.
    - intros acc b. rewrite bind_fst. done. }
  { apply forRange_snd. intros acc b. rewrite bind_snd. simpl.
    rewrite (right_id_L [] (++)).
    destruct (backendUnusable b); [|done].
    rewrite (forRange_snd _ _ _
       (λ r, [BackendError r (backendErrorOf b)])); [|done].
    by rewrite list_bind_singleton, <- list_fmap_compose. }
  rewrite Hv2, He2. clear Hv2 He2. unfold l4Events.
  destruct (l4_Backends tRoute) as [|b bs] eqn:Hb; simpl.
  - by rewrite !(right_id_L [] (++)).
  - by rewrite !(right_id_L [] (++)).
Qed.

Lemma MinFunc_snoc {E} (cmp : E → E → comparison) x0 xs x :
  MinFunc cmp x0 (xs ++ [x])
  = match cmp x (MinFunc cmp x0 xs) with Lt => x | _ => MinFunc cmp x0 xs end.
Proof. unfold MinFunc. by rewrite foldl_snoc. Qed.

(** [slices.MinFunc] by creation time: the first route none is older than. *)
Lemma MinFunc_creationTime r0 rest :
  let r := MinFunc compareCreationTimestamp r0 rest in
  ∃ pre post, r0 :: rest = pre ++ r :: post
    ∧ (∀ y, y ∈ pre → creationTime r < creationTime y)
    ∧ (∀ y, y ∈ post → creationTime r ≤ creationTime y).
Proof.
  induction rest as [|x rest IH] using rev_ind; simpl.
  { exists [], []. split_and!; [done|intros y Hy; by apply elem_of_nil in Hy..]. }
  destruct IH as (pre & post & Heq & Hpre & Hpost). rewrite MinFunc_snoc.
  assert (∀ a b, compareCreationTimestamp a b = (creationTime a ?= creationTime b)) as Hcmp
    by done.
  rewrite !Hcmp. clear Hcmp.
  destruct (Z.compare_spec (creationTime x)
              (creationTime (MinFunc compareCreationTimestamp r0 rest))) as [Hc|Hc|Hc].
  - exists pre, (post ++ [x]). split_and!; [|done|].
    + by rewrite app_comm_cons, Heq, <- (assoc_L (++)).
    + intros y [?|Hy]%elem_of_app; [by apply Hpost|].
      apply list_elem_of_singleton in Hy as ->. lia.
  - exists (r0 :: rest), []. split_and!; [done| |by intros y ?%elem_of_nil].
    intros y Hy. rewrite Heq in Hy.
    apply elem_of_app in Hy as [Hy|Hy]; [specialize (Hpre y Hy); lia|].
    apply elem_of_cons in Hy as [->|Hy]; [lia|]. specialize (Hpost y Hy). lia.
  - exists pre, (post ++ [x]). split_and!; [|done|].
    + by rewrite app_comm_cons, Heq, <- (assoc_L (++)).
    + intros y [?|Hy]%elem_of_app; [by apply Hpost|].
      apply list_elem_of_singleton in Hy as ->. lia.
Qed.

Lemma selectedRoute_min tc r :
  selectedRoute tc = Some r →
  r ∈ tp_routesWithHosts (tc_parents tc)
  ∧ ∀ y, y ∈ tp_routesWithHosts (tc_parents tc) → creationTime r ≤ creationTime y.
Proof.
  unfold selectedRoute. destruct (tp_routesWithHosts (tc_parents tc)) as [|r0 rest]; [done|].
  intros [= <-]. destruct (MinFunc_creationTime r0 rest) as (pre & post & -> & Hpre & Hpost).
  split.
  - apply elem_of_app. right. by apply elem_of_cons; left.
  - intros y [Hy|Hy]%elem_of_app; [specialize (Hpre y Hy); lia|].
    apply elem_of_cons in Hy as [->|Hy]; [lia|by apply Hpost].
Qed.

Lemma selectedRoute_is_Some tc :
  tp_routesWithHosts (tc_parents tc) ≠ [] → is_Some (selectedRoute tc).
Proof. unfold selectedRoute. by destruct (tp_routesWithHosts (tc_parents tc)). Qed.

(** The chain is translated from its selected route alone. *)
Lemma translateTcpFilterChain_selected tc parentName :
  translateTcpFilterChain tc parentName
  = match selectedRoute tc with
    | None => (None, [])
    | Some r =>
        match ri_Object r with
        | TcpRouteIR tRoute => translateL4Route parentName tRoute noMatch
        | TlsRouteIR tRoute => translateL4Route parentName tRoute (sniMatcher (tc_sniDomain tc))
        | HttpRouteIR _ => (None, [])
        end
    end.
Proof.
  unfold translateTcpFilterChain, selectedRoute.
  by destruct (tp_routesWithHosts (tc_parents tc)).
Qed.

Lemma selectedRoute_single tc r : selectedRoute (tcpChainWithRoutes tc [r]) = Some r.
Proof. done. Qed.

(** When one route is strictly the oldest, it is selected whatever the
    order of the bound routes. *)
Lemma selectedRoute_permutation tc routes' r :
  routes' ≡ₚ tp_routesWithHosts (tc_parents tc) →
  selectedRoute tc = Some r →
  (∀ y, y ∈ tp_routesWithHosts (tc_parents tc) → creationTime y ≤ creationTime r → y = r) →
  selectedRoute (tcpChainWithRoutes tc routes') = Some r.
Proof.
  intros Hperm Hsel Huniq.
  destruct (selectedRoute_min tc r Hsel) as [Hin Hmin].
  destruct (selectedRoute_is_Some (tcpChainWithRoutes tc routes')) as [r' Hsel'].
  { simpl. intros ->. apply Permutation_nil_l in Hperm. rewrite <- Hperm in Hin.
    by apply elem_of_nil in Hin. }
  destruct (selectedRoute_min _ r' Hsel') as [Hin' Hmin']. simpl in Hin', Hmin'.
  rewrite Hsel'. f_equal. apply Huniq.
  - by rewrite <- Hperm.
  - apply Hmin'. by rewrite Hperm.
Qed.

(** ** HTTPS chains and the per-port assembly *)

Section assembly.
Context `{Collaborators} `{MapRange}.

Lemma translateHttpsFilterChain_ok mfc parentName gatewayNamespace listenerReporter sslConfig :
  translateSslConfig gatewayNamespace (hs_tls mfc) = inl sslConfig →
  ∃ vhosts,
    translateHttpsFilterChain mfc parentName gatewayNamespace listenerReporter
    = (inl {| hfc_Common := {| FilterChainName := parentName;
                               Matcher := sniMatcher (hs_sniDomain mfc);
                               TLS := sslConfig |};
              hfc_AttachedPolicies := hs_attachedPolicies mfc;
              hfc_Vhosts := vhosts |},
       (buildRoutesPerHost ∅ (hs_routesWithHosts mfc)).2).
Proof.
  intros Hssl. unfold translateHttpsFilterChain. rewrite bind_eq.
  destruct (foldl _ _ _) as [names vhosts]. rewrite Hssl. simpl.
  exists (sortVhosts vhosts). by rewrite (right_id_L [] (++)).
Qed.

(** A TLS resolution error: no chain, and the two conditions on the
    reporter handed to [translateHttpsFilterChain]. *)
Lemma translateHttpsFilterChain_error mfc parentName gatewayNamespace listenerReporter err :
  translateSslConfig gatewayNamespace (hs_tls mfc) = inr err →
  translateHttpsFilterChain mfc parentName gatewayNamespace listenerReporter
  = (inr err,
     (buildRoutesPerHost ∅ (hs_routesWithHosts mfc)).2
     ++ [ListenerSetCondition listenerReporter
           {| lc_Type := ListenerConditionResolvedRefs; lc_Status := ConditionFalse;
              lc_Reason := tlsErrorReason err; lc_Message := tlsErrorMessage err |};
         ListenerSetCondition listenerReporter
           {| lc_Type := ListenerConditionProgrammed; lc_Status := ConditionFalse;
              lc_Reason := ListenerReasonInvalid; lc_Message := tlsErrorMessage err |}]).
Proof.
  intros Hssl. unfold translateHttpsFilterChain. rewrite bind_eq.
  destruct (foldl _ _ _) as [names vhosts]. by rewrite Hssl.
Qed.

Lemma httpsOutput_ok ml mfc sslConfig :
  translateSslConfig (ml_gatewayNamespace ml) (hs_tls mfc) = inl sslConfig →
  ∃ chain, httpsOutput ml mfc = Some chain
    ∧ FilterChainName (hfc_Common chain) = hs_gatewayListenerName mfc
    ∧ Matcher (hfc_Common chain) = sniMatcher (hs_sniDomain mfc)
    ∧ TLS (hfc_Common chain) = sslConfig
    ∧ hfc_AttachedPolicies chain = hs_attachedPolicies mfc.
Proof.
  intros Hssl. unfold httpsOutput.
  destruct (translateHttpsFilterChain_ok mfc (hs_gatewayListenerName mfc)
              (ml_gatewayNamespace ml) (ml_listenerReporter ml) sslConfig Hssl) as [vhosts ->].
  simpl. by eexists.
Qed.

Lemma httpsOutput_error ml mfc err :
  translateSslConfig (ml_gatewayNamespace ml) (hs_tls mfc) = inr err →
  httpsOutput ml mfc = None.
Proof.
  intros Hssl. unfold httpsOutput.
  by rewrite (translateHttpsFilterChain_error _ _ _ _ err Hssl).
Qed.

(** [httpFilterChains] of [TranslateListener]: the plaintext chain when
    there is one, then the HTTPS chains that translated, in order. *)
Lemma translateHttpChains_fst ml :
  (translateHttpChains ml).1
  = option_list ((λ fc, (translateHttpFilterChain fc (ml_name ml)).1) <$> ml_httpFilterChain ml)
    ++ omap (httpsOutput ml) (ml_httpsFilterChains ml).
Proof.
  unfold translateHttpChains. rewrite bind_fst.
  rewrite (forRange_collect _ _ _ (λ mfc, option_list (httpsOutput ml mfc))).
  - rewrite list_bind_option_list. f_equal.
    destruct (ml_httpFilterChain ml); simpl; [|done]. by rewrite bind_fst.
  - intros acc mfc. rewrite bind_fst. unfold httpsOutput.
    destruct (translateHttpsFilterChain _ _ _ _).1; simpl; [done|].
    by rewrite (right_id_L [] (++)).
Qed.

Lemma translateTcpChains_fst ml :
  (translateTcpChains ml).1 = omap (tcpOutput ml) (ml_TcpFilterChains ml).
Proof.
  unfold translateTcpChains.
  rewrite (forRange_collect _ _ _ (λ tfc, option_list (tcpOutput ml tfc))).
  - by rewrite list_bind_option_list.
  - intros acc tfc. rewrite bind_fst. unfold tcpOutput.
    destruct (translateTcpFilterChain _ _).1; simpl; [done|].
    by rewrite (right_id_L [] (++)).
Qed.

Lemma translateTcpChains_snd ml :
  (translateTcpChains ml).2
  = ml_TcpFilterChains ml ≫= λ tfc, (translateTcpFilterChain tfc (ml_name ml)).2.
Proof.
  unfold translateTcpChains. apply forRange_snd. intros acc tfc.
  rewrite bind_snd. destruct (translateTcpFilterChain _ _).1; simpl;
    by rewrite (right_id_L [] (++)).
Qed.

Lemma TranslateListener_fst ml :
  (TranslateListener ml).1
  = {| lir_Name := ml_name ml;
       lir_BindAddress := if ListenerBindIpv6 (ml_settings ml) then "::" else "0.0.0.0";
       lir_BindPort := uint32 (ml_port ml);
       lir_AttachedPolicies := noPolicies;
       lir_HttpFilterChain := (translateHttpChains ml).1;
       lir_TcpFilterChain := (translateTcpChains ml).1;
       lir_PolicyAncestorRef := l_PolicyAncestorRef (ml_listener ml) |}.
Proof.
  unfold TranslateListener, bind, ret.
  destruct (translateHttpChains ml) as [h e1], (translateTcpChains ml) as [t e2]; simpl.
  by destruct (reportAllTcpFailed ml t) as [[] e3].
Qed.

Lemma TranslateListener_snd ml :
  (TranslateListener ml).2
  = (translateHttpChains ml).2 ++ (translateTcpChains ml).2
    ++ (reportAllTcpFailed ml (translateTcpChains ml).1).2.
Proof.
  unfold TranslateListener, bind, ret.
  destruct (translateHttpChains ml) as [h e1], (translateTcpChains ml) as [t e2]; simpl.
  destruct (reportAllTcpFailed ml t) as [[] e3]; simpl.
  by rewrite (right_id_L [] (++)).
Qed.

Lemma translateListeners_fst ml :
  (translateListeners ml).1 = (λ m, (TranslateListener m).1) <$> Listeners ml.
Proof.
  unfold translateListeners.
  rewrite (forRange_collect _ _ _ (λ m, [(TranslateListener m).1])).
  - by rewrite list_bind_singleton.
  - intros acc m. by rewrite bind_fst.
Qed.

(** No event of a TCP/TLS chain translation is a listener condition. *)
Lemma translateTcpFilterChain_events tc parentName ev :
  ev ∈ (translateTcpFilterChain tc parentName).2 →
  ∀ r c, ev ≠ ListenerSetCondition r c.
Proof.
  rewrite translateTcpFilterChain_selected.
  assert (∀ tRoute matcher, ev ∈ (translateL4Route parentName tRoute matcher).2 →
            ∀ r c, ev ≠ ListenerSetCondition r c) as Hl4.
  { intros tRoute matcher.
    destruct (decide (length (l4_Rules tRoute) = 1%nat)) as [Hone|Hn].
    - rewrite translateL4Route_accepted by done. simpl. unfold l4Events.
      intros [Hin|Hin]%elem_of_app r c ->.
      + by apply list_elem_of_fmap in Hin as (? & ? & _).
      + apply list_elem_of_bind in Hin as (b & Hin & _).
        destruct (backendUnusable b); [|by apply elem_of_nil in Hin].
        by apply list_elem_of_fmap in Hin as (? & ? & _).
    - rewrite translateL4Route_rejected by done. by intros ?%elem_of_nil. }
  destruct (selectedRoute tc) as [r|]; [|by intros ?%elem_of_nil].
  destruct (ri_Object r); [by apply Hl4..|by intros ?%elem_of_nil].
Qed.

Lemma translateHttpChains_snd ml :
  (translateHttpChains ml).2
  = match ml_httpFilterChain ml with
    | Some fc => (translateHttpFilterChain fc (ml_name ml)).2
    | None => []
    end
    ++ (ml_httpsFilterChains ml ≫= λ mfc,
          (translateHttpsFilterChain mfc (hs_gatewayListenerName mfc)
             (ml_gatewayNamespace ml) (ml_listenerReporter ml)).2).
Proof.
  unfold translateHttpChains. rewrite bind_snd. f_equal.
  - destruct (ml_httpFilterChain ml); [|done]. rewrite bind_snd. simpl.
    by rewrite (right_id_L [] (++)).
  - apply forRange_snd. intros acc mfc. rewrite bind_snd.
    destruct (translateHttpsFilterChain _ _ _ _).1; simpl;
      by rewrite (right_id_L [] (++)).
Qed.

(** An HTTPS chain whose TLS resolution fails contributes no chain to the
    port, and its two conditions are set on the reporter of the merged
    listener. *)
Lemma https_failure_reported ml mfc err :
  mfc ∈ ml_httpsFilterChains ml →
  translateSslConfig (ml_gatewayNamespace ml) (hs_tls mfc) = inr err →
  httpsOutput ml mfc = None
  ∧ ListenerSetCondition (ml_listenerReporter ml)
      {| lc_Type := ListenerConditionResolvedRefs; lc_Status := ConditionFalse;
         lc_Reason := tlsErrorReason err; lc_Message := tlsErrorMessage err |}
    ∈ (TranslateListener ml).2
  ∧ ListenerSetCondition (ml_listenerReporter ml)
      {| lc_Type := ListenerConditionProgrammed; lc_Status := ConditionFalse;
         lc_Reason := ListenerReasonInvalid; lc_Message := tlsErrorMessage err |}
    ∈ (TranslateListener ml).2.
Proof.
  intros Hin Herr. split; [by eapply httpsOutput_error|].
  rewrite TranslateListener_snd, translateHttpChains_snd.
  split; apply elem_of_app; left; apply elem_of_app; right;
    apply list_elem_of_bind; exists mfc; (split; [|done]);
    rewrite (translateHttpsFilterChain_error _ _ _ _ err Herr); simpl;
    apply elem_of_app; right.
  - by apply elem_of_cons; left.
  - apply elem_of_cons; right. by apply elem_of_cons; left.
Qed.

End assembly.

(** ** The claims on TCP and TLS chains *)

(** C7. A TCP/TLS chain with no bound route produces nothing and reports
    nothing.  With routes bound, a route is selected; it is one of the bound
    routes and none of them was created earlier; the chain translates as if
    the selected route were the only one bound, so the others contribute
    nothing; and when no other bound route is as old as the selected one,
    every reordering of the bound routes selects the same route and
    translates to the same result. *)
Theorem C7_tcp_oldest_route_selected (tc : tcpFilterChain) (parentName : string) :
  match tp_routesWithHosts (tc_parents tc) with
  | [] => translateTcpFilterChain tc parentName = (None, [])
  | _ :: _ =>
      ∃ r, selectedRoute tc = Some r
        ∧ r ∈ tp_routesWithHosts (tc_parents tc)
        ∧ (∀ y, y ∈ tp_routesWithHosts (tc_parents tc) → creationTime r ≤ creationTime y)
        ∧ translateTcpFilterChain tc parentName
          = translateTcpFilterChain (tcpChainWithRoutes tc [r]) parentName
        ∧ ∀ routes',
            routes' ≡ₚ tp_routesWithHosts (tc_parents tc) →
            (∀ y, y ∈ tp_routesWithHosts (tc_parents tc) →
                  creationTime y ≤ creationTime r → y = r) →
            selectedRoute (tcpChainWithRoutes tc routes') = Some r
            ∧ translateTcpFilterChain (tcpChainWithRoutes tc routes') parentName
              = translateTcpFilterChain tc parentName
  end.
Proof.
  destruct (tp_routesWithHosts (tc_parents tc)) as [|r0 rest] eqn:Hroutes.
  { unfold translateTcpFilterChain. by rewrite Hroutes. }
  destruct (selectedRoute_is_Some tc) as [r Hsel]; [by rewrite Hroutes|].
  destruct (selectedRoute_min tc r Hsel) as [Hin Hmin]. rewrite Hroutes in Hin, Hmin.
  exists r. split_and!; [done..| |].
  - rewrite !translateTcpFilterChain_selected, Hsel, selectedRoute_single. done.
  - intros routes' Hperm Huniq. rewrite <- Hroutes in Hperm, Huniq.
    pose proof (selectedRoute_permutation tc routes' r Hperm Hsel Huniq) as Hsel'.
    split; [done|].
    by rewrite !translateTcpFilterChain_selected, Hsel, Hsel'.
Qed.

(** C9. For a chain whose selected route is a TCPRoute or TLSRoute with
    exactly one rule: no TcpIR is produced exactly when the route declares
    no backend; a TcpIR that is produced lists every declared backend, in
    order, usable or not; and for every backend that carries an error or
    has no backend object, the backend error is reported on the reporter
    of every parent ref of the route. *)
Theorem C9_tcp_backends_all_included (tc : tcpFilterChain) (parentName : string)
    (r : RouteInfo) (tRoute : L4RouteIR) :
  selectedRoute tc = Some r →
  ri_Object r = TcpRouteIR tRoute ∨ ri_Object r = TlsRouteIR tRoute →
  length (l4_Rules tRoute) = 1%nat →
  let result := translateTcpFilterChain tc parentName in
  (result.1 = None ↔ l4_Backends tRoute = [])
  ∧ (∀ tcpIR, result.1 = Some tcpIR → tcp_BackendRefs tcpIR = l4_Backends tRoute)
  ∧ (∀ backend parentRef,
       backend ∈ l4_Backends tRoute → parentRef ∈ l4_ParentRefs tRoute →
       be_Err backend ≠ None ∨ be_BackendObject backend = None →
       BackendError (l4Reporter tRoute parentRef) (backendErrorOf backend) ∈ result.2)
  ∧ result.2 = l4Events tRoute.
Proof.
  intros Hsel Hobj Hone result.
  assert (∃ matcher, result = translateL4Route parentName tRoute matcher) as [matcher ->].
  { unfold result. rewrite translateTcpFilterChain_selected, Hsel.
    destruct Hobj as [-> | ->]; by eexists. }
  rewrite translateL4Route_accepted by done. simpl. split_and!.
  - by destruct (l4_Backends tRoute).
  - intros tcpIR. destruct (l4_Backends tRoute); [done|]. by intros [= <-].
  - intros backend parentRef Hb Hp Hbad. unfold l4Events.
    apply elem_of_app. right. apply list_elem_of_bind. exists backend. split; [|done].
    assert (backendUnusable backend = true) as ->.
    { unfold backendUnusable. apply orb_true_iff.
      destruct Hbad as [Herr|Hobj'].
      - left. apply bool_decide_eq_true. by destruct (be_Err backend).
      - right. by apply bool_decide_eq_true. }
    apply list_elem_of_fmap. by exists parentRef.
  - done.
Qed.

(** ** The claims on the per-port assembly *)

Section assembly_claims.
Context `{Collaborators} `{MapRange}.

(** C6. The events of [TranslateListener] are those of the HTTP and HTTPS
    chains, then those of the TCP/TLS chains, then the roll-up; translating
    the TCP/TLS chains sets no listener condition.  When the port has at
    least one TCP/TLS chain and none of them produces a TcpIR, the roll-up
    sets Programmed=False with reason Invalid and the message "TCP/TLS
    listener has no valid backends or routes" on the reporter of every one
    of those chains, in order; when some chain produces a TcpIR, or the port
    has no such chain, the roll-up sets nothing. *)
Theorem C6_all_tcp_failed_escalation (ml : MergedListener) :
  let chains := ml_TcpFilterChains ml in
  let rollup := (reportAllTcpFailed ml (translateTcpChains ml).1).2 in
  (TranslateListener ml).2
  = (translateHttpChains ml).2 ++ (translateTcpChains ml).2 ++ rollup
  ∧ (∀ ev, ev ∈ (translateTcpChains ml).2 → ∀ r c, ev ≠ ListenerSetCondition r c)
  ∧ (chains ≠ [] → Forall (λ tfc, tcpOutput ml tfc = None) chains →
       rollup = (λ tfc, ListenerSetCondition (tc_listenerReporter tfc)
                   {| lc_Type := ListenerConditionProgrammed;
                      lc_Status := ConditionFalse;
                      lc_Reason := ListenerReasonInvalid;
                      lc_Message := "TCP/TLS listener has no valid backends or routes" |})
                <$> chains)
  ∧ (Exists (λ tfc, is_Some (tcpOutput ml tfc)) chains → rollup = [])
  ∧ (chains = [] → rollup = []).
Proof.
  intros chains rollup. split_and!.
  - apply TranslateListener_snd.
  - intros ev Hev. rewrite translateTcpChains_snd in Hev.
    apply list_elem_of_bind in Hev as (tfc & Hev & _).
    by eapply translateTcpFilterChain_events.
  - intros Hne Hall. unfold rollup, reportAllTcpFailed. rewrite translateTcpChains_fst.
    fold chains. assert (omap (tcpOutput ml) chains = []) as ->.
    { clear Hne. induction Hall as [|tfc l Hx _ IH]; simpl; [done|]. by rewrite Hx. }
    assert ((0 <? length chains)%nat && (length (@nil TcpIR) =? 0)%nat = true) as ->
      by (by destruct chains).
    rewrite (forRange_snd _ _ _
      (λ tfc, [ListenerSetCondition (tc_listenerReporter tfc) noBackendsCondition])); [|done].
    by rewrite list_bind_singleton.
  - intros Hex. unfold rollup, reportAllTcpFailed. rewrite translateTcpChains_fst.
    fold chains. assert (omap (tcpOutput ml) chains ≠ []) as Hne.
    { induction Hex as [tfc l [x Hx]|tfc l _ IH]; simpl.
      - by rewrite Hx.
      - by destruct (tcpOutput ml tfc). }
    destruct (omap (tcpOutput ml) chains); [done|]. simpl.
    by rewrite andb_false_r.
  - intros Hnil. unfold rollup, reportAllTcpFailed. fold chains. by rewrite Hnil.
Qed.

End assembly_claims.

(** ** The claims on merging *)

Section merge_claims.
Context `{Collaborators} `{MapRange}.
Context (ns : string) (gw : Gateway) (rfg : RoutesForGwResult) (st : ListenerTranslatorConfig).

Lemma merged_on_port listeners p :
  listenersOnPort p listeners ≠ [] →
  ∃ first rest,
    listenersOnPort p listeners = first :: rest
    ∧ onPort p (Listeners (mergeGWListeners ns listeners gw rfg st))
      = [mergedOf ns gw rfg st p first (first :: rest)].
Proof.
  intros Hne. rewrite mergeGWListeners_onPort. unfold mergedOnPort.
  destruct (listenersOnPort p listeners) as [|first rest]; [done|]. by exists first, rest.
Qed.

Lemma merged_listener_closed_form listeners m :
  m ∈ Listeners (mergeGWListeners ns listeners gw rfg st) →
  ∃ first rest,
    listenersOnPort (ml_port m) listeners = first :: rest
    ∧ m = mergedOf ns gw rfg st (ml_port m) first (first :: rest).
Proof.
  intros Hm.
  assert (m ∈ onPort (ml_port m) (Listeners (mergeGWListeners ns listeners gw rfg st))) as Hin.
  { by apply list_elem_of_filter. }
  rewrite mergeGWListeners_onPort in Hin. unfold mergedOnPort in Hin.
  destruct (listenersOnPort (ml_port m) listeners) as [|first rest]; simpl in Hin.
  - by apply elem_of_nil in Hin.
  - apply list_elem_of_singleton in Hin. by exists first, rest.
Qed.

Lemma listenersOnPort_head listeners p first rest :
  listenersOnPort p listeners = first :: rest → l_Port first = p.
Proof.
  intros E. assert (first ∈ listenersOnPort p listeners) as Hin
    by (rewrite E; by apply elem_of_cons; left).
  by apply list_elem_of_filter in Hin as [[? _] _].
Qed.

Lemma merged_listener_fields listeners m :
  m ∈ Listeners (mergeGWListeners ns listeners gw rfg st) →
  ml_name m = "listener~" +:+ pretty (ml_port m)
  ∧ ml_gatewayNamespace m = ns
  ∧ ml_settings m = st.
Proof.
  intros (first & rest & E & Hm)%merged_listener_closed_form.
  rewrite Hm at 1 3 4. simpl. split_and!; [|done..].
  unfold GenerateListenerName, GenerateListenerNameFromPort.
  by rewrite (listenersOnPort_head _ _ _ _ E).
Qed.

(** The reporter of a merged listener is the reporter of the first
    listener of its port, whatever the listeners merged into it later. *)
Lemma merged_listener_reporter listeners m :
  m ∈ Listeners (mergeGWListeners ns listeners gw rfg st) →
  ∃ first rest,
    listenersOnPort (ml_port m) listeners = first :: rest
    ∧ ml_listenerReporter m = listenerReporterOf first.
Proof.
  intros (first & rest & E & Hm)%merged_listener_closed_form.
  exists first, rest. split; [done|]. by rewrite Hm.
Qed.

(** C2. Among the listeners given to [mergeGWListeners], take the HTTPS
    listeners of one port, in order, and suppose there is at least one.
    The port has exactly one merged listener; its [httpsFilterChains] holds
    one chain per HTTPS listener, in order, built from that listener alone.
    When TLS resolution succeeds for every one of them, the HttpFilterChain
    list of the translated port is the plaintext chain, if any, followed
    by one chain per HTTPS listener, in order, each named after its
    listener and matching on the single SNI domain its listener declares,
    or on none when it declares no hostname. *)
Theorem C2_https_listeners_keep_separate_chains (listeners : list Listener) (p : PortNumber) :
  let merged := mergeGWListeners ns listeners gw rfg st in
  let secure := withProtocol HTTPSProtocolType (listenersOnPort p listeners) in
  secure ≠ [] →
  ∃ lis,
    onPort p (Listeners merged) = [lis]
    ∧ ml_httpsFilterChains lis = httpsChainFor rfg <$> secure
    ∧ length (ml_httpsFilterChains lis) = length secure
    ∧ (Forall (λ l, ∃ sslConfig,
                 translateSslConfig ns (hs_tls (httpsChainFor rfg l)) = inl sslConfig) secure →
       ∃ httpsChains,
         lir_HttpFilterChain (TranslateListener lis).1
         = option_list ((λ fc, (translateHttpFilterChain fc (ml_name lis)).1)
                          <$> ml_httpFilterChain lis)
           ++ httpsChains
         ∧ Forall2 (λ l chain,
                      FilterChainName (hfc_Common chain)
                      = GenerateRouteKey (l_Parent l) (l_Name l)
                      ∧ SniDomains (Matcher (hfc_Common chain))
                        = match l_Hostname l with Some h => [h] | None => [] end)
                   secure httpsChains).
Proof.
  intros merged secure Hne.
  destruct (merged_on_port listeners p) as (first & rest & E & Hon).
  { intros Hnil. apply Hne. unfold secure. by rewrite Hnil. }
  eexists. split; [exact Hon|]. unfold secure. rewrite E.
  set (lis := mergedOf ns gw rfg st p first (first :: rest)).
  split_and!; [done|by unfold lis; cbn [ml_httpsFilterChains mergedOf]; rewrite length_fmap|].
  intros Hall. exists (omap (httpsOutput lis) (ml_httpsFilterChains lis)). split.
  - by rewrite TranslateListener_fst, translateHttpChains_fst.
  - simpl. induction Hall as [|l ls [sslConfig Hssl] _ IH]; simpl; [constructor|].
    destruct (httpsOutput_ok lis (httpsChainFor rfg l) sslConfig Hssl)
      as (chain & -> & Hname & Hm & _).
    constructor; [|done]. rewrite Hname, Hm. split; [done|].
    simpl. by destruct (l_Hostname l).
Qed.

End merge_claims.

(** C10. [TranslateListeners] returns exactly one ListenerIR per merged
    listener, in order, whatever happens to its chains.  The ListenerIR of
    a merged listener is named "listener~<port>", binds the port and binds
    "::" when ListenerBindIpv6 is set and "0.0.0.0" otherwise; when the
    merged listener has no plaintext chain, TLS resolution fails for each
    of its HTTPS chains and none of its TCP/TLS chains produces a TcpIR,
    that ListenerIR is still there, with empty HttpFilterChain and
    TcpFilterChain lists. *)
Theorem C10_one_listenerIR_per_merged_port `{Collaborators} `{MapRange}
    (gateway : Gateway) (rfg : RoutesForGwResult) (st : ListenerTranslatorConfig) :
  let merged := mergeGWListeners (gw_Namespace gateway) (validateGateway gateway).1
                  gateway rfg st in
  (TranslateListeners gateway rfg st).1
  = (λ m, (TranslateListener m).1) <$> Listeners merged
  ∧ length (TranslateListeners gateway rfg st).1 = length (Listeners merged)
  ∧ ∀ m, m ∈ Listeners merged →
      let out := (TranslateListener m).1 in
      lir_Name out = "listener~" +:+ pretty (ml_port m)
      ∧ lir_BindPort out = uint32 (ml_port m)
      ∧ lir_BindAddress out = (if ListenerBindIpv6 st then "::" else "0.0.0.0")
      ∧ (ml_httpFilterChain m = None →
         Forall (λ mfc, ∃ err, translateSslConfig (gw_Namespace gateway) (hs_tls mfc) = inr err)
                (ml_httpsFilterChains m) →
         Forall (λ tfc, tcpOutput m tfc = None) (ml_TcpFilterChains m) →
         lir_HttpFilterChain out = [] ∧ lir_TcpFilterChain out = []).
Proof.
  intros merged.
  assert ((TranslateListeners gateway rfg st).1
          = (λ m, (TranslateListener m).1) <$> Listeners merged) as Hout.
  { unfold TranslateListeners, bind. destruct (validateGateway gateway) as [vs evs] eqn:E.
    pose proof (translateListeners_fst
                  (mergeGWListeners (gw_Namespace gateway) vs gateway rfg st)) as Hfst.
    unfold merged. simpl.
    by destruct (translateListeners _). }
  split_and!; [done|by rewrite Hout, length_fmap|].
  intros m Hm out. unfold out. rewrite TranslateListener_fst. simpl.
  destruct (merged_listener_fields (gw_Namespace gateway) gateway rfg st _ m Hm)
    as (Hname & Hns & Hst).
  split_and!; [done|done|by rewrite Hst|].
  intros Hhttp Hhttps Htcp.
  rewrite translateHttpChains_fst, translateTcpChains_fst, Hhttp. simpl. split.
  - induction Hhttps as [|mfc l [err Herr] _ IH]; simpl; [done|].
    rewrite <- Hns in Herr. by rewrite (httpsOutput_error m mfc err Herr).
  - induction Htcp as [|tfc l Hx _ IH]; simpl; [done|]. by rewrite Hx.
Qed.

(** ** The claims on the plaintext chain *)

Section http_claims.
Context `{Collaborators} `{MapRange}.

(** When no two host buckets share a sanitised name, every bucket gets its
    virtual host. *)
Lemma http_vhosts_count fc parentName :
  (∀ h1 h2, h1 ∈ dom (httpRoutesByHost fc) → h2 ∈ dom (httpRoutesByHost fc) →
            makeVhostName parentName h1 = makeVhostName parentName h2 → h1 = h2) →
  hfc_Vhosts (translateHttpFilterChain fc parentName).1
  = sortVhosts ((λ e, httpVhostOf parentName (hc_parents fc) e.1 e.2)
                  <$> rangeOrder (map_to_list (httpRoutesByHost fc)))
  ∧ length (hfc_Vhosts (translateHttpFilterChain fc parentName).1)
    = size (httpRoutesByHost fc).
Proof.
  intros Hinj. rewrite translateHttpFilterChain_vhosts.
  rewrite (dedupe_fold_distinct (makeVhostName parentName)
             (httpVhostOf parentName (hc_parents fc))
             (httpVhostStep parentName (hc_parents fc))
             (λ _ _ _ _, eq_refl) (λ _ _, eq_refl)).
  - simpl. split; [done|].
    rewrite (Permutation_length (sortVhosts_perm _)), length_fmap.
    by rewrite (Permutation_length (rangeOrder_perm _)), length_map_to_list.
  - intros n. simpl. rewrite lookup_empty. simpl. split; [done|]. by intros ?%elem_of_nil.
  - apply NoDup_fmap_2_strong.
    + intros [h1 r1] [h2 r2] H1 H2 Hn. simpl in Hn.
      apply elem_of_rangeOrder in H1, H2.
      assert (h1 = h2) as ->.
      { apply Hinj; [by apply elem_of_dom; eexists..|done]. }
      congruence.
    + rewrite rangeOrder_perm. apply NoDup_map_to_list.
  - intros e _. simpl. by intros ?%elem_of_nil.
Qed.

Section merged.
Context (ns : string) (gw : Gateway) (rfg : RoutesForGwResult) (st : ListenerTranslatorConfig).

(** C1. Among the listeners given to [mergeGWListeners], take the
    plaintext HTTP listeners of one port, in order, and suppose there is at
    least one.  The port has exactly one merged listener, and it holds one
    [httpFilterChain] whose parents are those listeners, one parent each,
    in order.  The HttpFilterChain list of the translated port starts with
    the translation of that one chain, and only HTTPS chains follow.  The
    virtual hosts of the chain are sorted by strictly ascending name, so no
    name occurs twice; their names are exactly the sanitised names of the
    host buckets; each virtual host is built from one bucket; when no two
    buckets share a sanitised name there are as many virtual hosts as
    buckets; and the buckets are the hostnames (["*"] for a route that
    declares none) of the routes of those parents for which the route
    translator produced a rule. *)
Theorem C1_http_listeners_share_one_chain (listeners : list Listener) (p : PortNumber) :
  let merged := mergeGWListeners ns listeners gw rfg st in
  let plain := withProtocol HTTPProtocolType (listenersOnPort p listeners) in
  plain ≠ [] →
  ∃ lis fc,
    onPort p (Listeners merged) = [lis]
    ∧ ml_httpFilterChain lis = Some fc
    ∧ hc_parents fc = httpParentFor rfg <$> plain
    ∧ let chain := (translateHttpFilterChain fc (ml_name lis)).1 in
      let buckets := httpRoutesByHost fc in
      lir_HttpFilterChain (TranslateListener lis).1
      = chain :: omap (httpsOutput lis) (ml_httpsFilterChains lis)
      ∧ StronglySorted (λ a b, String.ltb (vh_Name a) (vh_Name b) = true) (hfc_Vhosts chain)
      ∧ NoDup (vh_Name <$> hfc_Vhosts chain)
      ∧ (∀ n, n ∈ vh_Name <$> hfc_Vhosts chain
              ↔ ∃ host, host ∈ dom buckets ∧ n = makeVhostName (ml_name lis) host)
      ∧ (∀ v, v ∈ hfc_Vhosts chain →
              vh_Hostname v ∈ dom buckets
              ∧ vh_Name v = makeVhostName (ml_name lis) (vh_Hostname v))
      ∧ ((∀ h1 h2, h1 ∈ dom buckets → h2 ∈ dom buckets →
                   makeVhostName (ml_name lis) h1 = makeVhostName (ml_name lis) h2 → h1 = h2) →
         length (hfc_Vhosts chain) = size buckets)
      ∧ (∀ host, host ∈ dom buckets
                 ↔ ∃ parent ri, parent ∈ hc_parents fc ∧ ri ∈ hp_routesWithHosts parent
                     ∧ (TranslateGatewayHTTPRouteRules ri (routeParentRefReporter ri)).1 ≠ []
                     ∧ host ∈ effectiveHostnames ri).
Proof.
  intros merged plain Hne.
  destruct (merged_on_port ns gw rfg st listeners p) as (first & rest & E & Hon).
  { intros Hnil. apply Hne. unfold plain. by rewrite Hnil. }
  unfold plain in *. rewrite E in *.
  set (lis := mergedOf ns gw rfg st p first (first :: rest)) in *.
  exists lis, {| hc_parents := httpParentFor rfg <$> withProtocol HTTPProtocolType (first :: rest) |}.
  set (fc := {| hc_parents := _ |}).
  assert (ml_httpFilterChain lis = Some fc) as Hfc.
  { unfold lis, mergedOf. cbn [ml_httpFilterChain].
    by destruct (withProtocol HTTPProtocolType (first :: rest)). }
  split; [exact Hon|]. split; [exact Hfc|]. split; [done|]. cbv zeta.
  destruct (http_vhosts_spec fc (ml_name lis)) as (Hsorted & Hnd & Hfrom & Hall).
  split_and!; [|done|done| | | |apply httpRoutesByHost_dom].
  - by rewrite TranslateListener_fst, translateHttpChains_fst, Hfc.
  - intros n. split.
    + intros (v & -> & Hv)%list_elem_of_fmap.
      destruct (Hfrom v Hv) as (routes & Hr & Hveq). exists (vh_Hostname v).
      split; [by apply elem_of_dom; eexists|]. by rewrite Hveq at 1.
    + intros (host & Hhost & ->). by apply Hall.
  - intros v Hv. destruct (Hfrom v Hv) as (routes & Hr & Hveq).
    split; [by apply elem_of_dom; eexists|]. by rewrite Hveq at 1.
  - intros Hinj. by apply http_vhosts_count.
Qed.

End merged.

(** C4. A listener hostname contains a host when it is absent, when the
    two are equal, or when it is "*." followed by a suffix and the host
    ends in "." followed by that suffix; the length a listener competes
    with is the length of its hostname, 0 when it has none.  Every virtual
    host of the translated chain carries the attached policies and the
    listener of the best match for its hostname among the parents: a
    parent whose hostname contains it, with every matching parent before it
    strictly shorter and no matching parent after it longer; when no parent
    matches, it carries no policies and the zero listener.  For host
    "api.example.com" and the listener hostnames "*.example.com" and
    "api.example.com", in either order, the parent chosen is the one with
    the exact hostname. *)
Theorem C4_vhost_adopts_best_matching_parent (fc : httpFilterChain) (parentName : string) :
  (∀ host maybeLhost,
     isHostContained host maybeLhost = true
     ↔ match maybeLhost with
       | None => True
       | Some listenerHostname =>
           host = listenerHostname
           ∨ ∃ suffix pre, listenerHostname = "*." +:+ suffix
                           ∧ host = pre +:+ "." +:+ suffix
       end)
  ∧ (∀ p, hostnameLenOf p
          = match l_Hostname (hp_gatewayListener p) with
            | Some h => Z.of_nat (String.length h)
            | None => 0
            end)
  ∧ (∀ v, v ∈ hfc_Vhosts (translateHttpFilterChain fc parentName).1 →
       (∃ p, bestMatch (vh_Hostname v) (hc_parents fc) p
             ∧ vh_AttachedPolicies v = hp_attachedPolicies p
             ∧ vh_ParentRef v = hp_gatewayListener p)
       ∨ (Forall (λ q, isHostContained (vh_Hostname v)
                         (l_Hostname (hp_gatewayListener q)) = false) (hc_parents fc)
          ∧ vh_AttachedPolicies v = noPolicies
          ∧ vh_ParentRef v = zeroListener))
  ∧ (∀ wild exact,
       l_Hostname (hp_gatewayListener wild) = Some "*.example.com" →
       l_Hostname (hp_gatewayListener exact) = Some "api.example.com" →
       ∀ parents, parents = [wild; exact] ∨ parents = [exact; wild] →
       pc_attachedPolicies (selectParent "api.example.com" parents) = hp_attachedPolicies exact
       ∧ pc_listenerRef (selectParent "api.example.com" parents) = hp_gatewayListener exact).
Proof.
  split_and!.
  - apply isHostContained_spec.
  - done.
  - intros v Hv. destruct (http_vhosts_spec fc parentName) as (_ & _ & Hfrom & _).
    destruct (Hfrom v Hv) as (routes & _ & Hveq).
    destruct (selectParent_spec (vh_Hostname v) (hc_parents fc))
      as [[Hnone Hsel]|(p & Hbest & Hsel)].
    + right. split; [done|]. rewrite Hveq. simpl. by rewrite Hsel.
    + left. exists p. split; [done|]. rewrite Hveq. simpl. by rewrite Hsel.
  - intros wild exact Hw He parents [-> | ->];
      unfold selectParent; simpl; unfold selectParentStep, hostnameLenOf;
      rewrite ?Hw, ?He; by vm_compute.
Qed.

End http_claims.

(** ** Iteration order and the plaintext chain *)

Lemma translateHttpFilterChain_eq `{Collaborators} `{MapRange} fc parentName :
  translateHttpFilterChain fc parentName
  = ({| hfc_Common := {| FilterChainName := parentName; Matcher := noMatch; TLS := None |};
        hfc_AttachedPolicies := noPolicies;
        hfc_Vhosts := hfc_Vhosts (translateHttpFilterChain fc parentName).1 |},
     (forRange (hc_parents fc) (∅ : gmap string SortableRoutes)
        (λ routesByHost parent,
           buildRoutesPerHost routesByHost (hp_routesWithHosts parent))).2).
Proof.
  unfold translateHttpFilterChain. rewrite bind_eq.
  destruct (foldl _ _ _) as [names vhosts]. simpl. by rewrite (right_id_L [] (++)).
Qed.

(** When no two host buckets of a plaintext chain share a sanitised name,
    its translation is the same under every iteration order of the
    bucket map. *)
Lemma translateHttpFilterChain_order_irrelevant `{Collaborators} (R1 R2 : MapRange)
    fc parentName :
  (∀ h1 h2, h1 ∈ dom (httpRoutesByHost fc) → h2 ∈ dom (httpRoutesByHost fc) →
            makeVhostName parentName h1 = makeVhostName parentName h2 → h1 = h2) →
  @translateHttpFilterChain _ R1 fc parentName = @translateHttpFilterChain _ R2 fc parentName.
Proof.
  intros Hinj.
  rewrite (@translateHttpFilterChain_eq _ R1), (@translateHttpFilterChain_eq _ R2).
  do 2 f_equal.
  destruct (@http_vhosts_count _ R1 fc parentName Hinj) as [-> _].
  destruct (@http_vhosts_count _ R2 fc parentName Hinj) as [-> _].
  apply sortVhosts_order_irrelevant.
  - by rewrite !rangeOrder_perm.
  - rewrite <- list_fmap_compose. apply NoDup_fmap_2_strong.
    + intros [h1 r1] [h2 r2] H1 H2 Hn. simpl in Hn.
      apply (@elem_of_rangeOrder R1) in H1, H2.
      assert (h1 = h2) as ->.
      { apply Hinj; [by apply elem_of_dom; eexists..|done]. }
      congruence.
    + rewrite rangeOrder_perm. apply NoDup_map_to_list.
Qed.

(** ** Where the code departs from the specification *)

(** The reason and message of a TLS resolution error. *)
Lemma tlsError_mapping err :
  (tlsErrorReason err
   = if err_isMissingReferenceGrant err then ListenerReasonRefNotPermitted
     else ListenerReasonInvalidCertificateRef)
  ∧ (∀ notFoundObj, err_asNotFound err = Some notFoundObj →
       tlsErrorMessage err
       = "Secret " +:+ os_Namespace notFoundObj +:+ "/" +:+ os_Name notFoundObj
         +:+ " not found.")
  ∧ (err_asNotFound err = None → err_isInvalidTlsSecret err = true →
       tlsErrorMessage err = err_Error err)
  ∧ (err_asNotFound err = None → err_isInvalidTlsSecret err = false →
       tlsErrorMessage err
       = if err_isMissingReferenceGrant err
         then "Reference not permitted by ReferenceGrant."
         else "Invalid certificate ref.").
Proof.
  unfold tlsErrorReason, tlsErrorMessage. split_and!.
  - done.
  - by intros o ->.
  - by intros -> ->.
  - by intros -> ->.
Qed.

(** More than one certificate ref is a resolution error. *)
Lemma translateSslConfig_multiple_refs `{Collaborators} namespace tls ref1 ref2 refs :
  tls_Mode tls = Some TLSModeTerminate →
  tls_CertificateRefs tls = ref1 :: ref2 :: refs →
  translateSslConfig namespace (Some tls)
  = inr (errors_New "only one certificate ref is supported for now").
Proof. intros Hm Hr. unfold translateSslConfig. by rewrite Hm, Hr. Qed.

(** C3 (defect). Two routes of one plaintext listener declare the
    hostnames "api.example.com" and "api_example.com", which sanitise to
    the same virtual-host name.  Visiting the host buckets in one order
    keeps the virtual host of the first hostname, visiting them in the
    reverse order keeps that of the second: the two runs of
    [TranslateListeners] on the same input return different ListenerIR
    lists. *)
Theorem C3_vhost_kept_depends_on_map_order :
  emittedVhosts (@TranslateListeners exampleCollaborators rangeForward
                   collidingGateway collidingRoutes exampleSettings).1
  = [("listener~80~api_example_com", "api_example.com")]
  ∧ emittedVhosts (@TranslateListeners exampleCollaborators rangeBackward
                     collidingGateway collidingRoutes exampleSettings).1
    = [("listener~80~api_example_com", "api.example.com")]
  ∧ (@TranslateListeners exampleCollaborators rangeForward
       collidingGateway collidingRoutes exampleSettings).1
    ≠ (@TranslateListeners exampleCollaborators rangeBackward
         collidingGateway collidingRoutes exampleSettings).1.
Proof.
  split_and!; [by vm_compute..|].
  intros Heq. apply (f_equal emittedVhosts) in Heq. vm_compute in Heq. discriminate Heq.
Qed.

(** C5 (defect). Port 443 carries the HTTPS listeners "shop", whose
    certificate resolves, and "broken", whose secret does not exist.  The
    chain of "broken" is left out and the chain of "shop" is translated,
    but the ResolvedRefs=False and Programmed=False conditions of the
    failure are set on the reporter of "shop", the listener that created
    the merged port, and nothing is set on the reporter of "broken". *)
Theorem C5_tls_failure_reported_on_port_creator :
  @TranslateListeners exampleCollaborators rangeForward
    halfBrokenGateway noRoutes exampleSettings
  = ([{| lir_Name := "listener~443";
         lir_BindAddress := "0.0.0.0";
         lir_BindPort := 443;
         lir_AttachedPolicies := [];
         lir_HttpFilterChain :=
           [{| hfc_Common :=
                 {| FilterChainName := "gw/shop";
                    Matcher := {| SniDomains := ["shop.example.com"] |};
                    TLS := Some {| PrivateKey := "KEY"; CertChain := "CERT"; CA := "" |} |};
               hfc_AttachedPolicies := [];
               hfc_Vhosts := [] |}];
         lir_TcpFilterChain := [];
         lir_PolicyAncestorRef := None |}],
      [ListenerSetCondition {| lr_Parent := "gw"; lr_ListenerName := "shop" |}
         {| lc_Type := ListenerConditionResolvedRefs;
            lc_Status := ConditionFalse;
            lc_Reason := ListenerReasonInvalidCertificateRef;
            lc_Message := "Secret default/missing not found." |};
       ListenerSetCondition {| lr_Parent := "gw"; lr_ListenerName := "shop" |}
         {| lc_Type := ListenerConditionProgrammed;
            lc_Status := ConditionFalse;
            lc_Reason := ListenerReasonInvalid;
            lc_Message := "Secret default/missing not found." |}]).
Proof. by vm_compute. Qed.

(** C8 (defect). A TCP chain whose selected route declares two rules
    returns no TcpIR and reports nothing: the Accepted=False condition is
    built, and the function returns before setting it on any parent ref. *)
Theorem C8_rejected_route_sets_no_condition :
  selectedRoute twoRuleTcpChain
  = Some {| ri_Object := TcpRouteIR twoRuleL4Route; ri_ParentRef := exampleParentRef;
            ri_Hostnames := [] |}
  ∧ length (l4_Rules twoRuleL4Route) = 2%nat
  ∧ acceptedCondition twoRuleL4Route = acceptedFalse
  ∧ translateTcpFilterChain twoRuleTcpChain "listener~9000" = (None, []).
Proof. split_and!; by vm_compute. Qed.

(** ** The claims on the examples *)

Section examples.
Existing Instance exampleCollaborators.
Existing Instance rangeForward.

(** The two plaintext listeners of [webGateway] share port 80: one merged
    listener and one chain with both parents, the only chain of the
    translated port; its virtual-host names are pairwise distinct. *)
Lemma C1_web_gateway :
  withProtocol HTTPProtocolType (listenersOnPort 80 webListeners) ≠ []
  ∧ ∃ lis fc,
      onPort 80 (Listeners (@mergeGWListeners exampleCollaborators "default" webListeners
                              webGateway webRoutes exampleSettings)) = [lis]
      ∧ ml_httpFilterChain lis = Some fc
      ∧ hc_parents fc = hc_parents webChain
      ∧ lir_HttpFilterChain (@TranslateListener exampleCollaborators rangeForward lis).1
        = [(@translateHttpFilterChain exampleCollaborators rangeForward fc (ml_name lis)).1]
      ∧ NoDup (vh_Name <$> hfc_Vhosts
                 (@translateHttpFilterChain exampleCollaborators rangeForward fc (ml_name lis)).1).
Proof.
  assert (withProtocol HTTPProtocolType (listenersOnPort 80 webListeners) ≠ []) as Hne
    by (vm_compute; discriminate).
  split; [exact Hne|].
  destruct (@C1_http_listeners_share_one_chain exampleCollaborators rangeForward
              "default" webGateway webRoutes exampleSettings webListeners 80 Hne)
    as (lis & fc & Hon & Hfc & Hparents & Hchains & _ & Hnd & _).
  exists lis, fc. split; [exact Hon|]. split; [exact Hfc|].
  split; [rewrite Hparents; vm_compute; reflexivity|].
  split; [|exact Hnd].
  rewrite Hchains. f_equal.
  assert (ml_httpsFilterChains lis = []) as ->; [|reflexivity].
  assert (lis ∈ [lis]) as Hin by (apply elem_of_cons; left; reflexivity).
  rewrite <- Hon in Hin. vm_compute in Hin.
  apply elem_of_cons in Hin as [->|Hin]; [reflexivity|].
  apply elem_of_nil in Hin; destruct Hin.
Defined.

(** The two HTTPS listeners of [secureGateway] keep their own chains. *)
Lemma C2_secure_gateway :
  withProtocol HTTPSProtocolType (listenersOnPort 443 secureListeners) ≠ []
  ∧ ∃ lis,
      onPort 443 (Listeners (@mergeGWListeners exampleCollaborators "default" secureListeners
                               secureGateway noRoutes exampleSettings)) = [lis]
      ∧ length (ml_httpsFilterChains lis) = 2%nat
      ∧ (SniDomains ∘ Matcher ∘ hfc_Common)
          <$> lir_HttpFilterChain (@TranslateListener exampleCollaborators rangeForward lis).1
        = [["shop.example.com"]; []].
Proof.
  assert (withProtocol HTTPSProtocolType (listenersOnPort 443 secureListeners) ≠ []) as Hne
    by (vm_compute; discriminate).
  split; [exact Hne|].
  destruct (@C2_https_listeners_keep_separate_chains exampleCollaborators rangeForward
              "default" secureGateway noRoutes exampleSettings secureListeners 443 Hne)
    as (lis & Hon & Hchains & Hlen & Hok).
  exists lis. split; [exact Hon|]. split; [rewrite Hlen; reflexivity|].
  destruct Hok as (httpsChains & Hout & Hall).
  { repeat constructor; eexists; vm_compute; reflexivity. }
  assert (ml_httpFilterChain lis = None) as Hnone.
  { assert (lis ∈ [lis]) as Hin by (apply elem_of_cons; left; reflexivity).
    rewrite <- Hon in Hin. vm_compute in Hin.
    apply elem_of_cons in Hin as [->|Hin]; [reflexivity|].
    apply elem_of_nil in Hin; destruct Hin. }
  rewrite Hout, Hnone. simpl.
  change (withProtocol HTTPSProtocolType (listenersOnPort 443 secureListeners))
    with secureListeners in Hall.
  inversion Hall as [|l1 c1 ls1 cs1 [_ H1] Hall1]; subst.
  inversion Hall1 as [|l2 c2 ls2 cs2 [_ H2] Hall2]; subst.
  inversion Hall2; subst. simpl. rewrite H1, H2. reflexivity.
Defined.

(** In the translation of [webChain] the virtual host of
    "api.example.com" is [apiVhost], with the policies and the listener of
    the exact match. *)
Lemma C4_web_chain :
  apiVhost ∈ hfc_Vhosts (@translateHttpFilterChain exampleCollaborators rangeForward
                           webChain "listener~80").1
  ∧ ((∃ p, bestMatch "api.example.com" (hc_parents webChain) p
           ∧ vh_AttachedPolicies apiVhost = hp_attachedPolicies p
           ∧ vh_ParentRef apiVhost = hp_gatewayListener p)
     ∨ (Forall (λ q, isHostContained "api.example.com"
                       (l_Hostname (hp_gatewayListener q)) = false) (hc_parents webChain)
        ∧ vh_AttachedPolicies apiVhost = noPolicies
        ∧ vh_ParentRef apiVhost = zeroListener))
  ∧ pc_attachedPolicies (selectParent "api.example.com" (hc_parents webChain))
    = ["api-policy"].
Proof.
  assert (apiVhost ∈ hfc_Vhosts (@translateHttpFilterChain exampleCollaborators rangeForward
                                   webChain "listener~80").1) as Hin.
  { apply list_elem_of_lookup. exists 0%nat. vm_compute. reflexivity. }
  destruct (@C4_vhost_adopts_best_matching_parent exampleCollaborators rangeForward
              webChain "listener~80") as (_ & _ & Hadopt & Hexample).
  split; [exact Hin|]. split; [exact (Hadopt apiVhost Hin)|].
  destruct (Hexample wildParent apiParent eq_refl eq_refl (hc_parents webChain)
              (or_introl eq_refl)) as [Hpol _].
  exact Hpol.
Defined.

(** Neither chain of [idleTcpPort] has a route: both reporters get the
    condition. *)
Lemma C6_idle_tcp_port :
  (@TranslateListener exampleCollaborators rangeForward idleTcpPort).2
  = [ListenerSetCondition {| lr_Parent := "gw"; lr_ListenerName := "a" |} noBackendsCondition;
     ListenerSetCondition {| lr_Parent := "gw"; lr_ListenerName := "b" |} noBackendsCondition].
Proof.
  destruct (@C6_all_tcp_failed_escalation exampleCollaborators rangeForward idleTcpPort)
    as (Hev & _ & Hall & _).
  rewrite Hev, Hall.
  - vm_compute. reflexivity.
  - discriminate.
  - repeat constructor.
Defined.

(** Of [threeTcpRoutes] the oldest is selected, also when the routes are
    bound in reverse order. *)
Lemma C7_three_tcp_routes :
  selectedRoute (exampleTcpChain threeTcpRoutes) = Some oldestTcpRoute
  ∧ selectedRoute (exampleTcpChain (reverse threeTcpRoutes)) = Some oldestTcpRoute
  ∧ translateTcpFilterChain (exampleTcpChain (reverse threeTcpRoutes)) "listener~9000"
    = translateTcpFilterChain (exampleTcpChain threeTcpRoutes) "listener~9000".
Proof.
  pose proof (C7_tcp_oldest_route_selected (exampleTcpChain threeTcpRoutes) "listener~9000")
    as (r & Hsel & _ & _ & _ & Hperm).
  assert (r = oldestTcpRoute) as -> by (injection Hsel as <-; reflexivity).
  split; [exact Hsel|].
  apply (Hperm (reverse threeTcpRoutes)).
  - apply reverse_Permutation.
  - intros y Hy Hle. simpl in Hy.
    repeat (apply elem_of_cons in Hy as [->|Hy]);
      [exfalso; revert Hle; by vm_compute..|reflexivity|by apply elem_of_nil in Hy].
Defined.

(** The oldest of [threeTcpRoutes] has one rule and two backends, one of
    them without a backend object: both are in the TcpIR, and the missing
    one is reported. *)
Lemma C9_three_tcp_routes :
  selectedRoute (exampleTcpChain threeTcpRoutes) = Some oldestTcpRoute
  ∧ length (l4_Rules oldestL4Route) = 1%nat
  ∧ tcp_BackendRefs <$> (translateTcpFilterChain (exampleTcpChain threeTcpRoutes)
                           "listener~9000").1
    = Some [exampleBackend "a" true; exampleBackend "gone" false]
  ∧ BackendError (l4Reporter oldestL4Route exampleParentRef) (errors_New "not found")
    ∈ (translateTcpFilterChain (exampleTcpChain threeTcpRoutes) "listener~9000").2.
Proof.
  assert (selectedRoute (exampleTcpChain threeTcpRoutes) = Some oldestTcpRoute) as Hsel
    by reflexivity.
  assert (length (l4_Rules oldestL4Route) = 1%nat) as Hone by reflexivity.
  destruct (C9_tcp_backends_all_included (exampleTcpChain threeTcpRoutes) "listener~9000"
              oldestTcpRoute oldestL4Route Hsel (or_introl eq_refl) Hone)
    as (Hnone & Hsome & Herr & _).
  split; [exact Hsel|]. split; [exact Hone|]. split.
  - destruct (translateTcpFilterChain _ _).1 as [tcpIR|] eqn:E; simpl.
    + f_equal. exact (Hsome tcpIR eq_refl).
    + destruct Hnone as [Hn _]. specialize (Hn eq_refl). discriminate Hn.
  - apply (Herr (exampleBackend "gone" false) exampleParentRef).
    + apply elem_of_cons; right. apply elem_of_cons; left. reflexivity.
    + apply elem_of_cons; left. reflexivity.
    + right. reflexivity.
Defined.

(** The only listener of [brokenGateway] fails TLS resolution: its port is
    still in the output, with no chain. *)
Lemma C10_broken_gateway :
  ∃ out,
    (@TranslateListeners exampleCollaborators rangeForward brokenGateway noRoutes
       exampleSettings).1 = [out]
    ∧ lir_Name out = "listener~443"
    ∧ lir_BindAddress out = "0.0.0.0"
    ∧ lir_HttpFilterChain out = []
    ∧ lir_TcpFilterChain out = [].
Proof.
  destruct (@C10_one_listenerIR_per_merged_port exampleCollaborators rangeForward
              brokenGateway noRoutes exampleSettings) as (Hout & _ & Hfields).
  set (merged := @mergeGWListeners exampleCollaborators (gw_Namespace brokenGateway)
                   (validateGateway brokenGateway).1 brokenGateway noRoutes exampleSettings)
    in *.
  assert (∃ m, Listeners merged = [m] ∧ ml_port m = 443 ∧ ml_httpFilterChain m = None
               ∧ ml_TcpFilterChains m = []
               ∧ Forall (λ mfc, ∃ err, translateSslConfig (gw_Namespace brokenGateway)
                                         (hs_tls mfc) = inr err) (ml_httpsFilterChains m))
    as (m & Hm & Hport & Hhttp & Htcp & Hhttps).
  { eexists. split; [vm_compute; reflexivity|].
    split; [reflexivity|]. split; [reflexivity|]. split; [reflexivity|].
    repeat constructor. eexists. vm_compute. reflexivity. }
  exists (TranslateListener m).1. rewrite Hout, Hm. split; [reflexivity|].
  destruct (Hfields m) as (Hname & _ & Haddr & Hempty).
  { rewrite Hm. apply elem_of_cons; left. reflexivity. }
  rewrite Hname, Haddr, Hport. split; [reflexivity|]. split; [reflexivity|].
  apply Hempty; [exact Hhttp|exact Hhttps|]. rewrite Htcp. constructor.
Defined.

End examples.

(** * Further properties

    Properties of the translator beyond the ones above, read off the
    code: the shape of the merge, the outcomes of TLS resolution, the
    contents of the host buckets and of the virtual hosts, and where the
    chains of the output come from. *)

(** ** Ports of the merge *)

Lemma firstSeen_elem_of ports x : x ∈ firstSeen ports ↔ x ∈ ports.
Proof.
  induction ports as [|p ports IH]; simpl; [done|].
  rewrite !elem_of_cons, list_elem_of_filter, IH.
  destruct (decide (x = p)) as [->|Hne]; [split; auto|].
  split; [intros [?|[_ ?]]; auto|intros [?|?]; auto].
Qed.

Lemma firstSeen_NoDup ports : NoDup (firstSeen ports).
Proof.
  induction ports as [|p ports IH]; simpl; [constructor|].
  apply NoDup_cons. split.
  - rewrite list_elem_of_filter. by intros [? _].
  - by apply NoDup_filter.
Qed.

Lemma firstSeen_snoc ports x :
  firstSeen (ports ++ [x])
  = if decide (x ∈ ports) then firstSeen ports else firstSeen ports ++ [x].
Proof.
  induction ports as [|p ports IH]; simpl.
  - destruct (decide (x ∈ [])) as [Hin|_]; [by apply elem_of_nil in Hin|done].
  - rewrite IH. destruct (decide (x ∈ ports)) as [Hin|Hnin].
    + by rewrite decide_True by (by apply elem_of_cons; right).
    + rewrite filter_app, filter_cons, filter_nil.
      destruct (decide (x = p)) as [->|Hne].
      * rewrite decide_False by (by intros ?).
        rewrite decide_True by (by apply elem_of_cons; left).
        by rewrite (right_id_L [] (++)).
      * rewrite decide_True by done.
        rewrite decide_False; [done|]. intros [?|?]%elem_of_cons; done.
Qed.

Lemma updateFirstOnPort_ports q f ls :
  (∀ m, ml_port (f m) = ml_port m) →
  match updateFirstOnPort q f ls with
  | Some ls' => ml_port <$> ls' = ml_port <$> ls ∧ q ∈ ml_port <$> ls
  | None => q ∉ ml_port <$> ls
  end.
Proof.
  intros Hf. induction ls as [|lis rest IH]; cbn [updateFirstOnPort]; [apply not_elem_of_nil|].
  destruct (decide (ml_port lis = q)) as [<-|Hne].
  - rewrite !fmap_cons, Hf. split; [done|]. by apply elem_of_cons; left.
  - destruct (updateFirstOnPort q f rest) as [ls'|]; cbn [fmap option_fmap option_map];
      rewrite !fmap_cons.
    + destruct IH as [-> ?]. split; [done|]. by apply elem_of_cons; right.
    + intros [?|?]%elem_of_cons; [by apply Hne|done].
Qed.

Section merge_ports.
Context `{Collaborators}.

Lemma append_ports (ml : MergedListeners) q f new :
  (∀ m, ml_port (f m) = ml_port m) →
  ml_port new = q →
  ml_port <$> match updateFirstOnPort q f (Listeners ml) with
              | Some ls => ls
              | None => Listeners ml ++ [new]
              end
  = if decide (q ∈ ml_port <$> Listeners ml) then ml_port <$> Listeners ml
    else (ml_port <$> Listeners ml) ++ [q].
Proof.
  intros Hf Hnew. pose proof (updateFirstOnPort_ports q f (Listeners ml) Hf) as Hup.
  destruct (updateFirstOnPort q f (Listeners ml)) as [ls'|].
  - destruct Hup as [-> Hin]. by rewrite decide_True.
  - rewrite decide_False by done. by rewrite fmap_app; simpl; rewrite Hnew.
Qed.

Lemma knownProtocol_iff l :
  knownProtocol l
  ↔ l_Protocol l = HTTPProtocolType ∨ l_Protocol l = HTTPSProtocolType
    ∨ l_Protocol l = TCPProtocolType ∨ l_Protocol l = TLSProtocolType.
Proof.
  unfold knownProtocol. rewrite !elem_of_cons, elem_of_nil.
  split; [intros [?|[?|[?|[?|[]]]]]|intros [?|[?|[?|?]]]]; auto.
Qed.

Lemma AppendListener_unknown ml l routes reporter :
  ¬ knownProtocol l →
  AppendListener ml l routes reporter
  = (ml, Some (errors_New ("unsupported protocol: " +:+ l_Protocol l))).
Proof.
  rewrite knownProtocol_iff. intros Hun. unfold AppendListener.
  repeat (case_decide; [exfalso; apply Hun; auto|]). done.
Qed.

Lemma AppendListener_known ml l routes reporter :
  knownProtocol l → (AppendListener ml l routes reporter).2 = None.
Proof.
  rewrite knownProtocol_iff. intros Hk. unfold AppendListener.
  repeat (case_decide; [done|]). exfalso. by destruct Hk as [?|[?|[?|?]]].
Qed.

Lemma AppendListener_ports ml l routes reporter :
  ml_port <$> Listeners (AppendListener ml l routes reporter).1
  = if decide (knownProtocol l) then
      if decide (l_Port l ∈ ml_port <$> Listeners ml) then ml_port <$> Listeners ml
      else (ml_port <$> Listeners ml) ++ [l_Port l]
    else ml_port <$> Listeners ml.
Proof.
  destruct (decide (knownProtocol l)) as [Hk|Hun];
    [|rewrite AppendListener_unknown by done; done].
  apply knownProtocol_iff in Hk. unfold AppendListener.
  destruct (decide (l_Protocol l = HTTPProtocolType)) as [?|?];
    [|destruct (decide (l_Protocol l = HTTPSProtocolType)) as [?|?];
      [|destruct (decide (l_Protocol l = TCPProtocolType)) as [?|?];
        [|destruct (decide (l_Protocol l = TLSProtocolType)) as [?|?];
          [|exfalso; by destruct Hk as [?|[?|[?|?]]]]]]].
  all: cbn [fst];
    unfold appendHttpListener, appendHttpsListener, AppendTcpListener, AppendTlsListener,
      getListenerPortNumber; cbv zeta;
    match goal with
    | |- context [updateFirstOnPort ?q ?f ?ls] =>
        match goal with
        | |- context [Listeners ?m ++ [?new]] =>
            rewrite <- (append_ports m q f new); [|try done..]
        end
    end.
  all: try (by destruct (updateFirstOnPort _ _ _)).
  intros m. by destruct (ml_httpFilterChain m).
Qed.

Context (ns : string) (gw : Gateway) (rfg : RoutesForGwResult) (st : ListenerTranslatorConfig).

Lemma mergeGWListeners_snoc listeners l :
  mergeGWListeners ns (listeners ++ [l]) gw rfg st
  = (AppendListener (mergeGWListeners ns listeners gw rfg st) l
       (routesOf rfg l) (listenerReporterOf l)).1.
Proof. unfold mergeGWListeners. by rewrite foldl_snoc. Qed.

Lemma mergeGWListeners_ports listeners :
  ml_port <$> Listeners (mergeGWListeners ns listeners gw rfg st)
  = firstSeen (l_Port <$> filter knownProtocol listeners).
Proof.
  induction listeners as [|l listeners IH] using rev_ind; [done|].
  rewrite mergeGWListeners_snoc, AppendListener_ports, IH, filter_app, filter_cons, filter_nil.
  destruct (decide (knownProtocol l)) as [Hk|Hun].
  - rewrite fmap_app. simpl. rewrite firstSeen_snoc.
    destruct (decide (l_Port l ∈ l_Port <$> filter knownProtocol listeners)) as [Hin|Hnin].
    + by rewrite decide_True by (by apply firstSeen_elem_of).
    + by rewrite decide_False by (by rewrite firstSeen_elem_of).
  - by rewrite (right_id_L [] (++)).
Qed.

Lemma mergeGWListeners_known listeners :
  mergeGWListeners ns listeners gw rfg st
  = mergeGWListeners ns (filter knownProtocol listeners) gw rfg st.
Proof.
  induction listeners as [|l listeners IH] using rev_ind; [done|].
  rewrite filter_app, filter_cons, filter_nil.
  destruct (decide (knownProtocol l)) as [Hk|Hun].
  - by rewrite !mergeGWListeners_snoc, IH.
  - rewrite (right_id_L [] (++)), mergeGWListeners_snoc.
    by rewrite AppendListener_unknown.
Qed.

End merge_ports.

Lemma GenerateListenerNameFromPort_inj p q :
  GenerateListenerNameFromPort p = GenerateListenerNameFromPort q → p = q.
Proof.
  unfold GenerateListenerNameFromPort. intros Heq.
  apply (inj (String.app "listener~")) in Heq. by apply (inj pretty) in Heq.
Qed.

(** ** Protocols and ports of the merge *)

Section merge_more.
Context `{Collaborators}.
Context (ns : string) (gw : Gateway) (rfg : RoutesForGwResult) (st : ListenerTranslatorConfig).

(** X1. [AppendListener] returns an error exactly for a listener whose
    protocol is none of HTTP, HTTPS, TCP and TLS: the error reads
    "unsupported protocol: <protocol>" and the merged listeners are left as
    they were.  [mergeGWListeners] discards that error: its result is the
    result for the input without such listeners. *)
Theorem X1_unsupported_protocol_dropped :
  (∀ ml l routes reporter,
     ¬ knownProtocol l →
     AppendListener ml l routes reporter
     = (ml, Some (errors_New ("unsupported protocol: " +:+ l_Protocol l))))
  ∧ (∀ ml l routes reporter,
       knownProtocol l → (AppendListener ml l routes reporter).2 = None)
  ∧ (∀ listeners,
       mergeGWListeners ns listeners gw rfg st
       = mergeGWListeners ns (filter knownProtocol listeners) gw rfg st).
Proof.
  split_and!.
  - apply AppendListener_unknown.
  - apply AppendListener_known.
  - apply mergeGWListeners_known.
Qed.

(** X2. The ports of the merged listeners are the ports of the listeners
    with a supported protocol, each once, in the order in which they first
    occur in the input: no two merged listeners share a port. *)
Theorem X2_merged_ports_first_seen (listeners : list Listener) :
  let ports := ml_port <$> Listeners (mergeGWListeners ns listeners gw rfg st) in
  ports = firstSeen (l_Port <$> filter knownProtocol listeners)
  ∧ NoDup ports
  ∧ (∀ p, p ∈ ports ↔ ∃ l, l ∈ listeners ∧ knownProtocol l ∧ l_Port l = p).
Proof.
  intros ports. unfold ports. rewrite mergeGWListeners_ports. split_and!.
  - done.
  - apply firstSeen_NoDup.
  - intros p. rewrite firstSeen_elem_of, list_elem_of_fmap. split.
    + intros (l & -> & [Hk Hin]%list_elem_of_filter). by exists l.
    + intros (l & Hin & Hk & <-). exists l. split; [done|]. by apply list_elem_of_filter.
Qed.

(** X3. What [mergeGWListeners] leaves on a port depends only on the
    listeners declared on that port: dropping every other listener from the
    input gives the same merged listener for the port. *)
Theorem X3_merged_port_isolated (listeners : list Listener) (p : PortNumber) :
  onPort p (Listeners (mergeGWListeners ns listeners gw rfg st))
  = onPort p (Listeners (mergeGWListeners ns (filter (λ l, l_Port l = p) listeners) gw rfg st)).
Proof.
  rewrite !mergeGWListeners_onPort. unfold mergedOnPort, listenersOnPort.
  rewrite list_filter_filter.
  assert (filter (λ l, (l_Port l = p ∧ knownProtocol l) ∧ l_Port l = p) listeners
          = filter (λ l, l_Port l = p ∧ knownProtocol l) listeners) as ->; [|done].
  apply list_filter_iff. intros l. split; [by intros [? _]|by intros [? ?]].
Qed.

End merge_more.

(** ** The translated ports *)

Section assembly_more.
Context `{Collaborators} `{MapRange}.

Lemma TranslateListeners_fst gateway rfg st :
  (TranslateListeners gateway rfg st).1
  = (λ m, (TranslateListener m).1)
      <$> Listeners (mergeGWListeners (gw_Namespace gateway) (validateGateway gateway).1
                       gateway rfg st).
Proof.
  unfold TranslateListeners. by rewrite bind_fst, translateListeners_fst.
Qed.

Lemma TranslateListeners_snd gateway rfg st :
  (TranslateListeners gateway rfg st).2
  = (validateGateway gateway).2
    ++ (Listeners (mergeGWListeners (gw_Namespace gateway) (validateGateway gateway).1
                     gateway rfg st)
          ≫= λ m, (TranslateListener m).2).
Proof.
  unfold TranslateListeners. rewrite bind_snd. f_equal.
  unfold translateListeners.
  apply (forRange_snd _ _ _ (λ m, (TranslateListener m).2)).
  intros s m. rewrite bind_snd. unfold ret. cbn [snd]. apply (right_id_L [] (++)).
Qed.

Lemma reportAllTcpFailed_all_failed ml :
  ml_TcpFilterChains ml ≠ [] →
  Forall (λ tfc, tcpOutput ml tfc = None) (ml_TcpFilterChains ml) →
  (reportAllTcpFailed ml (translateTcpChains ml).1).2
  = (λ tfc, ListenerSetCondition (tc_listenerReporter tfc) noBackendsCondition)
      <$> ml_TcpFilterChains ml.
Proof.
  intros Hne Hall. unfold reportAllTcpFailed. rewrite translateTcpChains_fst.
  assert (omap (tcpOutput ml) (ml_TcpFilterChains ml) = []) as ->.
  { clear Hne. induction Hall as [|tfc l Hx _ IH]; simpl; [done|]. by rewrite Hx. }
  assert ((0 <? length (ml_TcpFilterChains ml))%nat && (length (@nil TcpIR) =? 0)%nat = true)
    as -> by (by destruct (ml_TcpFilterChains ml)).
  rewrite (forRange_snd _ _ _
    (λ tfc, [ListenerSetCondition (tc_listenerReporter tfc) noBackendsCondition])); [|done].
  by rewrite list_bind_singleton.
Qed.

(** X6. [TranslateListeners] returns one ListenerIR per port of a
    validated listener with a supported protocol, in the order in which the
    ports first occur: it is named "listener~<port>" and binds the port
    converted to uint32.  No two ListenerIRs have the same name. *)
Theorem X6_listener_names_distinct (gateway : Gateway) (rfg : RoutesForGwResult)
    (st : ListenerTranslatorConfig) :
  let ports := firstSeen (l_Port <$> filter knownProtocol (validateGateway gateway).1) in
  let out := (TranslateListeners gateway rfg st).1 in
  lir_Name <$> out = GenerateListenerNameFromPort <$> ports
  ∧ lir_BindPort <$> out = uint32 <$> ports
  ∧ NoDup (lir_Name <$> out).
Proof.
  intros ports out.
  assert (lir_Name <$> out = GenerateListenerNameFromPort <$> ports) as Hnames.
  { unfold out, ports. rewrite TranslateListeners_fst,
      <- (mergeGWListeners_ports (gw_Namespace gateway) gateway rfg st).
    rewrite <- !list_fmap_compose. apply Forall_fmap_ext_1, Forall_forall.
    intros m Hm. simpl. rewrite TranslateListener_fst. simpl.
    by destruct (merged_listener_fields _ _ _ _ _ m Hm) as (-> & _). }
  split_and!; [done| |].
  - unfold out, ports. rewrite TranslateListeners_fst,
      <- (mergeGWListeners_ports (gw_Namespace gateway) gateway rfg st).
    rewrite <- !list_fmap_compose. apply Forall_fmap_ext_1, Forall_forall.
    intros m _. simpl. by rewrite TranslateListener_fst.
  - rewrite Hnames. apply NoDup_fmap_2_strong; [|apply firstSeen_NoDup].
    intros p q _ _. apply GenerateListenerNameFromPort_inj.
Qed.

(** X7. The conversion [uint32(ml.port)] of an int32 port: a port that
    is not negative is bound as it is, a negative one wraps around to the
    port plus 2^32. *)
Theorem X7_bind_port_of_int32 (ml : MergedListener) :
  - 2 ^ 31 ≤ ml_port ml < 2 ^ 31 →
  lir_BindPort (TranslateListener ml).1
  = if decide (0 ≤ ml_port ml) then ml_port ml else ml_port ml + 2 ^ 32.
Proof.
  intros Hrange. rewrite TranslateListener_fst. simpl. unfold uint32.
  destruct (decide (0 ≤ ml_port ml)).
  - apply Z.mod_small. lia.
  - symmetry. apply (Z.mod_unique _ _ (-1)); lia.
Qed.

Section merged_more.
Context (ns : string) (gw : Gateway) (rfg : RoutesForGwResult) (st : ListenerTranslatorConfig).

(** X4. Every TCP and TLS listener of a port gets a chain of its own in
    the merged listener of the port, in input order.  The chain carries the
    reporter of its own listener, its route key and the routes bound to it;
    the chain of a TLS listener carries the listener's hostname as SNI
    domain and its TLS block (the empty block when the listener has none),
    the chain of a TCP listener carries neither.  When none of the chains
    produces a TcpIR, the roll-up of [TranslateListener] sets the
    Programmed=False condition once on the reporter of each of those
    listeners, in order. *)
Theorem X4_l4_listeners_keep_separate_chains (listeners : list Listener) (p : PortNumber) :
  let merged := mergeGWListeners ns listeners gw rfg st in
  let l4 := filter (λ l, l_Protocol l = TCPProtocolType ∨ l_Protocol l = TLSProtocolType)
              (listenersOnPort p listeners) in
  l4 ≠ [] →
  ∃ lis,
    onPort p (Listeners merged) = [lis]
    ∧ Forall2 (λ l tfc,
                 tc_listenerReporter tfc = listenerReporterOf l
                 ∧ tp_gatewayListenerName (tc_parents tfc)
                   = GenerateRouteKey (l_Parent l) (l_Name l)
                 ∧ tp_routesWithHosts (tc_parents tfc) = routesOf rfg l
                 ∧ tc_sniDomain tfc
                   = (if decide (l_Protocol l = TLSProtocolType) then l_Hostname l else None)
                 ∧ tc_tls tfc
                   = (if decide (l_Protocol l = TLSProtocolType)
                      then Some (default emptyTLSConfig (l_TLS l)) else None))
              l4 (ml_TcpFilterChains lis)
    ∧ (Forall (λ tfc, tcpOutput lis tfc = None) (ml_TcpFilterChains lis) →
       (reportAllTcpFailed lis (translateTcpChains lis).1).2
       = (λ l, ListenerSetCondition (listenerReporterOf l) noBackendsCondition) <$> l4).
Proof.
  intros merged l4 Hne.
  destruct (merged_on_port ns gw rfg st listeners p) as (first & rest & E & Hon).
  { intros Hnil. apply Hne. unfold l4. by rewrite Hnil. }
  eexists. split; [exact Hon|]. unfold l4 in *. rewrite E in *.
  set (lis := mergedOf ns gw rfg st p first (first :: rest)).
  assert (ml_TcpFilterChains lis
          = l4ChainFor rfg <$> filter (λ l, l_Protocol l = TCPProtocolType
                                             ∨ l_Protocol l = TLSProtocolType) (first :: rest))
    as Hchains by done.
  rewrite Hchains. split.
  - apply Forall2_fmap_r, Forall_Forall2_diag, Forall_forall. intros l _.
    unfold l4ChainFor. simpl.
    destruct (decide (l_Protocol l = TLSProtocolType)); simpl; [|done].
    by destruct (l_TLS l).
  - intros Hall. rewrite reportAllTcpFailed_all_failed.
    + rewrite Hchains, <- list_fmap_compose. apply Forall_fmap_ext_1, Forall_forall.
      intros l _. unfold l4ChainFor. simpl.
      by destruct (decide (l_Protocol l = TLSProtocolType)).
    + rewrite Hchains. intros Hnil%fmap_nil_inv. done.
    + by rewrite Hchains.
Qed.

(** X5. A merged listener keeps what the first supported listener of its
    port gave it when it was created: that listener itself and its
    reporter, and the translated ListenerIR has its PolicyAncestorRef.  Its
    gateway is the parent gateway, except when that first listener is a TLS
    listener: [AppendTlsListener] leaves the field at its zero value. *)
Theorem X5_merged_listener_taken_from_first (listeners : list Listener) (m : MergedListener) :
  m ∈ Listeners (mergeGWListeners ns listeners gw rfg st) →
  ∃ first rest,
    listenersOnPort (ml_port m) listeners = first :: rest
    ∧ ml_listener m = first
    ∧ ml_listenerReporter m = listenerReporterOf first
    ∧ ml_gateway m = (if decide (l_Protocol first = TLSProtocolType) then zeroGateway else gw)
    ∧ lir_PolicyAncestorRef (TranslateListener m).1 = l_PolicyAncestorRef first.
Proof.
  intros (first & rest & E & Hm)%merged_listener_closed_form.
  exists first, rest. split; [done|]. rewrite TranslateListener_fst. simpl.
  rewrite Hm. by simpl.
Qed.

End merged_more.

End assembly_more.

(** ** TLS configuration *)

Section tls.
Context `{Collaborators}.

Lemma translateSslConfig_not_terminating namespace tls :
  (∀ t, tls = Some t → tls_Mode t ≠ Some TLSModeTerminate) →
  translateSslConfig namespace tls = inl None.
Proof.
  intros Hmode. destruct tls as [t|]; [|done]. simpl.
  by rewrite bool_decide_eq_false_2 by (by apply Hmode).
Qed.

Lemma translateSslConfig_terminating namespace t :
  tls_Mode t = Some TLSModeTerminate →
  translateSslConfig namespace (Some t)
  = match tls_CertificateRefs t with
    | [certRef] =>
        match GetSecretForRef namespace certRef with
        | inr err => inr err
        | inl secret =>
            match ValidateTlsSecretData (sec_Name secret) (sec_Namespace secret)
                    (sec_Data secret) with
            | Some err => inr err
            | None =>
                inl (Some {| PrivateKey := default "" (sec_Data secret !! TLSPrivateKeyKey);
                             CertChain := default "" (sec_Data secret !! TLSCertKey);
                             CA := default "" (sec_Data secret !! ServiceAccountRootCAKey) |})
            end
        end
    | _ => inr (errors_New "only one certificate ref is supported for now")
    end.
Proof. intros Hmode. simpl. by rewrite bool_decide_eq_true_2. Qed.

Lemma translateSslConfig_ref_count namespace t :
  tls_Mode t = Some TLSModeTerminate →
  length (tls_CertificateRefs t) ≠ 1%nat →
  translateSslConfig namespace (Some t)
  = inr (errors_New "only one certificate ref is supported for now").
Proof.
  intros Hmode Hlen. rewrite translateSslConfig_terminating by done.
  by destruct (tls_CertificateRefs t) as [|ref [|ref' refs]].
Qed.

(** X8. The three outcomes of [translateSslConfig].  It returns no
    bundle and no error exactly when there is no TLS configuration or its
    mode is not Terminate.  It returns a bundle exactly when the mode is
    Terminate, there is exactly one certificate ref, the secret lookup
    succeeds and the secret validates; the bundle holds the entries
    "tls.key", "tls.crt" and "ca.crt" of the secret, an absent entry as the
    empty string.  It returns an error exactly when the mode is Terminate
    and either the number of certificate refs is not one (the error "only
    one certificate ref is supported for now"), or the lookup fails, or the
    validation fails; the error of the lookup or of the validation is
    returned as it is. *)
Theorem X8_translateSslConfig_outcomes (namespace : string) (tls : option ListenerTLSConfig) :
  (translateSslConfig namespace tls = inl None
   ↔ ∀ t, tls = Some t → tls_Mode t ≠ Some TLSModeTerminate)
  ∧ (∀ bundle,
       translateSslConfig namespace tls = inl (Some bundle)
       ↔ ∃ t certRef secret,
           tls = Some t ∧ tls_Mode t = Some TLSModeTerminate
           ∧ tls_CertificateRefs t = [certRef]
           ∧ GetSecretForRef namespace certRef = inl secret
           ∧ ValidateTlsSecretData (sec_Name secret) (sec_Namespace secret)
               (sec_Data secret) = None
           ∧ bundle = {| PrivateKey := default "" (sec_Data secret !! "tls.key");
                         CertChain := default "" (sec_Data secret !! "tls.crt");
                         CA := default "" (sec_Data secret !! "ca.crt") |})
  ∧ (∀ err,
       translateSslConfig namespace tls = inr err
       ↔ ∃ t,
           tls = Some t ∧ tls_Mode t = Some TLSModeTerminate
           ∧ ((length (tls_CertificateRefs t) ≠ 1%nat
               ∧ err = errors_New "only one certificate ref is supported for now")
              ∨ ∃ certRef,
                  tls_CertificateRefs t = [certRef]
                  ∧ (GetSecretForRef namespace certRef = inr err
                     ∨ ∃ secret,
                         GetSecretForRef namespace certRef = inl secret
                         ∧ ValidateTlsSecretData (sec_Name secret) (sec_Namespace secret)
                             (sec_Data secret) = Some err))).
Proof.
  destruct tls as [t|].
  2:{ split_and!.
      - split; [by intros _ t [=]|done].
      - intros bundle. split; [done|]. by intros (t & ? & ? & [=] & _).
      - intros err. split; [done|]. by intros (t & [=] & _). }
  destruct (decide (tls_Mode t = Some TLSModeTerminate)) as [Hmode|Hmode].
  2:{ rewrite translateSslConfig_not_terminating by (by intros ? [= <-]). split_and!.
      - split; [by intros _ ? [= <-]|done].
      - intros bundle. split; [done|]. intros (t' & ? & ? & [= <-] & ? & _). contradiction.
      - intros err. split; [done|]. intros (t' & [= <-] & ? & _). contradiction. }
  rewrite translateSslConfig_terminating by done.
  destruct (tls_CertificateRefs t) as [|certRef [|certRef' refs]] eqn:Erefs.
  - split_and!.
    + split; [done|]. intros Hno. by destruct (Hno t).
    + intros bundle. split; [done|]. intros (t' & ? & ? & [= <-] & _ & Hrefs & _).
      by rewrite Erefs in Hrefs.
    + intros err. split.
      * intros [= <-]. exists t. split_and!; [done..|]. left. by rewrite Erefs.
      * intros (t' & [= <-] & _ & [[_ ->]|(ref & Hrefs & _)]); [done|].
        by rewrite Erefs in Hrefs.
  - destruct (GetSecretForRef namespace certRef) as [secret|err0] eqn:Eget.
    + destruct (ValidateTlsSecretData _ _ _) as [err0|] eqn:Eval.
      * split_and!.
        -- split; [done|]. intros Hno. by destruct (Hno t).
        -- intros bundle. split; [done|].
           intros (t' & ref & secret' & [= <-] & _ & Hrefs & Hget & Hval & _).
           rewrite Erefs in Hrefs. injection Hrefs as <-.
           rewrite Eget in Hget. injection Hget as <-. by rewrite Eval in Hval.
        -- intros err. split.
           ++ intros [= <-]. exists t. split_and!; [done..|]. right. exists certRef.
              split; [done|]. right. by exists secret.
           ++ intros (t' & [= <-] & _ & [[Hlen _]|(ref & Hrefs & Hcase)]).
              { by rewrite Erefs in Hlen. }
              rewrite Erefs in Hrefs. injection Hrefs as <-.
              destruct Hcase as [Hget|(secret' & Hget & Hval)]; rewrite Eget in Hget; [done|].
              injection Hget as <-. rewrite Eval in Hval. by injection Hval as <-.
      * split_and!.
        -- split; [done|]. intros Hno. by destruct (Hno t).
        -- intros bundle. split.
           ++ intros [= <-]. by exists t, certRef, secret.
           ++ intros (t' & ref & secret' & [= <-] & _ & Hrefs & Hget & _ & ->).
              rewrite Erefs in Hrefs. injection Hrefs as <-.
              rewrite Eget in Hget. by injection Hget as <-.
        -- intros err. split; [done|].
           intros (t' & [= <-] & _ & [[Hlen _]|(ref & Hrefs & Hcase)]).
           { by rewrite Erefs in Hlen. }
           rewrite Erefs in Hrefs. injection Hrefs as <-.
           destruct Hcase as [Hget|(secret' & Hget & Hval)]; rewrite Eget in Hget; [done|].
           injection Hget as <-. by rewrite Eval in Hval.
    + split_and!.
      * split; [done|]. intros Hno. by destruct (Hno t).
      * intros bundle. split; [done|].
        intros (t' & ref & secret' & [= <-] & _ & Hrefs & Hget & _).
        rewrite Erefs in Hrefs. injection Hrefs as <-. by rewrite Eget in Hget.
      * intros err. split.
        -- intros [= <-]. exists t. split_and!; [done..|]. right. exists certRef.
           split; [done|]. by left.
        -- intros (t' & [= <-] & _ & [[Hlen _]|(ref & Hrefs & Hcase)]).
           { by rewrite Erefs in Hlen. }
           rewrite Erefs in Hrefs. injection Hrefs as <-.
           destruct Hcase as [Hget|(secret' & Hget & _)]; rewrite Eget in Hget; [|done].
           by injection Hget as <-.
  - split_and!.
    + split; [done|]. intros Hno. by destruct (Hno t).
    + intros bundle. split; [done|]. intros (t' & ? & ? & [= <-] & _ & Hrefs & _).
      by rewrite Erefs in Hrefs.
    + intros err. split.
      * intros [= <-]. exists t. split_and!; [done..|]. left. by rewrite Erefs.
      * intros (t' & [= <-] & _ & [[_ ->]|(ref & Hrefs & _)]); [done|].
        by rewrite Erefs in Hrefs.
Qed.

End tls.

(** ** Host buckets *)

Lemma foldl_bind {A B C} (f : A → C → A) (g : B → list C) (a : A) (l : list B) :
  foldl f a (l ≫= g) = foldl (λ a x, foldl f a (g x)) a l.
Proof.
  revert a. induction l as [|x l IH]; intros a; csimpl; [done|].
  rewrite <- IH. clear IH. generalize (l ≫= g). revert a.
  induction (g x) as [|y ys IH]; intros a rest; simpl; [done|]. apply IH.
Qed.

Section buckets.
Context `{Collaborators}.

Lemma buildRoutesPerHost_snd (m : gmap string SortableRoutes) routes :
  (buildRoutesPerHost m routes).2 = routeEvents routes.
Proof.
  unfold buildRoutesPerHost, routeEvents. apply forRange_snd. intros s ri.
  rewrite bind_snd. cbv zeta.
  destruct (decide _); unfold ret; cbn [snd]; apply (right_id_L [] (++)).
Qed.

(** The body of the loop of [buildRoutesPerHost], on the map alone. *)
Lemma buildRoutesPerHost_cons (m : gmap string SortableRoutes) ri routes :
  (buildRoutesPerHost m (ri :: routes)).1
  = (buildRoutesPerHost
       (let rs := (TranslateGatewayHTTPRouteRules ri (routeParentRefReporter ri)).1 in
        if decide (length rs = 0%nat) then m
        else foldl (λ m host,
                      <[host := default [] (m !! host)
                                ++ ToSortable (GetSourceObject (ri_Object ri)) rs]> m)
                   m (effectiveHostnames ri))
       routes).1.
Proof.
  unfold buildRoutesPerHost. cbn [forRange]. rewrite !bind_fst. cbv zeta.
  unfold effectiveHostnames. by destruct (decide (length _ = 0%nat)).
Qed.

Lemma insert_fold_lookup (X : SortableRoutes) (hs : list string)
    (m : gmap string SortableRoutes) (host : string) :
  default [] (foldl (λ m h, <[h := default [] (m !! h) ++ X]> m) m hs !! host)
  = default [] (m !! host) ++ (filter (λ h, h = host) hs ≫= λ _, X).
Proof.
  revert m. induction hs as [|h hs IH]; intros m; simpl.
  - by rewrite (right_id_L [] (++)).
  - rewrite IH, filter_cons. destruct (decide (h = host)) as [->|Hne].
    + rewrite lookup_insert_eq. csimpl. by rewrite (assoc_L (++)).
    + by rewrite lookup_insert_ne.
Qed.

Lemma insert_fold_nonempty (X : SortableRoutes) (hs : list string)
    (m : gmap string SortableRoutes) :
  X ≠ [] →
  (∀ host b, m !! host = Some b → b ≠ []) →
  ∀ host b, foldl (λ m h, <[h := default [] (m !! h) ++ X]> m) m hs !! host = Some b → b ≠ [].
Proof.
  intros HX. revert m. induction hs as [|h hs IH]; intros m Hm; simpl; [done|].
  apply IH. intros host b. destruct (decide (h = host)) as [->|Hne].
  - rewrite lookup_insert_eq. intros [= <-]. intros [_ ?]%app_eq_nil. done.
  - rewrite lookup_insert_ne by done. apply Hm.
Qed.

Lemma buildRoutesPerHost_lookup (m : gmap string SortableRoutes) routes host :
  default [] ((buildRoutesPerHost m routes).1 !! host)
  = default [] (m !! host) ++ bucketOf host routes.
Proof.
  revert m. induction routes as [|ri routes IH]; intros m.
  - simpl. by rewrite (right_id_L [] (++)).
  - rewrite buildRoutesPerHost_cons, IH. unfold bucketOf at 2. csimpl.
    fold (bucketOf host routes). rewrite (assoc_L (++)). f_equal. cbv zeta.
    destruct (decide (length _ = 0%nat)) as [Hz|Hnz].
    + apply length_zero_iff_nil in Hz. rewrite Hz. unfold ToSortable. simpl.
      induction (filter _ _) as [|? ? IH']; csimpl; [by rewrite (right_id_L [] (++))|done].
    + apply insert_fold_lookup.
Qed.

Lemma buildRoutesPerHost_nonempty (m : gmap string SortableRoutes) routes :
  (∀ host b, m !! host = Some b → b ≠ []) →
  ∀ host b, (buildRoutesPerHost m routes).1 !! host = Some b → b ≠ [].
Proof.
  revert m. induction routes as [|ri routes IH]; intros m Hm; [done|].
  rewrite buildRoutesPerHost_cons. apply IH. cbv zeta.
  destruct (decide (length _ = 0%nat)) as [Hz|Hnz]; [done|].
  apply insert_fold_nonempty; [|done].
  unfold ToSortable. intros Hnil%fmap_nil_inv. by rewrite Hnil in Hnz.
Qed.

Lemma buildRoutesPerHost_bucket routes host :
  (buildRoutesPerHost ∅ routes).1 !! host
  = match bucketOf host routes with [] => None | b => Some b end.
Proof.
  pose proof (buildRoutesPerHost_lookup ∅ routes host) as Hl.
  pose proof (buildRoutesPerHost_nonempty ∅ routes) as Hne.
  rewrite lookup_empty in Hl. simpl in Hl.
  destruct ((buildRoutesPerHost ∅ routes).1 !! host) as [b|] eqn:E; simpl in Hl.
  - rewrite <- Hl. destruct b; [|done]. exfalso. eapply Hne; [|exact E|done].
    intros ??. by rewrite lookup_empty.
  - by rewrite <- Hl.
Qed.

Lemma httpRoutesByHost_routes fc :
  httpRoutesByHost fc = (buildRoutesPerHost ∅ (routesOfChain fc)).1.
Proof.
  unfold httpRoutesByHost, routesOfChain, buildRoutesPerHost.
  rewrite !forRange_fst, foldl_bind. generalize (∅ : gmap string SortableRoutes).
  induction (hc_parents fc) as [|p ps IH]; intros m; simpl; [done|].
  by rewrite IH, forRange_fst.
Qed.

(** X11. The bucket [buildRoutesPerHost] files under a host, starting
    from an empty map, holds the translated rules of the routes that list
    the host, in route order, once per occurrence of the host among the
    hostnames of the route; for a plaintext chain the routes are those of
    all its parents, parent by parent.  A host has a bucket exactly when a
    route with at least one translated rule lists it, where a route without
    hostnames lists "*". *)
Theorem X11_buckets_by_host (routes : list RouteInfo) :
  (∀ host,
     (buildRoutesPerHost ∅ routes).1 !! host
     = match bucketOf host routes with [] => None | b => Some b end)
  ∧ (∀ fc host,
       httpRoutesByHost fc !! host
       = match bucketOf host (hc_parents fc ≫= hp_routesWithHosts) with
         | [] => None
         | b => Some b
         end)
  ∧ (∀ host, bucketOf host routes ≠ []
       ↔ ∃ ri, ri ∈ routes
           ∧ (TranslateGatewayHTTPRouteRules ri (routeParentRefReporter ri)).1 ≠ []
           ∧ host ∈ (if decide (ri_Hostnames ri = []) then ["*"] else ri_Hostnames ri)).
Proof.
  split_and!.
  - apply buildRoutesPerHost_bucket.
  - intros fc host. rewrite httpRoutesByHost_routes. apply buildRoutesPerHost_bucket.
  - intros host.
    assert (bucketOf host routes ≠ [] ↔ host ∈ dom (buildRoutesPerHost ∅ routes).1) as ->.
    { rewrite elem_of_dom, buildRoutesPerHost_bucket.
      destruct (bucketOf host routes); split; intros Hx;
        first [done | by destruct Hx as [? ?] | by eexists]. }
    rewrite buildRoutesPerHost_dom, dom_empty, elem_of_empty. split.
    + intros [[]|(ri & Hin & Hrs & Hhost)]. exists ri. split_and!; [done..|].
      unfold effectiveHostnames in Hhost.
      destruct (decide (length _ = 0%nat)) as [Hz|Hnz].
      * apply length_zero_iff_nil in Hz. by rewrite decide_True.
      * rewrite decide_False; [done|]. intros Hnil. by rewrite Hnil in Hnz.
    + intros (ri & Hin & Hrs & Hhost). right. exists ri. split_and!; [done..|].
      unfold effectiveHostnames.
      destruct (decide (ri_Hostnames ri = [])) as [Hz|Hnz].
      * by rewrite decide_True by (by rewrite Hz).
      * rewrite decide_False; [done|]. by intros ?%length_zero_iff_nil.
Qed.

End buckets.

(** ** HTTPS chains *)

Lemma forRange_ext {A S} (xs : list A) (s : S) (body1 body2 : S → A → Rep S) :
  (∀ s x, x ∈ xs → body1 s x = body2 s x) →
  forRange xs s body1 = forRange xs s body2.
Proof.
  revert s. induction xs as [|x xs IH]; intros s Hext; simpl; [done|].
  rewrite Hext by (by apply elem_of_cons; left). unfold bind.
  destruct (body2 s x) as [s' evs]. rewrite IH; [done|].
  intros s0 y Hy. apply Hext. by apply elem_of_cons; right.
Qed.

Lemma bind_ext {A B} (m : Rep A) (k1 k2 : A → Rep B) :
  (∀ a, k1 a = k2 a) → bind m k1 = bind m k2.
Proof. intros Hk. unfold bind. destruct m as [a evs]. by rewrite Hk. Qed.

Lemma sort_Stable_perm `{Collaborators} rs : sort_Stable rs ≡ₚ rs.
Proof. apply sortBy_perm. Qed.

Section https_chain.
Context `{Collaborators} `{MapRange}.

Lemma httpsVhostStep_eq parentName names vhosts host routes :
  httpsVhostStep parentName (names, vhosts) (host, routes)
  = if default false (names !! makeVhostName parentName host) then (names, vhosts)
    else (<[makeVhostName parentName host := true]> names,
          vhosts ++ [httpsVhostOf parentName host routes]).
Proof. unfold httpsVhostStep. by destruct (default false _). Qed.

Lemma translateHttpsFilterChain_eq mfc parentName gatewayNamespace listenerReporter :
  translateHttpsFilterChain mfc parentName gatewayNamespace listenerReporter
  = match translateSslConfig gatewayNamespace (hs_tls mfc) with
    | inl sslConfig =>
        (inl {| hfc_Common := {| FilterChainName := parentName;
                                 Matcher := sniMatcher (hs_sniDomain mfc);
                                 TLS := sslConfig |};
                hfc_AttachedPolicies := hs_attachedPolicies mfc;
                hfc_Vhosts := httpsVhosts mfc parentName |},
         routeEvents (hs_routesWithHosts mfc))
    | inr err =>
        (inr err,
         routeEvents (hs_routesWithHosts mfc) ++ tlsFailureEvents listenerReporter err)
    end.
Proof.
  unfold translateHttpsFilterChain, httpsVhosts, httpsRoutesByHost. rewrite bind_eq.
  rewrite buildRoutesPerHost_snd.
  destruct (foldl _ _ _) as [names vhosts].
  destruct (translateSslConfig _ _); simpl; [|done]. by rewrite (right_id_L [] (++)).
Qed.

Lemma https_vhosts_spec mfc parentName :
  let vhosts := httpsVhosts mfc parentName in
  StronglySorted (λ a b, String.ltb (vh_Name a) (vh_Name b) = true) vhosts
  ∧ NoDup (vh_Name <$> vhosts)
  ∧ (∀ v, v ∈ vhosts →
       ∃ routes, httpsRoutesByHost mfc !! vh_Hostname v = Some routes
                 ∧ v = httpsVhostOf parentName (vh_Hostname v) routes)
  ∧ (∀ host, host ∈ dom (httpsRoutesByHost mfc) →
       makeVhostName parentName host ∈ vh_Name <$> vhosts).
Proof.
  intros vhosts. unfold vhosts, httpsVhosts.
  destruct (dedupe_fold (makeVhostName parentName) (httpsVhostOf parentName)
              (httpsVhostStep parentName)
              (httpsVhostStep_eq parentName) (λ _ _, eq_refl)
              (rangeOrder (map_to_list (httpsRoutesByHost mfc))) (∅, []))
    as (Hnd & Hfrom & Hall & _).
  { intros n. simpl. rewrite lookup_empty. simpl. split; [done|]. by intros ?%elem_of_nil. }
  { simpl. constructor. }
  split_and!.
  - by apply sortVhosts_strict.
  - by rewrite sortVhosts_perm.
  - intros v Hv. rewrite sortVhosts_perm in Hv.
    destruct (Hfrom v Hv) as [Hnil|(host & routes & Hin & ->)]; [by apply elem_of_nil in Hnil|].
    exists routes. split; [|done]. by apply elem_of_rangeOrder in Hin.
  - intros host [routes Hr]%elem_of_dom. rewrite sortVhosts_perm.
    apply (Hall host routes). by apply elem_of_rangeOrder.
Qed.

Lemma https_vhosts_count mfc parentName :
  (∀ h1 h2, makeVhostName parentName h1 = makeVhostName parentName h2 → h1 = h2) →
  httpsVhosts mfc parentName
  = sortVhosts ((λ e, httpsVhostOf parentName e.1 e.2)
                  <$> rangeOrder (map_to_list (httpsRoutesByHost mfc))).
Proof.
  intros Hinj. unfold httpsVhosts.
  rewrite (dedupe_fold_distinct (makeVhostName parentName) (httpsVhostOf parentName)
             (httpsVhostStep parentName) (httpsVhostStep_eq parentName) (λ _ _, eq_refl)).
  - done.
  - intros n. simpl. rewrite lookup_empty. simpl. split; [done|]. by intros ?%elem_of_nil.
  - apply NoDup_fmap_2_strong.
    + intros [h1 r1] [h2 r2] H1 H2 Hn. simpl in Hn.
      apply elem_of_rangeOrder in H1, H2.
      assert (h1 = h2) as -> by (by apply Hinj). congruence.
    + rewrite rangeOrder_perm. apply NoDup_map_to_list.
  - intros e _. simpl. by intros ?%elem_of_nil.
Qed.

(** X14. When TLS resolution succeeds, the HTTPS chain is emitted under
    the given name with the SNI matcher of the chain, the resolved bundle
    and the attached policies of the chain.  Its virtual hosts are sorted
    by strictly ascending name and no name occurs twice; each is named by
    sanitising the chain name and its hostname, carries no attached
    policies and the zero listener as ParentRef, and its rules are the
    stable sort, hence a permutation, of the bucket of its hostname, never
    empty; every host with a bucket has its name among them. *)
Theorem X14_https_chain_vhosts (mfc : httpsFilterChain) (parentName gatewayNamespace : string)
    (listenerReporter : ListenerReporter) (sslConfig : option TlsBundle) :
  translateSslConfig gatewayNamespace (hs_tls mfc) = inl sslConfig →
  ∃ chain,
    (translateHttpsFilterChain mfc parentName gatewayNamespace listenerReporter).1 = inl chain
    ∧ hfc_Common chain = {| FilterChainName := parentName;
                            Matcher := sniMatcher (hs_sniDomain mfc);
                            TLS := sslConfig |}
    ∧ hfc_AttachedPolicies chain = hs_attachedPolicies mfc
    ∧ StronglySorted (λ a b, String.ltb (vh_Name a) (vh_Name b) = true) (hfc_Vhosts chain)
    ∧ NoDup (vh_Name <$> hfc_Vhosts chain)
    ∧ (∀ v, v ∈ hfc_Vhosts chain →
         vh_Name v = makeVhostName parentName (vh_Hostname v)
         ∧ vh_AttachedPolicies v = noPolicies
         ∧ vh_ParentRef v = zeroListener
         ∧ vh_Rules v
           = ToRoutes (sort_Stable (bucketOf (vh_Hostname v) (hs_routesWithHosts mfc)))
         ∧ vh_Rules v ≡ₚ ToRoutes (bucketOf (vh_Hostname v) (hs_routesWithHosts mfc))
         ∧ vh_Rules v ≠ [])
    ∧ (∀ host, bucketOf host (hs_routesWithHosts mfc) ≠ [] →
         makeVhostName parentName host ∈ vh_Name <$> hfc_Vhosts chain).
Proof.
  intros Hssl. rewrite translateHttpsFilterChain_eq, Hssl. eexists. split; [done|].
  cbn [hfc_Common hfc_AttachedPolicies hfc_Vhosts].
  destruct (https_vhosts_spec mfc parentName) as (Hsorted & Hnd & Hfrom & Hall).
  split_and!; [done..| |].
  - intros v Hv. destruct (Hfrom v Hv) as (routes & Hr & Hveq).
    unfold httpsRoutesByHost in Hr. rewrite buildRoutesPerHost_bucket in Hr.
    set (b := bucketOf (vh_Hostname v) (hs_routesWithHosts mfc)) in *.
    assert (routes = b ∧ b ≠ []) as [-> Hne].
    { destruct b; [done|]. by injection Hr as <-. }
    pose proof (f_equal vh_Name Hveq) as Hname.
    pose proof (f_equal vh_AttachedPolicies Hveq) as Hpol.
    pose proof (f_equal vh_ParentRef Hveq) as Hpar.
    pose proof (f_equal vh_Rules Hveq) as Hrules.
    cbn [vh_Name vh_AttachedPolicies vh_ParentRef vh_Rules httpsVhostOf] in *.
    rewrite Hrules. split_and!; [done..| |].
    + unfold ToRoutes. by rewrite sort_Stable_perm.
    + unfold ToRoutes. intros Hnil%fmap_nil_inv. apply Hne.
      apply Permutation_nil_r. by rewrite <- Hnil, sort_Stable_perm.
  - intros host Hne. apply Hall. unfold httpsRoutesByHost.
    rewrite elem_of_dom, buildRoutesPerHost_bucket.
    by destruct (bucketOf host (hs_routesWithHosts mfc)).
Qed.

(** X13. The rules of a virtual host of a plaintext chain are the stable
    sort of the bucket of its hostname, hence a permutation of the rules of
    the routes, of all parents, that list the hostname; a virtual host
    never has an empty rule list. *)
Theorem X13_http_vhost_rules (fc : httpFilterChain) (parentName : string) (v : VirtualHost) :
  v ∈ hfc_Vhosts (translateHttpFilterChain fc parentName).1 →
  let bucket := bucketOf (vh_Hostname v) (hc_parents fc ≫= hp_routesWithHosts) in
  vh_Rules v = ToRoutes (sort_Stable bucket)
  ∧ vh_Rules v ≡ₚ ToRoutes bucket
  ∧ vh_Rules v ≠ [].
Proof.
  intros Hv bucket.
  destruct (http_vhosts_spec fc parentName) as (_ & _ & Hfrom & _).
  destruct (Hfrom v Hv) as (routes & Hr & Hveq).
  rewrite httpRoutesByHost_routes, buildRoutesPerHost_bucket in Hr.
  fold (routesOfChain fc) in bucket. fold bucket in Hr.
  assert (routes = bucket ∧ bucket ≠ []) as [-> Hne].
  { destruct bucket; [done|]. by injection Hr as <-. }
  pose proof (f_equal vh_Rules Hveq) as Hrules. cbn [vh_Rules httpVhostOf] in Hrules.
  rewrite Hrules. split_and!; [done| |].
  - unfold ToRoutes. by rewrite sort_Stable_perm.
  - unfold ToRoutes. intros Hnil%fmap_nil_inv. apply Hne.
    apply Permutation_nil_r. by rewrite <- Hnil, sort_Stable_perm.
Qed.

(** X12. Every bound route is handed to the route translator once, in
    order, and what the translator reports is all that a plaintext chain
    reports.  An HTTPS chain reports the same for its routes first and
    then, only when TLS resolution fails, the two listener conditions:
    routes are reported on whether or not the chain is emitted. *)
Theorem X12_route_events_always_reported :
  (∀ fc parentName,
     (translateHttpFilterChain fc parentName).2
     = hc_parents fc ≫= λ parent, routeEvents (hp_routesWithHosts parent))
  ∧ (∀ mfc parentName gatewayNamespace listenerReporter,
       (translateHttpsFilterChain mfc parentName gatewayNamespace listenerReporter).2
       = routeEvents (hs_routesWithHosts mfc)
         ++ match translateSslConfig gatewayNamespace (hs_tls mfc) with
            | inl _ => []
            | inr err => tlsFailureEvents listenerReporter err
            end).
Proof.
  split.
  - intros fc parentName. rewrite translateHttpFilterChain_eq. cbn [snd].
    apply forRange_snd. intros s parent. apply buildRoutesPerHost_snd.
  - intros mfc parentName gatewayNamespace listenerReporter.
    rewrite translateHttpsFilterChain_eq.
    destruct (translateSslConfig _ _); cbn [snd]; [|done]. by rewrite (right_id_L [] (++)).
Qed.

(** X9. An HTTPS listener without a TLS block, or whose TLS mode is not
    Terminate, still gets its filter chain: without a TLS bundle, with the
    SNI matcher and the attached policies of the listener.  No listener
    condition is set: the events are those of the route translator. *)
Theorem X9_https_listener_without_termination (l : Listener) (routes : list RouteInfo)
    (parentName gatewayNamespace : string) (listenerReporter : ListenerReporter) :
  (∀ t, l_TLS l = Some t → tls_Mode t ≠ Some TLSModeTerminate) →
  translateHttpsFilterChain (httpsChainOf l routes) parentName gatewayNamespace listenerReporter
  = (inl {| hfc_Common := {| FilterChainName := parentName;
                             Matcher := sniMatcher (l_Hostname l);
                             TLS := None |};
            hfc_AttachedPolicies := l_AttachedPolicies l;
            hfc_Vhosts := httpsVhosts (httpsChainOf l routes) parentName |},
     routeEvents routes).
Proof.
  intros Hmode. rewrite translateHttpsFilterChain_eq.
  rewrite translateSslConfig_not_terminating; [done|].
  intros t. simpl. intros [= <-]. destruct (l_TLS l) as [t|]; [by apply Hmode|done].
Qed.

(** X10. An HTTPS listener that terminates TLS and names no certificate
    ref, or more than one, gets no chain, whatever the secret lookup would
    answer: the error is "only one certificate ref is supported for now",
    and after the events of the route translator the conditions
    ResolvedRefs=False with reason InvalidCertificateRef and
    Programmed=False with reason Invalid are set, both with the message
    "Invalid certificate ref.". *)
Theorem X10_https_listener_certificate_count (l : Listener) (t : ListenerTLSConfig)
    (routes : list RouteInfo) (parentName gatewayNamespace : string)
    (listenerReporter : ListenerReporter) :
  l_TLS l = Some t →
  tls_Mode t = Some TLSModeTerminate →
  length (tls_CertificateRefs t) ≠ 1%nat →
  translateHttpsFilterChain (httpsChainOf l routes) parentName gatewayNamespace listenerReporter
  = (inr (errors_New "only one certificate ref is supported for now"),
     routeEvents routes
     ++ [ListenerSetCondition listenerReporter
           {| lc_Type := ListenerConditionResolvedRefs; lc_Status := ConditionFalse;
              lc_Reason := ListenerReasonInvalidCertificateRef;
              lc_Message := "Invalid certificate ref." |};
         ListenerSetCondition listenerReporter
           {| lc_Type := ListenerConditionProgrammed; lc_Status := ConditionFalse;
              lc_Reason := ListenerReasonInvalid;
              lc_Message := "Invalid certificate ref." |}]).
Proof.
  intros Htls Hmode Hlen. rewrite translateHttpsFilterChain_eq.
  cbn [hs_tls hs_routesWithHosts httpsChainOf]. rewrite Htls.
  by rewrite translateSslConfig_ref_count.
Qed.

End https_chain.

(** ** Iteration order *)

Section iteration_order.
Context `{Collaborators}.
Context (R1 R2 : MapRange).
Hypothesis makeVhostName_inj :
  ∀ parentName h1 h2, makeVhostName parentName h1 = makeVhostName parentName h2 → h1 = h2.

Lemma httpsVhosts_order_irrelevant mfc parentName :
  @httpsVhosts _ R1 mfc parentName = @httpsVhosts _ R2 mfc parentName.
Proof.
  rewrite !https_vhosts_count by apply makeVhostName_inj.
  apply sortVhosts_order_irrelevant.
  - by rewrite !rangeOrder_perm.
  - rewrite <- list_fmap_compose. apply NoDup_fmap_2_strong.
    + intros [h1 r1] [h2 r2] H1 H2 Hn. simpl in Hn.
      apply (@elem_of_rangeOrder R1) in H1, H2.
      assert (h1 = h2) as -> by (by eapply makeVhostName_inj). congruence.
    + rewrite rangeOrder_perm. apply NoDup_map_to_list.
Qed.

Lemma translateHttpsFilterChain_order_irrelevant mfc parentName gatewayNamespace
    listenerReporter :
  @translateHttpsFilterChain _ R1 mfc parentName gatewayNamespace listenerReporter
  = @translateHttpsFilterChain _ R2 mfc parentName gatewayNamespace listenerReporter.
Proof.
  rewrite !translateHttpsFilterChain_eq.
  destruct (translateSslConfig _ _); [|done]. by rewrite httpsVhosts_order_irrelevant.
Qed.

Lemma TranslateListener_order_irrelevant ml :
  @TranslateListener _ R1 ml = @TranslateListener _ R2 ml.
Proof.
  unfold TranslateListener.
  assert (@translateHttpChains _ R1 ml = @translateHttpChains _ R2 ml) as ->; [|done].
  unfold translateHttpChains.
  assert (match ml_httpFilterChain ml with
          | Some fc =>
              httpFilterChain ←ᵣ @translateHttpFilterChain _ R1 fc (ml_name ml) ;;
              ret [httpFilterChain]
          | None => ret []
          end
          = match ml_httpFilterChain ml with
            | Some fc =>
                httpFilterChain ←ᵣ @translateHttpFilterChain _ R2 fc (ml_name ml) ;;
                ret [httpFilterChain]
            | None => ret []
            end) as ->.
  { destruct (ml_httpFilterChain ml) as [fc|]; [|done].
    rewrite (translateHttpFilterChain_order_irrelevant R1 R2); [done|].
    intros h1 h2 _ _. apply makeVhostName_inj. }
  apply bind_ext. intros httpFilterChains. apply forRange_ext. intros s mfc _.
  by rewrite translateHttpsFilterChain_order_irrelevant.
Qed.

(** X15. When [makeVhostName] never gives two hosts the same name, the
    whole result of [TranslateListeners], IR and events, is the same under
    every iteration order of the bucket maps. *)
Theorem X15_translation_order_irrelevant (gateway : Gateway) (rfg : RoutesForGwResult)
    (st : ListenerTranslatorConfig) :
  @TranslateListeners _ R1 gateway rfg st = @TranslateListeners _ R2 gateway rfg st.
Proof.
  unfold TranslateListeners. apply bind_ext. intros validatedListeners.
  unfold translateListeners. apply forRange_ext. intros s m _.
  by rewrite TranslateListener_order_irrelevant.
Qed.

End iteration_order.

(** ** Host containment at the edges *)

Lemma isHostContained_star lh : isHostContained "*" (Some lh) = true ↔ lh = "*".
Proof.
  rewrite isHostContained_spec. split; [|by left].
  intros [->|(suffix & pre & -> & Heq)]; [done|]. exfalso.
  pose proof (f_equal String.length Heq) as Hlen.
  rewrite !String_length_app in Hlen. simpl in Hlen.
  destruct pre as [|c pre], suffix as [|d suffix]; simpl in *; try lia. discriminate.
Qed.

Lemma isHostContained_wildcard_iff suffix host :
  isHostContained host (Some ("*." +:+ suffix)) = true ↔ ∃ pre, host = pre +:+ "." +:+ suffix.
Proof.
  rewrite isHostContained_spec. split.
  - intros [->|(suffix' & pre & Heq & ->)]; [by exists "*"|].
    apply (inj (String.app "*.")) in Heq as ->. by exists pre.
  - intros [pre ->]. right. by exists suffix, pre.
Qed.

(** X16. Host containment at the edges.  A listener hostname "*." followed
    by a suffix contains exactly the hosts that end in "." followed by the
    suffix, whatever stands before the dot, and so not the bare suffix.  A
    listener hostname that does not start with "*." contains only itself.
    The host "*", under which routes without hostnames are bucketed, is
    contained in no listener hostname but "*". *)
Theorem X16_isHostContained_edges :
  (∀ suffix host,
     isHostContained host (Some ("*." +:+ suffix)) = true
     ↔ ∃ pre, host = pre +:+ "." +:+ suffix)
  ∧ (∀ suffix, isHostContained suffix (Some ("*." +:+ suffix)) = false)
  ∧ (∀ lh host,
       HasPrefix lh "*." = false →
       (isHostContained host (Some lh) = true ↔ host = lh))
  ∧ (∀ lh, isHostContained "*" (Some lh) = true ↔ lh = "*").
Proof.
  split_and!.
  - apply isHostContained_wildcard_iff.
  - intros suffix. apply not_true_is_false. intros [pre Heq]%isHostContained_wildcard_iff.
    apply (f_equal String.length) in Heq. rewrite !String_length_app in Heq.
    simpl in Heq. lia.
  - intros lh host Hpre. unfold isHostContained. rewrite Hpre. simpl.
    apply String.eqb_eq.
  - apply isHostContained_star.
Qed.

Section catch_all.
Context `{Collaborators} `{MapRange}.

(** X17. In a plaintext chain whose listeners all have a hostname other
    than "*", the virtual host of "*", the bucket of the routes without
    hostnames, matches no listener: it carries no attached policies and
    the zero listener as ParentRef. *)
Theorem X17_catch_all_vhost_without_parent (fc : httpFilterChain) (parentName : string)
    (v : VirtualHost) :
  v ∈ hfc_Vhosts (translateHttpFilterChain fc parentName).1 →
  vh_Hostname v = "*" →
  Forall (λ p, ∃ h, l_Hostname (hp_gatewayListener p) = Some h ∧ h ≠ "*") (hc_parents fc) →
  vh_AttachedPolicies v = noPolicies ∧ vh_ParentRef v = zeroListener.
Proof.
  intros Hv Hhost Hparents.
  destruct (http_vhosts_spec fc parentName) as (_ & _ & Hfrom & _).
  destruct (Hfrom v Hv) as (routes & _ & Hveq).
  pose proof (f_equal vh_AttachedPolicies Hveq) as Hpol.
  pose proof (f_equal vh_ParentRef Hveq) as Hpar.
  cbn [vh_AttachedPolicies vh_ParentRef httpVhostOf] in Hpol, Hpar.
  rewrite Hpol, Hpar, Hhost.
  destruct (selectParent_spec "*" (hc_parents fc)) as [[_ ->]|(p & Hbest & _)]; [done|].
  exfalso. destruct Hbest as (pre & post & Hsplit & Hmatch & _).
  rewrite Forall_forall in Hparents.
  destruct (Hparents p) as (h & Hh & Hne).
  { rewrite Hsplit. apply elem_of_app. right. by apply elem_of_cons; left. }
  rewrite Hh in Hmatch. by apply isHostContained_star in Hmatch.
Qed.

End catch_all.

(** ** What a TCP or TLS chain produces *)

Section l4.
Context `{Collaborators}.

Lemma pretty_zero : pretty 0 = "0".
Proof. reflexivity. Qed.

Lemma translateTcpFilterChain_Some tc parentName out :
  (translateTcpFilterChain tc parentName).1 = Some out
  ↔ ∃ r tRoute matcher,
      selectedRoute tc = Some r
      ∧ (ri_Object r = TcpRouteIR tRoute ∧ matcher = noMatch
         ∨ ri_Object r = TlsRouteIR tRoute ∧ matcher = sniMatcher (tc_sniDomain tc))
      ∧ length (l4_Rules tRoute) = 1%nat
      ∧ l4_Backends tRoute ≠ []
      ∧ out = {| tcp_Common :=
                   {| FilterChainName := parentName +:+ "-" +:+ l4_Namespace tRoute +:+ "."
                                         +:+ l4_Name tRoute +:+ "-rule-0";
                      Matcher := matcher; TLS := None |};
                 tcp_BackendRefs := l4_Backends tRoute |}.
Proof.
  rewrite translateTcpFilterChain_selected.
  assert (∀ tRoute matcher,
            (translateL4Route parentName tRoute matcher).1 = Some out
            ↔ length (l4_Rules tRoute) = 1%nat
              ∧ l4_Backends tRoute ≠ []
              ∧ out = {| tcp_Common :=
                           {| FilterChainName := parentName +:+ "-" +:+ l4_Namespace tRoute
                                                 +:+ "." +:+ l4_Name tRoute +:+ "-rule-0";
                              Matcher := matcher; TLS := None |};
                         tcp_BackendRefs := l4_Backends tRoute |}) as Hl4.
  { intros tRoute matcher.
    destruct (decide (length (l4_Rules tRoute) = 1%nat)) as [Hone|Hnot].
    - rewrite translateL4Route_accepted by done. cbn [fst].
      unfold tcpHostNameOf. rewrite pretty_zero.
      destruct (l4_Backends tRoute) as [|b bs]; split.
      + done.
      + by intros (_ & ? & _).
      + intros [= <-]. done.
      + by intros (_ & _ & ->).
    - rewrite translateL4Route_rejected by done. split; [done|]. by intros (? & _). }
  destruct (selectedRoute tc) as [r|]; [|split; [done|by intros (? & ? & ? & [=] & _)]].
  split.
  - destruct (ri_Object r) as [tRoute|tRoute|src] eqn:Eobj; [| |done].
    + intros (? & ? & ->)%Hl4. exists r, tRoute, noMatch. split_and!; auto.
    + intros (? & ? & ->)%Hl4. exists r, tRoute, (sniMatcher (tc_sniDomain tc)).
      split_and!; auto.
  - intros (r' & tRoute & matcher & [= <-] & [[-> ->]|[-> ->]] & Hone & Hne & ->);
      by apply Hl4.
Qed.

(** X18. [translateTcpFilterChain] produces a TcpIR exactly when the
    bound route with the earliest creation timestamp is a TCPRoute or a
    TLSRoute with exactly one rule and at least one backend.  The TcpIR is
    named "<parent>-<namespace>.<name>-rule-0", has no TLS bundle and lists
    the backends of the route; its matcher is empty for a TCPRoute and the
    SNI domain of the chain for a TLSRoute.  When nothing is produced,
    either nothing was reported, or the route was accepted and has no
    backend: Accepted=True was set on each of its parent refs. *)
Theorem X18_tcp_chain_output (tc : tcpFilterChain) (parentName : string) :
  (∀ out,
     (translateTcpFilterChain tc parentName).1 = Some out
     ↔ ∃ r tRoute matcher,
         selectedRoute tc = Some r
         ∧ (ri_Object r = TcpRouteIR tRoute ∧ matcher = noMatch
            ∨ ri_Object r = TlsRouteIR tRoute ∧ matcher = sniMatcher (tc_sniDomain tc))
         ∧ length (l4_Rules tRoute) = 1%nat
         ∧ l4_Backends tRoute ≠ []
         ∧ out = {| tcp_Common :=
                      {| FilterChainName := parentName +:+ "-" +:+ l4_Namespace tRoute +:+ "."
                                            +:+ l4_Name tRoute +:+ "-rule-0";
                         Matcher := matcher; TLS := None |};
                    tcp_BackendRefs := l4_Backends tRoute |})
  ∧ ((translateTcpFilterChain tc parentName).1 = None →
     (translateTcpFilterChain tc parentName).2 = []
     ∨ ∃ r tRoute,
         selectedRoute tc = Some r
         ∧ (ri_Object r = TcpRouteIR tRoute ∨ ri_Object r = TlsRouteIR tRoute)
         ∧ length (l4_Rules tRoute) = 1%nat
         ∧ l4_Backends tRoute = []
         ∧ (translateTcpFilterChain tc parentName).2
           = (λ parentRef, RouteSetCondition (l4Reporter tRoute parentRef) acceptedTrue)
               <$> l4_ParentRefs tRoute).
Proof.
  split; [intros out; apply translateTcpFilterChain_Some|].
  rewrite translateTcpFilterChain_selected.
  assert (∀ tRoute matcher,
            (translateL4Route parentName tRoute matcher).1 = None →
            (translateL4Route parentName tRoute matcher).2 = []
            ∨ length (l4_Rules tRoute) = 1%nat
              ∧ l4_Backends tRoute = []
              ∧ (translateL4Route parentName tRoute matcher).2
                = (λ parentRef, RouteSetCondition (l4Reporter tRoute parentRef) acceptedTrue)
                    <$> l4_ParentRefs tRoute) as Hl4.
  { intros tRoute matcher.
    destruct (decide (length (l4_Rules tRoute) = 1%nat)) as [Hone|Hnot].
    - rewrite translateL4Route_accepted by done. cbn [fst snd]. unfold l4Events.
      destruct (l4_Backends tRoute) as [|b bs]; [|done]. intros _. right.
      split_and!; [done..|]. csimpl. by rewrite (right_id_L [] (++)).
    - rewrite translateL4Route_rejected by done. by left. }
  destruct (selectedRoute tc) as [r|]; [|by left].
  destruct (ri_Object r) as [tRoute|tRoute|src] eqn:Eobj; [| |by left].
  - intros [?|(? & ? & ?)]%Hl4; [by left|right]. exists r, tRoute. split_and!; auto.
  - intros [?|(? & ? & ?)]%Hl4; [by left|right]. exists r, tRoute. split_and!; auto.
Qed.

End l4.

(** ** Where the chains of the output come from *)

Section provenance.
Context `{Collaborators} `{MapRange}.

Lemma merged_listener_members ns gw rfg st listeners m l :
  m ∈ Listeners (mergeGWListeners ns listeners gw rfg st) →
  l ∈ listenersOnPort (ml_port m) listeners →
  l ∈ listeners ∧ GenerateListenerName l = ml_name m.
Proof.
  intros Hm [[Hport _] Hin]%list_elem_of_filter. split; [done|].
  destruct (merged_listener_fields ns gw rfg st listeners m Hm) as (-> & _).
  unfold GenerateListenerName, GenerateListenerNameFromPort. by rewrite Hport.
Qed.

(** X19. Where the HTTP filter chains of the output come from.  No
    ListenerIR of [TranslateListeners] carries attached policies.  Every
    entry of its HttpFilterChain list is either the plaintext chain of the
    port, named like the ListenerIR, with no matcher, no TLS bundle and no
    attached policies, or the chain of one validated HTTPS listener of that
    port: named by the route key of the listener, matching the hostname of
    the listener as SNI domain, carrying its attached policies and the TLS
    bundle resolved from its TLS block. *)
Theorem X19_http_chains_provenance (gateway : Gateway) (rfg : RoutesForGwResult)
    (st : ListenerTranslatorConfig) :
  Forall (λ out,
    lir_AttachedPolicies out = noPolicies
    ∧ Forall (λ c,
        (FilterChainName (hfc_Common c) = lir_Name out
         ∧ Matcher (hfc_Common c) = noMatch
         ∧ TLS (hfc_Common c) = None
         ∧ hfc_AttachedPolicies c = noPolicies)
        ∨ ∃ l,
            l ∈ (validateGateway gateway).1
            ∧ l_Protocol l = HTTPSProtocolType
            ∧ GenerateListenerName l = lir_Name out
            ∧ FilterChainName (hfc_Common c) = GenerateRouteKey (l_Parent l) (l_Name l)
            ∧ Matcher (hfc_Common c) = sniMatcher (l_Hostname l)
            ∧ hfc_AttachedPolicies c = l_AttachedPolicies l
            ∧ translateSslConfig (gw_Namespace gateway)
                (Some (default emptyTLSConfig (l_TLS l)))
              = inl (TLS (hfc_Common c)))
      (lir_HttpFilterChain out))
    (TranslateListeners gateway rfg st).1.
Proof.
  rewrite TranslateListeners_fst, Forall_fmap, Forall_forall. intros m Hm.
  unfold compose. rewrite TranslateListener_fst.
  cbn [lir_AttachedPolicies lir_HttpFilterChain lir_Name]. split; [done|].
  rewrite translateHttpChains_fst, Forall_app. split.
  - destruct (ml_httpFilterChain m) as [fc|]; simpl; [|constructor].
    constructor; [|constructor]. left. by rewrite translateHttpFilterChain_eq.
  - apply Forall_forall. intros c (mfc & Hmfc & Hout)%list_elem_of_omap. right.
    destruct (merged_listener_closed_form _ _ _ _ _ m Hm) as (first & rest & E & Heq).
    assert (ml_httpsFilterChains m
            = httpsChainFor rfg <$> withProtocol HTTPSProtocolType (first :: rest)) as Hchains
      by (by rewrite Heq).
    rewrite Hchains in Hmfc. apply list_elem_of_fmap in Hmfc as (l & -> & Hl).
    apply list_elem_of_filter in Hl as [Hproto Hl]. rewrite <- E in Hl.
    destruct (merged_listener_members _ _ _ _ _ m l Hm Hl) as [Hin Hname].
    destruct (merged_listener_fields _ _ _ _ _ m Hm) as (_ & Hns & _).
    exists l. split_and!; [done..| | | |].
    all: destruct (translateSslConfig (ml_gatewayNamespace m) (hs_tls (httpsChainFor rfg l)))
           as [sslConfig|err] eqn:Essl;
      [|by rewrite (httpsOutput_error m _ err Essl) in Hout].
    all: destruct (httpsOutput_ok m _ sslConfig Essl) as (chain & Hsome & Hn & Hma & Htls & Hpol);
      rewrite Hsome in Hout; injection Hout as <-.
    + done.
    + done.
    + done.
    + rewrite Htls, <- Essl, Hns. unfold httpsChainFor, httpsChainOf. cbn [hs_tls].
      by destruct (l_TLS l).
Qed.

(** X20. Where the TcpIRs of the output come from.  Every TcpIR of a
    ListenerIR of [TranslateListeners] comes from one validated TCP or TLS
    listener of that port and from the route bound to it with the earliest
    creation timestamp, which has exactly one rule.  It is named
    "<listener name>-<namespace>.<name>-rule-0", carries no TLS bundle and
    the backends of the route, at least one; it matches the hostname of the
    listener as SNI domain when the route is a TLSRoute and the listener a
    TLS listener, and nothing otherwise. *)
Theorem X20_tcp_chains_provenance (gateway : Gateway) (rfg : RoutesForGwResult)
    (st : ListenerTranslatorConfig) :
  Forall (λ out,
    Forall (λ t,
      ∃ l r tRoute,
        l ∈ (validateGateway gateway).1
        ∧ (l_Protocol l = TCPProtocolType ∨ l_Protocol l = TLSProtocolType)
        ∧ GenerateListenerName l = lir_Name out
        ∧ r ∈ routesOf rfg l
        ∧ (∀ y, y ∈ routesOf rfg l → creationTime r ≤ creationTime y)
        ∧ (ri_Object r = TcpRouteIR tRoute ∧ Matcher (tcp_Common t) = noMatch
           ∨ ri_Object r = TlsRouteIR tRoute
             ∧ Matcher (tcp_Common t)
               = (if decide (l_Protocol l = TLSProtocolType)
                  then sniMatcher (l_Hostname l) else noMatch))
        ∧ length (l4_Rules tRoute) = 1%nat
        ∧ FilterChainName (tcp_Common t)
          = lir_Name out +:+ "-" +:+ l4_Namespace tRoute +:+ "." +:+ l4_Name tRoute
            +:+ "-rule-0"
        ∧ TLS (tcp_Common t) = None
        ∧ tcp_BackendRefs t = l4_Backends tRoute
        ∧ tcp_BackendRefs t ≠ [])
      (lir_TcpFilterChain out))
    (TranslateListeners gateway rfg st).1.
Proof.
  rewrite TranslateListeners_fst, Forall_fmap, Forall_forall. intros m Hm.
  unfold compose. rewrite TranslateListener_fst. cbn [lir_TcpFilterChain lir_Name].
  rewrite translateTcpChains_fst. apply Forall_forall.
  intros t (tfc & Htfc & Hout)%list_elem_of_omap.
  destruct (merged_listener_closed_form _ _ _ _ _ m Hm) as (first & rest & E & Heq).
  assert (ml_TcpFilterChains m
          = l4ChainFor rfg <$> filter (λ l, l_Protocol l = TCPProtocolType
                                             ∨ l_Protocol l = TLSProtocolType) (first :: rest))
    as Hchains by (by rewrite Heq).
  rewrite Hchains in Htfc. apply list_elem_of_fmap in Htfc as (l & -> & Hl).
  apply list_elem_of_filter in Hl as [Hproto Hl]. rewrite <- E in Hl.
  destruct (merged_listener_members _ _ _ _ _ m l Hm Hl) as [Hin Hname].
  unfold tcpOutput in Hout.
  apply translateTcpFilterChain_Some in Hout
    as (r & tRoute & matcher & Hsel & Hkind & Hone & Hne & ->).
  destruct (selectedRoute_min _ _ Hsel) as [Hr Hmin].
  assert (tp_routesWithHosts (tc_parents (l4ChainFor rfg l)) = routesOf rfg l) as Hroutes.
  { unfold l4ChainFor. by destruct (decide _). }
  assert (tc_sniDomain (l4ChainFor rfg l)
          = if decide (l_Protocol l = TLSProtocolType) then l_Hostname l else None) as Hsni.
  { unfold l4ChainFor. by destruct (decide _). }
  rewrite Hroutes in Hr, Hmin. rewrite Hsni in Hkind.
  exists l, r, tRoute. cbn [tcp_Common tcp_BackendRefs FilterChainName Matcher TLS].
  split_and!; [done..| |done|done|done|done|done].
  destruct Hkind as [[? ->]|[? ->]]; [by left|right]. split; [done|].
  by destruct (decide _).
Qed.

End provenance.

(** ** Listener conditions *)

Section listener_conditions.
Context `{Collaborators} `{MapRange}.

Lemma reportAllTcpFailed_events ml ev :
  ev ∈ (reportAllTcpFailed ml (translateTcpChains ml).1).2 →
  Forall (λ tfc, tcpOutput ml tfc = None) (ml_TcpFilterChains ml)
  ∧ ∃ tfc, tfc ∈ ml_TcpFilterChains ml
           ∧ ev = ListenerSetCondition (tc_listenerReporter tfc) noBackendsCondition.
Proof.
  unfold reportAllTcpFailed. rewrite translateTcpChains_fst.
  destruct (omap (tcpOutput ml) (ml_TcpFilterChains ml)) as [|t ts] eqn:Eout.
  2:{ simpl. rewrite andb_false_r. by intros ?%elem_of_nil. }
  destruct (0 <? length (ml_TcpFilterChains ml))%nat; simpl; [|by intros ?%elem_of_nil].
  rewrite (forRange_snd _ _ _
    (λ tfc, [ListenerSetCondition (tc_listenerReporter tfc) noBackendsCondition])); [|done].
  rewrite list_bind_singleton. intros (tfc & -> & Hin)%list_elem_of_fmap. split; [|by exists tfc].
  apply Forall_forall. intros tfc' Hin'.
  destruct (tcpOutput ml tfc') as [t|] eqn:E; [|done]. exfalso.
  assert (t ∈ omap (tcpOutput ml) (ml_TcpFilterChains ml)) as Ht
    by (apply list_elem_of_omap; by exists tfc').
  rewrite Eout in Ht. by apply elem_of_nil in Ht.
Qed.

(** X21. Which listener conditions the translation sets.  Suppose the
    route translator sets none.  Then every listener condition among the
    events of [TranslateListeners] was set by [validateGateway], or it has
    status False and is of one of two kinds.  Either it is one of the two
    conditions of a failed TLS resolution of an HTTPS chain, ResolvedRefs
    with the reason of the error or Programmed with reason Invalid, with
    the message of the error, set on the reporter of the merged listener of
    the port.  Or it is the Programmed=False condition of the roll-up, set
    on the reporter of a TCP or TLS chain of a port none of whose chains
    produced a TcpIR.  The translation itself never sets a listener
    condition with status True. *)
Theorem X21_listener_conditions_only_negative (gateway : Gateway) (rfg : RoutesForGwResult)
    (st : ListenerTranslatorConfig) (r : ListenerReporter) (c : ListenerCondition) :
  (∀ ri rep ev, ev ∈ (TranslateGatewayHTTPRouteRules ri rep).2 →
                ∀ r c, ev ≠ ListenerSetCondition r c) →
  ListenerSetCondition r c ∈ (TranslateListeners gateway rfg st).2 →
  ListenerSetCondition r c ∈ (validateGateway gateway).2
  ∨ (lc_Status c = ConditionFalse
     ∧ ∃ m,
         m ∈ Listeners (mergeGWListeners (gw_Namespace gateway) (validateGateway gateway).1
                          gateway rfg st)
         ∧ ((∃ mfc err,
               mfc ∈ ml_httpsFilterChains m
               ∧ translateSslConfig (ml_gatewayNamespace m) (hs_tls mfc) = inr err
               ∧ r = ml_listenerReporter m
               ∧ lc_Message c = tlsErrorMessage err
               ∧ (lc_Type c = ListenerConditionResolvedRefs ∧ lc_Reason c = tlsErrorReason err
                  ∨ lc_Type c = ListenerConditionProgrammed
                    ∧ lc_Reason c = ListenerReasonInvalid))
            ∨ (∃ tfc,
                 tfc ∈ ml_TcpFilterChains m
                 ∧ r = tc_listenerReporter tfc
                 ∧ c = noBackendsCondition
                 ∧ Forall (λ tfc, tcpOutput m tfc = None) (ml_TcpFilterChains m)))).
Proof.
  intros Hroutes. rewrite TranslateListeners_snd, elem_of_app.
  intros [Hval|Hev]; [by left|right].
  apply list_elem_of_bind in Hev as (m & Hev & Hm).
  assert (∀ routes ev, ev ∈ routeEvents routes → ∀ r c, ev ≠ ListenerSetCondition r c)
    as Hre.
  { intros routes ev (ri & Hin & _)%list_elem_of_bind. by eapply Hroutes. }
  rewrite TranslateListener_snd, !elem_of_app in Hev.
  destruct Hev as [Hhttp|[Htcp|Hroll]].
  - rewrite translateHttpChains_snd, elem_of_app in Hhttp.
    destruct Hhttp as [Hplain|Hsecure].
    + exfalso. destruct (ml_httpFilterChain m) as [fc|]; [|by apply elem_of_nil in Hplain].
      rewrite translateHttpFilterChain_eq in Hplain. cbn [snd] in Hplain.
      rewrite (forRange_snd _ _ _ (λ parent, routeEvents (hp_routesWithHosts parent)))
        in Hplain by (intros; apply buildRoutesPerHost_snd).
      apply list_elem_of_bind in Hplain as (parent & Hin & _). by eapply Hre.
    + apply list_elem_of_bind in Hsecure as (mfc & Hin & Hmfc).
      rewrite translateHttpsFilterChain_eq in Hin.
      destruct (translateSslConfig _ _) as [sslConfig|err] eqn:Essl; cbn [snd] in Hin.
      { exfalso. by eapply Hre. }
      apply elem_of_app in Hin as [Hin|Hin]; [exfalso; by eapply Hre|].
      unfold tlsFailureEvents in Hin.
      apply elem_of_cons in Hin as [[= -> ->]|Hin];
        [|apply list_elem_of_singleton in Hin as [= -> ->]].
      * split; [done|]. exists m. split; [done|]. left. exists mfc, err.
        split_and!; [done..|]. by left.
      * split; [done|]. exists m. split; [done|]. left. exists mfc, err.
        split_and!; [done..|]. by right.
  - exfalso. rewrite translateTcpChains_snd in Htcp.
    apply list_elem_of_bind in Htcp as (tfc & Hin & _).
    by eapply translateTcpFilterChain_events.
  - apply reportAllTcpFailed_events in Hroll as (Hall & tfc & Hin & [= -> ->]).
    split; [done|]. exists m. split; [done|]. right. by exists tfc.
Qed.

End listener_conditions.

(** ** The further properties on the examples *)

Section more_examples.
Existing Instance exampleCollaborators.
Existing Instance rangeForward.

(** The TCP and the TLS listener of [l4Gateway] share port 9000 with a
    listener of an unknown protocol: two chains, each with the reporter of
    its own listener, the second with the SNI domain of the TLS listener. *)
Lemma X4_l4_gateway :
  filter (λ l, l_Protocol l = TCPProtocolType ∨ l_Protocol l = TLSProtocolType)
    (listenersOnPort 9000 l4Listeners) ≠ []
  ∧ ∃ lis,
      onPort 9000 (Listeners (@mergeGWListeners exampleCollaborators "default" l4Listeners
                                l4Gateway noRoutes exampleSettings)) = [lis]
      ∧ tc_listenerReporter <$> ml_TcpFilterChains lis
        = [{| lr_Parent := "gw"; lr_ListenerName := "plain" |};
           {| lr_Parent := "gw"; lr_ListenerName := "sni" |}]
      ∧ tc_sniDomain <$> ml_TcpFilterChains lis = [None; Some "db.example.com"].
Proof.
  assert (filter (λ l, l_Protocol l = TCPProtocolType ∨ l_Protocol l = TLSProtocolType)
            (listenersOnPort 9000 l4Listeners) ≠ []) as Hne
    by (vm_compute; discriminate).
  split; [exact Hne|].
  destruct (@X4_l4_listeners_keep_separate_chains exampleCollaborators
              "default" l4Gateway noRoutes exampleSettings l4Listeners 9000 Hne)
    as (lis & Hon & Hall & _).
  exists lis. split; [exact Hon|].
  remember (ml_TcpFilterChains lis) as chains eqn:Echains. clear Echains.
  change (filter (λ l, l_Protocol l = TCPProtocolType ∨ l_Protocol l = TLSProtocolType)
            (listenersOnPort 9000 l4Listeners))
    with [exampleListener "plain" TCPProtocolType 9000 None None [];
          exampleListener "sni" TLSProtocolType 9000 (Some "db.example.com") None []] in Hall.
  inversion Hall as [|l1 c1 ls1 cs1 (R1 & _ & _ & S1 & _) Hall1]; subst.
  inversion Hall1 as [|l2 c2 ls2 cs2 (R2 & _ & _ & S2 & _) Hall2]; subst.
  inversion Hall2; subst. simpl. rewrite R1, R2, S1, S2. split; reflexivity.
Defined.

(** Port 9000 of [tlsFirstGateway] is created by its TLS listener: the
    merged listener has that listener, its reporter and the zero gateway. *)
Lemma X5_tls_first_gateway :
  ∃ m,
    Listeners (@mergeGWListeners exampleCollaborators "default" tlsFirstListeners
                 tlsFirstGateway noRoutes exampleSettings) = [m]
    ∧ l_Name (ml_listener m) = "sni"
    ∧ ml_listenerReporter m = {| lr_Parent := "gw"; lr_ListenerName := "sni" |}
    ∧ ml_gateway m = zeroGateway.
Proof.
  set (merged := @mergeGWListeners exampleCollaborators "default" tlsFirstListeners
                   tlsFirstGateway noRoutes exampleSettings).
  assert (∃ m, Listeners merged = [m] ∧ ml_port m = 9000) as (m & Hm & Hport).
  { eexists. split; [vm_compute; reflexivity|reflexivity]. }
  exists m. split; [exact Hm|].
  destruct (@X5_merged_listener_taken_from_first exampleCollaborators rangeForward
              "default" tlsFirstGateway noRoutes exampleSettings tlsFirstListeners m)
    as (first & rest & E & Hl & Hr & Hg & _).
  { fold merged. rewrite Hm. apply elem_of_cons; left. reflexivity. }
  rewrite Hport in E.
  change (listenersOnPort 9000 tlsFirstListeners) with tlsFirstListeners in E.
  injection E as <- <-. rewrite Hl, Hr, Hg. split; [reflexivity|]. split; reflexivity.
Defined.

(** [openListener] has no TLS block: its chain is emitted without a
    bundle and nothing is reported. *)
Lemma X9_open_listener :
  (∀ t, l_TLS openListener = Some t → tls_Mode t ≠ Some TLSModeTerminate)
  ∧ @translateHttpsFilterChain exampleCollaborators rangeForward
      (httpsChainOf openListener []) "gw/open" "default"
      {| lr_Parent := "gw"; lr_ListenerName := "open" |}
    = (inl {| hfc_Common := {| FilterChainName := "gw/open";
                               Matcher := {| SniDomains := ["open.example.com"] |};
                               TLS := None |};
              hfc_AttachedPolicies := ["open-policy"];
              hfc_Vhosts := [] |},
       []).
Proof.
  assert (∀ t, l_TLS openListener = Some t → tls_Mode t ≠ Some TLSModeTerminate) as Hmode.
  { intros t Ht. discriminate Ht. }
  split; [exact Hmode|].
  rewrite (@X9_https_listener_without_termination exampleCollaborators rangeForward
             openListener [] "gw/open" "default" _ Hmode).
  vm_compute. reflexivity.
Defined.

(** [noCertListener] terminates TLS and names no certificate. *)
Lemma X10_no_cert_listener :
  length (tls_CertificateRefs {| tls_Mode := Some TLSModeTerminate;
                                 tls_CertificateRefs := [] |}) ≠ 1%nat
  ∧ @translateHttpsFilterChain exampleCollaborators rangeForward
      (httpsChainOf noCertListener []) "gw/nocert" "default"
      {| lr_Parent := "gw"; lr_ListenerName := "nocert" |}
    = (inr (errors_New "only one certificate ref is supported for now"),
       [ListenerSetCondition {| lr_Parent := "gw"; lr_ListenerName := "nocert" |}
          {| lc_Type := ListenerConditionResolvedRefs; lc_Status := ConditionFalse;
             lc_Reason := ListenerReasonInvalidCertificateRef;
             lc_Message := "Invalid certificate ref." |};
        ListenerSetCondition {| lr_Parent := "gw"; lr_ListenerName := "nocert" |}
          {| lc_Type := ListenerConditionProgrammed; lc_Status := ConditionFalse;
             lc_Reason := ListenerReasonInvalid;
             lc_Message := "Invalid certificate ref." |}]).
Proof.
  assert (length (tls_CertificateRefs {| tls_Mode := Some TLSModeTerminate;
                                         tls_CertificateRefs := [] |}) ≠ 1%nat) as Hlen
    by (simpl; lia).
  split; [exact Hlen|].
  exact (@X10_https_listener_certificate_count exampleCollaborators rangeForward
           noCertListener _ [] "gw/nocert" "default" _ eq_refl eq_refl Hlen).
Defined.

(** The route of [hostlessRouteChain] declares no hostname and its
    listener declares "api.example.com": the virtual host "*" has no
    policies and no listener. *)
Lemma X17_hostless_route :
  catchAllVhost ∈ hfc_Vhosts (@translateHttpFilterChain exampleCollaborators rangeForward
                                hostlessRouteChain "listener~80").1
  ∧ Forall (λ p, ∃ h, l_Hostname (hp_gatewayListener p) = Some h ∧ h ≠ "*")
      (hc_parents hostlessRouteChain)
  ∧ vh_AttachedPolicies catchAllVhost = noPolicies
  ∧ vh_ParentRef catchAllVhost = zeroListener.
Proof.
  assert (catchAllVhost ∈ hfc_Vhosts (@translateHttpFilterChain exampleCollaborators
                                        rangeForward hostlessRouteChain "listener~80").1)
    as Hin.
  { apply list_elem_of_lookup. exists 0%nat. vm_compute. reflexivity. }
  assert (Forall (λ p, ∃ h, l_Hostname (hp_gatewayListener p) = Some h ∧ h ≠ "*")
            (hc_parents hostlessRouteChain)) as Hparents.
  { repeat constructor. eexists. split; [reflexivity|discriminate]. }
  split; [exact Hin|]. split; [exact Hparents|].
  exact (@X17_catch_all_vhost_without_parent exampleCollaborators rangeForward
           hostlessRouteChain "listener~80" catchAllVhost Hin eq_refl Hparents).
Defined.

(** In [webChain] both routes list "api.example.com": the virtual host
    has the rules of both. *)
Lemma X13_web_chain :
  apiVhost ∈ hfc_Vhosts (@translateHttpFilterChain exampleCollaborators rangeForward
                           webChain "listener~80").1
  ∧ vh_Rules apiVhost
    ≡ₚ ToRoutes (bucketOf "api.example.com" (hc_parents webChain ≫= hp_routesWithHosts))
  ∧ ToRoutes (bucketOf "api.example.com" (hc_parents webChain ≫= hp_routesWithHosts))
    = [{| rm_Name := "catalog" |}; {| rm_Name := "orders" |}].
Proof.
  assert (apiVhost ∈ hfc_Vhosts (@translateHttpFilterChain exampleCollaborators rangeForward
                                   webChain "listener~80").1) as Hin.
  { apply list_elem_of_lookup. exists 0%nat. vm_compute. reflexivity. }
  destruct (@X13_http_vhost_rules exampleCollaborators rangeForward webChain "listener~80"
              apiVhost Hin) as (_ & Hperm & _).
  split; [exact Hin|]. split; [exact Hperm|]. vm_compute. reflexivity.
Defined.

(** The certificate of [shopChain] resolves: the chain is emitted with
    the bundle and the virtual host of "shop.example.com". *)
Lemma X14_shop_chain :
  @translateSslConfig exampleCollaborators "default" (hs_tls shopChain)
  = inl (Some {| PrivateKey := "KEY"; CertChain := "CERT"; CA := "" |})
  ∧ ∃ chain,
      (@translateHttpsFilterChain exampleCollaborators rangeForward shopChain "gw/shop"
         "default" {| lr_Parent := "gw"; lr_ListenerName := "shop" |}).1 = inl chain
      ∧ TLS (hfc_Common chain) = Some {| PrivateKey := "KEY"; CertChain := "CERT"; CA := "" |}
      ∧ NoDup (vh_Name <$> hfc_Vhosts chain)
      ∧ "gw/shop~shop_example_com" ∈ vh_Name <$> hfc_Vhosts chain.
Proof.
  assert (@translateSslConfig exampleCollaborators "default" (hs_tls shopChain)
          = inl (Some {| PrivateKey := "KEY"; CertChain := "CERT"; CA := "" |})) as Hssl
    by (vm_compute; reflexivity).
  split; [exact Hssl|].
  destruct (@X14_https_chain_vhosts exampleCollaborators rangeForward shopChain "gw/shop"
              "default" {| lr_Parent := "gw"; lr_ListenerName := "shop" |} _ Hssl)
    as (chain & Hchain & Hcommon & _ & _ & Hnd & _ & Hall).
  exists chain. split; [exact Hchain|]. split; [rewrite Hcommon; reflexivity|].
  split; [exact Hnd|].
  apply (Hall "shop.example.com"). vm_compute. discriminate.
Defined.

(** With a sanitiser that leaves names as they are, the hostnames of
    [collidingRoutes] no longer collide: forward and backward iteration
    give the same result. *)
Lemma X15_plain_sanitiser :
  @TranslateListeners plainCollaborators rangeForward collidingGateway collidingRoutes
    exampleSettings
  = @TranslateListeners plainCollaborators rangeBackward collidingGateway collidingRoutes
      exampleSettings.
Proof.
  apply (@X15_translation_order_irrelevant plainCollaborators rangeForward rangeBackward).
  intros parentName h1 h2 Heq. unfold makeVhostName in Heq. simpl in Heq.
  apply (inj (String.app parentName)) in Heq.
  apply (inj (String.app "~")) in Heq. exact Heq.
Defined.

(** Port 9000 of [idleTcpPort] is bound as 9000. *)
Lemma X7_idle_tcp_port :
  - 2 ^ 31 ≤ ml_port idleTcpPort < 2 ^ 31
  ∧ lir_BindPort (@TranslateListener exampleCollaborators rangeForward idleTcpPort).1 = 9000.
Proof.
  assert (- 2 ^ 31 ≤ ml_port idleTcpPort < 2 ^ 31) as Hrange by (simpl; lia).
  split; [exact Hrange|].
  rewrite (@X7_bind_port_of_int32 exampleCollaborators rangeForward idleTcpPort Hrange).
  reflexivity.
Defined.

(** The ResolvedRefs=False condition in the events of [halfBrokenGateway]
    stems from an HTTPS chain of the merged listener of port 443, whose
    reporter is the one of "shop". *)
Lemma X21_half_broken_gateway :
  ListenerSetCondition {| lr_Parent := "gw"; lr_ListenerName := "shop" |}
    {| lc_Type := ListenerConditionResolvedRefs; lc_Status := ConditionFalse;
       lc_Reason := ListenerReasonInvalidCertificateRef;
       lc_Message := "Secret default/missing not found." |}
  ∈ (@TranslateListeners exampleCollaborators rangeForward halfBrokenGateway noRoutes
       exampleSettings).2
  ∧ ∃ m mfc,
      m ∈ Listeners (@mergeGWListeners exampleCollaborators "default"
                       (gw_Listeners halfBrokenGateway) halfBrokenGateway noRoutes
                       exampleSettings)
      ∧ mfc ∈ ml_httpsFilterChains m
      ∧ ml_listenerReporter m = {| lr_Parent := "gw"; lr_ListenerName := "shop" |}.
Proof.
  set (r := {| lr_Parent := "gw"; lr_ListenerName := "shop" |}).
  set (c := {| lc_Type := ListenerConditionResolvedRefs; lc_Status := ConditionFalse;
               lc_Reason := ListenerReasonInvalidCertificateRef;
               lc_Message := "Secret default/missing not found." |}).
  assert (ListenerSetCondition r c
          ∈ (@TranslateListeners exampleCollaborators rangeForward halfBrokenGateway noRoutes
               exampleSettings).2) as Hin.
  { apply list_elem_of_lookup. exists 0%nat. vm_compute. reflexivity. }
  split; [exact Hin|].
  destruct (@X21_listener_conditions_only_negative exampleCollaborators rangeForward
              halfBrokenGateway noRoutes exampleSettings r c) as [Hval|(_ & m & Hm & Hcase)].
  - intros ri rep ev Hev. simpl in Hev. apply elem_of_nil in Hev. destruct Hev.
  - exact Hin.
  - simpl in Hval. apply elem_of_nil in Hval. destruct Hval.
  - destruct Hcase as [(mfc & err & Hmfc & _ & Hr & _)|(tfc & _ & _ & Hc & _)].
    + exists m, mfc. split; [exact Hm|]. split; [exact Hmfc|]. symmetry. exact Hr.
    + discriminate Hc.
Defined.

End more_examples.
